(** * Virtual Learning Platform: the attention-tracking session pipeline

  A shallow embedding of
  - [server/storage.ts]  (class [MemStorage], the in-memory repository),
  - [client/src/hooks/useAttentionTracking.tsx]  (the session hook),
  - [client/src/components/VideoPlayer.tsx]  (webcam acquisition and release),
  - [client/src/lib/api.ts]  (the gateway calls),
  - [client/src/pages/Results.tsx]  (latest-result selection and histogram
    percentages),
  followed by the properties stated about them.

  Conventions.  Integer-valued JavaScript numbers that the code only
  compares and increments (ids, counters) are [Z]: the counters start at 1
  and grow by [++], which is exact on binary64 below 2^53, a count of
  records no in-memory [Map] reaches.  Numbers that come out of
  [JSON.parse] and go through [/], [*], [||] or [Math.round] are IEEE
  binary64 values ([PrimFloat.float]).  A JavaScript [Map] is an
  insertion-ordered association list.  An [async] function whose body has
  no [await] is a plain state transformer; where a body awaits a network
  call, the outcome of that call is an argument of the model. *)

From Stdlib Require Import ZArith List Bool String Lia Sorted.
From Stdlib Require Import PrimFloat FloatOps SpecFloat QArith Lqa.
Import ListNotations.
Local Open Scope string_scope.
Local Open Scope list_scope.
Local Open Scope Z_scope.

Set Implicit Arguments.

(* ===================================================================== *)
(** ** JavaScript [Map<number, V>] *)
(* ===================================================================== *)

(** Iteration follows insertion order; [set] on a key already present keeps
  the key's position and replaces its value. *)
Module JSMap.

Definition t (V : Type) : Type := list (Z * V).

Definition empty {V : Type} : t V := [].

Fixpoint set {V : Type} (k : Z) (v : V) (m : t V) : t V :=
  match m with
  | [] => [(k, v)]
  | (k', v') :: m' =>
      if k' =? k then (k, v) :: m' else (k', v') :: set k v m'
  end.

Fixpoint get {V : Type} (k : Z) (m : t V) : option V :=
  match m with
  | [] => None
  | (k', v') :: m' => if k' =? k then Some v' else get k m'
  end.

Definition keys {V : Type} (m : t V) : list Z := map fst m.

(** [Array.from(m.values())] *)
Definition values {V : Type} (m : t V) : list V := map snd m.

End JSMap.

(* ===================================================================== *)
(** ** shared/schema: the four record types and their insert shapes *)
(* ===================================================================== *)

(** The insert types come from [createInsertSchema]: the [serial] column
  [id] is optional in them, every other column is required. *)

Module User.
Record t := mk { id : Z; username : string; email : string; password : string }.
End User.

Module InsertUser.
Record t := mk { id : option Z; username : string; email : string; password : string }.
End InsertUser.

Module Subject.
Record t := mk { id : Z; name : string; code : string;
                 facultyName : string; schedule : string }.
End Subject.

Module InsertSubject.
Record t := mk { id : option Z; name : string; code : string;
                 facultyName : string; schedule : string }.
End InsertSubject.

Module Enrollment.
Record t := mk { id : Z; userId : Z; subjectId : Z }.
End Enrollment.

Module InsertEnrollment.
Record t := mk { id : option Z; userId : Z; subjectId : Z }.
End InsertEnrollment.

(** Timestamps are milliseconds since the epoch. *)
Module TrackingResult.
Record t := mk {
  id : Z; userId : Z; subjectId : Z;
  sessionDate : Z; startTime : Z; endTime : Z;
  eyeMovementCount : Z; eyeBlinkCount : Z; postureChangeCount : Z;
  attentivenessScore : Z; sessionData : string }.
End TrackingResult.

Module InsertTrackingResult.
Record t := mk {
  id : option Z; userId : Z; subjectId : Z;
  sessionDate : Z; startTime : Z; endTime : Z;
  eyeMovementCount : Z; eyeBlinkCount : Z; postureChangeCount : Z;
  attentivenessScore : Z; sessionData : string }.
End InsertTrackingResult.

(* ===================================================================== *)
(** ** server/storage.ts: class [MemStorage] *)
(* ===================================================================== *)

Module MemStorage.

Record t := mk {
  users : JSMap.t User.t;
  subjects : JSMap.t Subject.t;
  enrollments : JSMap.t Enrollment.t;
  trackingResults : JSMap.t TrackingResult.t;
  userId : Z;
  subjectId : Z;
  enrollmentId : Z;
  trackingResultId : Z }.

(** *** User methods *)

Definition getUser (id : Z) (this : t) : option User.t :=
  JSMap.get id (users this).

Definition getUserByUsername (username : string) (this : t) : option User.t :=
  find (fun user => String.eqb (User.username user) username)
       (JSMap.values (users this)).

Definition getUserByEmail (email : string) (this : t) : option User.t :=
  find (fun user => String.eqb (User.email user) email)
       (JSMap.values (users this)).

(** [const id = this.userId++; const user = { ...insertUser, id };
    this.users.set(id, user); return user;] *)
Definition createUser (insertUser : InsertUser.t) (this : t) : t * User.t :=
  let id := userId this in
  let user := User.mk id (InsertUser.username insertUser)
                      (InsertUser.email insertUser)
                      (InsertUser.password insertUser) in
  (mk (JSMap.set id user (users this)) (subjects this) (enrollments this)
      (trackingResults this)
      (id + 1) (subjectId this) (enrollmentId this) (trackingResultId this),
   user).

(** *** Subject methods *)

Definition getSubject (id : Z) (this : t) : option Subject.t :=
  JSMap.get id (subjects this).

Definition getSubjectByCode (code : string) (this : t) : option Subject.t :=
  find (fun subject => String.eqb (Subject.code subject) code)
       (JSMap.values (subjects this)).

Definition getAllSubjects (this : t) : list Subject.t :=
  JSMap.values (subjects this).

Definition createSubject (insertSubject : InsertSubject.t) (this : t)
  : t * Subject.t :=
  let id := subjectId this in
  let subject := Subject.mk id (InsertSubject.name insertSubject)
                            (InsertSubject.code insertSubject)
                            (InsertSubject.facultyName insertSubject)
                            (InsertSubject.schedule insertSubject) in
  (mk (users this) (JSMap.set id subject (subjects this)) (enrollments this)
      (trackingResults this)
      (userId this) (id + 1) (enrollmentId this) (trackingResultId this),
   subject).

(** *** Enrollment methods *)

Definition getEnrollmentsByUserId (userId : Z) (this : t) : list Enrollment.t :=
  filter (fun enrollment => Enrollment.userId enrollment =? userId)
         (JSMap.values (enrollments this)).

(** [subjectIds.includes(subject.id)] *)
Definition includes (l : list Z) (x : Z) : bool := existsb (Z.eqb x) l.

Definition getEnrolledSubjectsByUserId (userId : Z) (this : t) : list Subject.t :=
  let enrollments := getEnrollmentsByUserId userId this in
  let subjectIds := map Enrollment.subjectId enrollments in
  filter (fun subject => includes subjectIds (Subject.id subject))
         (JSMap.values (subjects this)).

Definition enrollUserInSubject (insertEnrollment : InsertEnrollment.t) (this : t)
  : t * Enrollment.t :=
  let id := enrollmentId this in
  let enrollment := Enrollment.mk id (InsertEnrollment.userId insertEnrollment)
                                  (InsertEnrollment.subjectId insertEnrollment) in
  (mk (users this) (subjects this) (JSMap.set id enrollment (enrollments this))
      (trackingResults this)
      (userId this) (subjectId this) (id + 1) (trackingResultId this),
   enrollment).

Definition isUserEnrolledInSubject (userId subjectId : Z) (this : t) : bool :=
  existsb (fun enrollment =>
             (Enrollment.userId enrollment =? userId)
             && (Enrollment.subjectId enrollment =? subjectId))
          (JSMap.values (enrollments this)).

(** *** Tracking methods *)

Definition saveTrackingResult (insertResult : InsertTrackingResult.t) (this : t)
  : t * TrackingResult.t :=
  let id := trackingResultId this in
  let result :=
    TrackingResult.mk id
      (InsertTrackingResult.userId insertResult)
      (InsertTrackingResult.subjectId insertResult)
      (InsertTrackingResult.sessionDate insertResult)
      (InsertTrackingResult.startTime insertResult)
      (InsertTrackingResult.endTime insertResult)
      (InsertTrackingResult.eyeMovementCount insertResult)
      (InsertTrackingResult.eyeBlinkCount insertResult)
      (InsertTrackingResult.postureChangeCount insertResult)
      (InsertTrackingResult.attentivenessScore insertResult)
      (InsertTrackingResult.sessionData insertResult) in
  (mk (users this) (subjects this) (enrollments this)
      (JSMap.set id result (trackingResults this))
      (userId this) (subjectId this) (enrollmentId this) (id + 1),
   result).

Definition getTrackingResultsByUserId (userId : Z) (this : t)
  : list TrackingResult.t :=
  filter (fun result => TrackingResult.userId result =? userId)
         (JSMap.values (trackingResults this)).

Definition getTrackingResultByUserAndSubject (userId subjectId : Z) (this : t)
  : list TrackingResult.t :=
  filter (fun result =>
            (TrackingResult.userId result =? userId)
            && (TrackingResult.subjectId result =? subjectId))
         (JSMap.values (trackingResults this)).

(** *** The constructor and its seed data *)

(** The state after the field initialisers, before seeding. *)
Definition blank : t :=
  mk JSMap.empty JSMap.empty JSMap.empty JSMap.empty 1 1 1 1.

Definition demoUsers : list InsertUser.t :=
  [ InsertUser.mk None "john_doe" "john@vle.edu" "student123";
    InsertUser.mk None "emma_smith" "emma@vle.edu" "student456";
    InsertUser.mk None "mike_jones" "mike@vle.edu" "student789";
    InsertUser.mk None "sara_wilson" "sara@vle.edu" "student012";
    InsertUser.mk None "alex_brown" "alex@vle.edu" "student345" ].

Definition demoSubjects : list InsertSubject.t :=
  [ InsertSubject.mk None "Artificial Intelligence" "AI" "Dr. Alan Turing"
      "Mon, Wed, Fri - 14:30-16:00";
    InsertSubject.mk None "Database Management Systems" "DBMS" "Dr. Edgar Codd"
      "Tue, Thu - 10:00-11:30";
    InsertSubject.mk None "Operating Systems" "OS" "Prof. Linus Torvalds"
      "Mon, Wed - 09:00-10:30";
    InsertSubject.mk None "Computer Networks" "CN" "Dr. Vint Cerf"
      "Tue, Thu - 13:00-14:30" ].

Definition demoEnrollments : list InsertEnrollment.t :=
  [ InsertEnrollment.mk None 1 1; InsertEnrollment.mk None 1 2;
    InsertEnrollment.mk None 2 1; InsertEnrollment.mk None 3 2;
    InsertEnrollment.mk None 3 3; InsertEnrollment.mk None 4 4;
    InsertEnrollment.mk None 5 1 ].

(** [xs.forEach(x => this.create(x))] *)
Definition forEach {A B : Type} (f : A -> t -> t * B) (xs : list A) (this : t) : t :=
  fold_left (fun st x => fst (f x st)) xs this.

Definition seedUsers : t -> t := forEach createUser demoUsers.
Definition seedSubjects : t -> t := forEach createSubject demoSubjects.
Definition seedEnrollments : t -> t := forEach enrollUserInSubject demoEnrollments.

(** [new MemStorage()] *)
Definition constructor : t := seedEnrollments (seedSubjects (seedUsers blank)).

(** *** Histories of mutating calls *)

Inductive Call :=
| CreateUser (insertUser : InsertUser.t)
| CreateSubject (insertSubject : InsertSubject.t)
| EnrollUserInSubject (insertEnrollment : InsertEnrollment.t)
| SaveTrackingResult (insertResult : InsertTrackingResult.t).

(** What a mutating call resolves to. *)
Inductive Created :=
| CreatedUser (user : User.t)
| CreatedSubject (subject : Subject.t)
| CreatedEnrollment (enrollment : Enrollment.t)
| CreatedTrackingResult (result : TrackingResult.t).

Inductive Entity := EUser | ESubject | EEnrollment | ETrackingResult.

Definition entity_of (c : Created) : Entity :=
  match c with
  | CreatedUser _ => EUser
  | CreatedSubject _ => ESubject
  | CreatedEnrollment _ => EEnrollment
  | CreatedTrackingResult _ => ETrackingResult
  end.

Definition id_of (c : Created) : Z :=
  match c with
  | CreatedUser u => User.id u
  | CreatedSubject s => Subject.id s
  | CreatedEnrollment e => Enrollment.id e
  | CreatedTrackingResult r => TrackingResult.id r
  end.

Definition call (c : Call) (this : t) : t * Created :=
  match c with
  | CreateUser x => let (st, r) := createUser x this in (st, CreatedUser r)
  | CreateSubject x => let (st, r) := createSubject x this in (st, CreatedSubject r)
  | EnrollUserInSubject x =>
      let (st, r) := enrollUserInSubject x this in (st, CreatedEnrollment r)
  | SaveTrackingResult x =>
      let (st, r) := saveTrackingResult x this in (st, CreatedTrackingResult r)
  end.

(** Runs the calls in order; returns the final store and what each call
    resolved to, oldest first. *)
Fixpoint run (cs : list Call) (this : t) : t * list Created :=
  match cs with
  | [] => (this, [])
  | c :: cs' =>
      let (st, r) := call c this in
      let (st', rs) := run cs' st in
      (st', r :: rs)
  end.

(** The calls the constructor makes. *)
Definition seedCalls : list Call :=
  map CreateUser demoUsers ++ map CreateSubject demoSubjects
  ++ map EnrollUserInSubject demoEnrollments.

(** The id the next record of an entity type will receive. *)
Definition nextId (e : Entity) (this : t) : Z :=
  match e with
  | EUser => userId this
  | ESubject => subjectId this
  | EEnrollment => enrollmentId this
  | ETrackingResult => trackingResultId this
  end.

Definition savedResults (rs : list Created) : list TrackingResult.t :=
  flat_map (fun c => match c with CreatedTrackingResult r => [r] | _ => [] end) rs.

Definition forPair (userId subjectId : Z) (r : TrackingResult.t) : bool :=
  (TrackingResult.userId r =? userId) && (TrackingResult.subjectId r =? subjectId).

(** *** Vocabulary of the properties *)

(** Every key of a map is below the counter that will name the next record
    of that map; every id handed out so far is below the counter of its
    entity type; and the tracking-result map lists exactly the results
    saved so far, under their ids, oldest first. *)
Record WF (this : t) (issued : list Created) : Prop := {
  wf_users : Forall (fun k => k < userId this) (JSMap.keys (users this));
  wf_subjects : Forall (fun k => k < subjectId this) (JSMap.keys (subjects this));
  wf_enrollments :
    Forall (fun k => k < enrollmentId this) (JSMap.keys (enrollments this));
  wf_results :
    Forall (fun k => k < trackingResultId this) (JSMap.keys (trackingResults this));
  wf_issued : Forall (fun r => id_of r < nextId (entity_of r) this) issued;
  wf_log :
    trackingResults this
    = map (fun r => (TrackingResult.id r, r)) (savedResults issued) }.

(** An Enrollment record for the pair exists in the store. *)
Definition enrolled (userId subjectId : Z) (this : t) : Prop :=
  exists e : Enrollment.t,
    In e (JSMap.values (enrollments this))
    /\ Enrollment.userId e = userId /\ Enrollment.subjectId e = subjectId.

(** The ids handed out for one entity type, oldest first. *)
Definition idsOf (e : Entity) (issued : list Created) : list Z :=
  flat_map (fun r => match e, entity_of r with
                     | EUser, EUser | ESubject, ESubject
                     | EEnrollment, EEnrollment
                     | ETrackingResult, ETrackingResult => [id_of r]
                     | _, _ => []
                     end) issued.

Definition usernames (this : t) : list string :=
  map User.username (JSMap.values (users this)).

Definition emails (this : t) : list string :=
  map User.email (JSMap.values (users this)).

(** A registration that repeats a seeded username and email. *)
Definition john_again : InsertUser.t :=
  InsertUser.mk None "john_doe" "john@vle.edu" "student123".

(** A finished session, as the save route hands it to the store. *)
Definition session (userId subjectId score : Z) : InsertTrackingResult.t :=
  InsertTrackingResult.mk None userId subjectId 0 0 60000 10 15 2 score "{}".

End MemStorage.

(* ===================================================================== *)
(** ** JavaScript values, errors and promises *)
(* ===================================================================== *)

Module JS.

(** A value produced by [JSON.parse] or [response.json()], or [undefined]. *)
#[warnings="-register-all"]
Inductive Value :=
| Undefined
| Null
| Bool (b : bool)
| Number (x : float)
| String (s : string)
| Array (items : list Value)
| Object (fields : list (string * Value)).

(** [ToBoolean]: [undefined], [null], [false], [0], [-0], [NaN] and the
    empty string are falsy; everything else is truthy. *)
Definition truthy (v : Value) : bool :=
  match v with
  | Undefined | Null => false
  | Bool b => b
  | Number x => negb (PrimFloat.eqb x 0 || PrimFloat.is_nan x)
  | String s => negb (String.eqb s "")
  | Array _ | Object _ => true
  end.

(** [a || b] *)
Definition or (a b : Value) : Value := if truthy a then a else b.

(** What a thrown value is: an [Error] object, or anything else. *)
Inductive Thrown :=
| Error (name message : string)
| Other (v : Value).

(** [err instanceof Error ? err.message : fallback] *)
Definition messageOr (err : Thrown) (fallback : string) : string :=
  match err with
  | Error _ message => message
  | Other _ => fallback
  end.

(** How an awaited promise settles. *)
Inductive Outcome (A : Type) :=
| Resolved (a : A)
| Rejected (err : Thrown).
Arguments Resolved {A} a.
Arguments Rejected {A} err.

Fixpoint lookup (k : string) (fields : list (string * Value)) : Value :=
  match fields with
  | [] => Undefined
  | (k', v) :: rest => if String.eqb k' k then v else lookup k rest
  end.

(** [v.k] for a data property [k] of a parsed value: a [TypeError] on
    [null] and [undefined], [undefined] on other primitives and on arrays. *)
Definition prop (k : string) (v : Value) : Outcome Value :=
  match v with
  | Undefined | Null =>
      Rejected (Error "TypeError" "Cannot read properties of null or undefined")
  | Object fields => Resolved (lookup k fields)
  | _ => Resolved Undefined
  end.

(** [Math.round]: the integer nearest to [x], ties towards +Infinity;
    [NaN], the infinities and the zeros are returned as they are, and a
    result of zero keeps the sign of [x].  Every binary64 of magnitude
    [2^52] or more is an integer; below that, adding and subtracting
    [2^52] rounds to an integer, from which the floor is one comparison
    away. *)
Definition Math_round (x : float) : float :=
  if PrimFloat.is_nan x then x
  else if PrimFloat.leb 0x1p52 (PrimFloat.abs x) then x
  else
    let r := if PrimFloat.leb 0 x
             then PrimFloat.sub (PrimFloat.add x 0x1p52) 0x1p52
             else PrimFloat.add (PrimFloat.sub x 0x1p52) 0x1p52 in
    let f := if PrimFloat.ltb x r then PrimFloat.sub r 1 else r in
    let y := if PrimFloat.leb 0.5 (PrimFloat.sub x f)
             then PrimFloat.add f 1 else f in
    if PrimFloat.eqb y 0
    then (if PrimFloat.ltb x 0 || PrimFloat.ltb (PrimFloat.div 1 x) 0
          then (-0)%float else 0%float)
    else y.

(** The rational a finite binary64 stands for, in lowest terms. *)
Definition toQ (x : float) : option Q :=
  match Prim2SF x with
  | S754_zero _ => Some 0%Q
  | S754_finite s m e =>
      Some (Qred ((if s then Qopp else fun q => q)
                    (inject_Z (Z.pos m) * Qpower 2 e)%Q))
  | S754_infinity _ | S754_nan => None
  end.

End JS.

(* ===================================================================== *)
(** ** The page: hook state, player state, camera, and what was done *)
(* ===================================================================== *)

(** A camera track, named by a number; a stream is its list of tracks. *)
Definition Track := Z.
Definition MediaStream := list Track.

(** [TrackingMetrics]; the fields are typed [number] and [string] but hold
    whatever the frame response held. *)
Module TrackingMetrics.
Record t := mk {
  eyeMovements : JS.Value;
  eyeBlinks : JS.Value;
  postureChanges : JS.Value;
  attentivenessScore : JS.Value;
  facialExpression : JS.Value }.
End TrackingMetrics.

Inductive RequestBody :=
| NoBody
| FrameBody (frame : string)
| SaveBody (userId subjectId : Z) (trackingData : JS.Value).

(** Everything the code does to the outside, in the order it does it. *)
Inductive Event :=
| Request (method url : string) (body : RequestBody)
| Toast (title description : string) (destructive : bool)
| ConsoleLog (text : string)
| ConsoleWarn (text : string)
| ConsoleError (text : string)
| DispatchLater (event : string) (userId subjectId : Z) (ms : Z)
| EnumerateDevices
| GetUserMedia
| TrackStop (track : Track)
| VideoPlay
| VideoPause
| VideoLoad
| OnToggleTracking.

(** State of [useAttentionTracking]. *)
Module Hook.
Record t := mk {
  isTracking : bool;
  metrics : option TrackingMetrics.t;
  error : option string;
  flaskServerAvailable : bool }.
End Hook.

(** The [<video>] element behind [videoRef]. *)
Module Video.
Record t := mk {
  srcObject : option MediaStream;
  src : string;
  onloadedmetadata : bool;
  onerror : bool }.
End Video.

(** State and refs of [VideoPlayer]; [effectDep] is the value of
    [isTracking] the webcam effect last ran with, [startingWebcam] says
    that a [startWebcam] call is suspended at one of its awaits. *)
Module Player.
Record t := mk {
  usingWebcam : bool;
  isPlaying : bool;
  mediaStreamRef : option MediaStream;
  videoRef : option Video.t;
  videoSrc : string;
  effectDep : bool;
  startingWebcam : bool }.
End Player.

Module Env.
Record t := mk {
  hook : Hook.t;
  player : Player.t;
  liveTracks : list Track;
  events : list Event }.
End Env.

(** *** Computations over the page: state, log, and thrown values *)

Definition M (A : Type) : Type := Env.t -> JS.Outcome A * Env.t.

Definition ret {A : Type} (a : A) : M A := fun env => (JS.Resolved a, env).

Definition bind {A B : Type} (m : M A) (k : A -> M B) : M B :=
  fun env =>
    match m env with
    | (JS.Resolved a, env') => k a env'
    | (JS.Rejected err, env') => (JS.Rejected err, env')
    end.

Definition throw {A : Type} (err : JS.Thrown) : M A :=
  fun env => (JS.Rejected err, env).

(** [try { body } catch (err) { handler }] *)
Definition try_catch {A : Type} (body : M A) (handler : JS.Thrown -> M A) : M A :=
  fun env =>
    match body env with
    | (JS.Resolved a, env') => (JS.Resolved a, env')
    | (JS.Rejected err, env') => handler err env'
    end.

(** A promise that has settled. *)
Definition settle {A : Type} (o : JS.Outcome A) : M A := fun env => (o, env).

Declare Scope page_scope.
Delimit Scope page_scope with page.
Notation "x <- m ;; k" := (bind m (fun x => k))
  (at level 61, m at next level, right associativity) : page_scope.
Notation "m ;; k" := (bind m (fun _ => k))
  (at level 61, right associativity) : page_scope.
Local Open Scope page_scope.

Definition emit (e : Event) : M unit :=
  fun env =>
    (JS.Resolved tt,
     Env.mk (Env.hook env) (Env.player env) (Env.liveTracks env)
            (Env.events env ++ [e])).

Definition getHook : M Hook.t := fun env => (JS.Resolved (Env.hook env), env).
Definition getPlayer : M Player.t := fun env => (JS.Resolved (Env.player env), env).

Definition modifyHook (f : Hook.t -> Hook.t) : M unit :=
  fun env =>
    (JS.Resolved tt,
     Env.mk (f (Env.hook env)) (Env.player env) (Env.liveTracks env)
            (Env.events env)).

Definition modifyPlayer (f : Player.t -> Player.t) : M unit :=
  fun env =>
    (JS.Resolved tt,
     Env.mk (Env.hook env) (f (Env.player env)) (Env.liveTracks env)
            (Env.events env)).

Definition modifyTracks (f : list Track -> list Track) : M unit :=
  fun env =>
    (JS.Resolved tt,
     Env.mk (Env.hook env) (Env.player env) (f (Env.liveTracks env))
            (Env.events env)).

Definition toast (title description : string) (destructive : bool) : M unit :=
  emit (Toast title description destructive).

Fixpoint forEach {A : Type} (f : A -> M unit) (xs : list A) : M unit :=
  match xs with
  | [] => ret tt
  | x :: xs' => f x ;; forEach f xs'
  end.

(* ===================================================================== *)
(** ** client/src/components/VideoPlayer.tsx: the webcam *)
(* ===================================================================== *)

Module VideoPlayer.

Inductive DeviceKind := audioinput | audiooutput | videoinput.

Definition isVideoInput (d : DeviceKind) : bool :=
  match d with videoinput => true | _ => false end.

Definition setUsingWebcam (b : bool) : M unit :=
  modifyPlayer (fun p =>
    Player.mk b (Player.isPlaying p) (Player.mediaStreamRef p) (Player.videoRef p)
              (Player.videoSrc p) (Player.effectDep p) (Player.startingWebcam p)).

Definition setIsPlaying (b : bool) : M unit :=
  modifyPlayer (fun p =>
    Player.mk (Player.usingWebcam p) b (Player.mediaStreamRef p) (Player.videoRef p)
              (Player.videoSrc p) (Player.effectDep p) (Player.startingWebcam p)).

Definition setMediaStreamRef (s : option MediaStream) : M unit :=
  modifyPlayer (fun p =>
    Player.mk (Player.usingWebcam p) (Player.isPlaying p) s (Player.videoRef p)
              (Player.videoSrc p) (Player.effectDep p) (Player.startingWebcam p)).

Definition setVideo (v : Video.t) : M unit :=
  modifyPlayer (fun p =>
    Player.mk (Player.usingWebcam p) (Player.isPlaying p) (Player.mediaStreamRef p)
              (Some v) (Player.videoSrc p) (Player.effectDep p)
              (Player.startingWebcam p)).

Definition setEffectDep (b : bool) : M unit :=
  modifyPlayer (fun p =>
    Player.mk (Player.usingWebcam p) (Player.isPlaying p) (Player.mediaStreamRef p)
              (Player.videoRef p) (Player.videoSrc p) b (Player.startingWebcam p)).

Definition setStartingWebcam (b : bool) : M unit :=
  modifyPlayer (fun p =>
    Player.mk (Player.usingWebcam p) (Player.isPlaying p) (Player.mediaStreamRef p)
              (Player.videoRef p) (Player.videoSrc p) (Player.effectDep p) b).

(** [track.stop()]: the track stops capturing. *)
Definition stopTrack (track : Track) : M unit :=
  emit (TrackStop track) ;;
  modifyTracks (filter (fun t => negb (t =? track))).

(** The message shown when [startWebcam] fails. *)
Definition cameraErrorMessage (error : JS.Thrown) : string :=
  match error with
  | JS.Error name message =>
      if String.eqb name "NotAllowedError" || String.eqb name "PermissionDeniedError"
      then "Camera access was denied. Please grant permission in your browser."
      else if String.eqb name "NotFoundError" || String.eqb name "DevicesNotFoundError"
      then "No camera was found on your device."
      else if String.eqb name "NotReadableError" || String.eqb name "TrackStartError"
      then "Your camera is already in use by another application."
      else if negb (String.eqb message "") then message
      else "Please allow camera access for attention tracking"
  | JS.Other _ => "Please allow camera access for attention tracking"
  end.

(** [startWebcam], from the point where the effect has called it:
    [devices] is how [enumerateDevices()] settles and [stream] how the race
    of [getUserMedia()] against the ten-second timer settles.  A stream that
    is granted is capturing from then on.  On failure the prop
    [onToggleTracking] is called; the call is recorded, and running it is
    [Classroom.clickToggle] below. *)
Definition startWebcam (devices : JS.Outcome (list DeviceKind))
           (stream : JS.Outcome MediaStream) : M unit :=
  setStartingWebcam false ;;
  try_catch
    (devices <- settle devices ;;
     (if negb (existsb isVideoInput devices)
      then throw (JS.Error "Error" "No video input devices found")
      else ret tt) ;;
     emit GetUserMedia ;;
     (match stream with
      | JS.Resolved s => modifyTracks (fun live => live ++ s)
      | JS.Rejected _ => ret tt
      end) ;;
     stream <- settle stream ;;
     setMediaStreamRef (Some stream) ;;
     p <- getPlayer ;;
     (match Player.videoRef p with
      | Some v => setVideo (Video.mk (Some stream) (Video.src v) true true)
      | None => ret tt
      end) ;;
     toast "Camera Active"
           "Your webcam is now being used for attention tracking" false)
    (fun error =>
       emit (ConsoleError "Error accessing webcam:") ;;
       toast "Camera Access Failed" (cameraErrorMessage error) true ;;
       emit OnToggleTracking).

(** The [onloadedmetadata] handler installed by [startWebcam]; [play] is
    how [videoRef.current.play()] settles.  A rejection is logged and the
    error thrown in the [.catch] callback reaches nobody. *)
Definition onloadedmetadata (play : JS.Outcome unit) : M unit :=
  p <- getPlayer ;;
  match Player.videoRef p with
  | Some v =>
      if Video.onloadedmetadata v then
        emit VideoPlay ;;
        match play with
        | JS.Resolved _ => setUsingWebcam true ;; setIsPlaying true
        | JS.Rejected _ => emit (ConsoleError "Failed to play webcam:")
        end
      else ret tt
  | None => ret tt
  end.

Definition stopWebcam : M unit :=
  p <- getPlayer ;;
  (* First, stop all tracks to release the camera *)
  (match Player.mediaStreamRef p with
   | Some stream => forEach stopTrack stream ;; setMediaStreamRef None
   | None => ret tt
   end) ;;
  (* Then clean up the video element *)
  (match Player.videoRef p with
   | Some v =>
       emit VideoPause ;;
       setVideo (Video.mk None (Player.videoSrc p) false false) ;;
       emit VideoLoad ;;
       (if Player.isPlaying p then emit VideoPlay else ret tt)
   | None => ret tt
   end) ;;
  setUsingWebcam false ;;
  toast "Tracking Stopped" "Your webcam has been turned off" false.

(** The effect [useEffect(() => { ... }, [isTracking])]: when it runs and
    [startWebcam] is due, the call is made and suspends at its first await. *)
Definition webcamEffect : M unit :=
  h <- getHook ;;
  p <- getPlayer ;;
  if Hook.isTracking h && negb (Player.usingWebcam p) then
    emit EnumerateDevices ;; setStartingWebcam true
  else if negb (Hook.isTracking h) && Player.usingWebcam p then
    stopWebcam
  else ret tt.

(** The cleanup returned by the unmount effect
    [useEffect(() => { return () => { ... } }, [])]. *)
Definition unmount : M unit :=
  p <- getPlayer ;;
  (match Player.mediaStreamRef p with
   | Some stream => forEach stopTrack stream ;; setMediaStreamRef None
   | None => ret tt
   end) ;;
  p <- getPlayer ;;
  match Player.videoRef p with
  | Some v => setVideo (Video.mk (Video.srcObject v) (Video.src v) false false)
  | None => ret tt
  end.

End VideoPlayer.

(* ===================================================================== *)
(** ** React: committing a render, and what an await lets happen *)
(* ===================================================================== *)

Module React.

(** After a render React runs the effects whose dependencies changed: the
    webcam effect runs when [isTracking] differs from the value it last ran
    with. *)
Definition commit : M unit :=
  h <- getHook ;;
  p <- getPlayer ;;
  if Bool.eqb (Hook.isTracking h) (Player.effectDep p) then ret tt
  else VideoPlayer.setEffectDep (Hook.isTracking h) ;; VideoPlayer.webcamEffect.

(** [await promise] on a network promise: the function is suspended, the
    state updates made so far are rendered and committed, and the function
    goes on with how the promise settled. *)
Definition await {A : Type} (o : JS.Outcome A) : M A :=
  commit ;; settle o.

End React.

(* ===================================================================== *)
(** ** client/src/lib/api.ts: the gateway calls *)
(* ===================================================================== *)

Module Api.

Record Response := mkResponse {
  ok : bool;
  statusText : string;
  json : JS.Outcome JS.Value }.

(** [apiRequest(method, url, body)] of [lib/queryClient]: the request goes
    out; [o] is how it settles. *)
Definition apiRequest (method url : string) (body : RequestBody)
           (o : JS.Outcome Response) : M Response :=
  emit (Request method url body) ;; React.await o.

Definition BASE_URL : string := "/api".

Definition saveTrackingResults (userId subjectId : Z) (trackingData : JS.Value)
           (o : JS.Outcome Response) : M unit :=
  apiRequest "POST" (BASE_URL ++ "/tracking/save")
             (SaveBody userId subjectId trackingData) o ;;
  ret tt.

Definition processFrame (frameData : string) (o : JS.Outcome Response) : M JS.Value :=
  try_catch
    (response <- apiRequest "POST" (BASE_URL ++ "/flask/process_frame")
                            (FrameBody frameData) o ;;
     (if negb (ok response) then
        emit (ConsoleError ("Failed to process frame: " ++ statusText response)) ;;
        throw (JS.Error "Error" ("Failed to process frame: " ++ statusText response))
      else ret tt) ;;
     React.await (json response))
    (fun error => emit (ConsoleError "Process frame error:") ;; throw error).

Definition getTrackingResults (o : JS.Outcome Response) : M JS.Value :=
  try_catch
    (response <- apiRequest "GET" (BASE_URL ++ "/flask/get_tracking_results") NoBody o ;;
     (if negb (ok response) then
        emit (ConsoleError ("Failed to get tracking results: " ++ statusText response)) ;;
        throw (JS.Error "Error"
                        ("Failed to get tracking results: " ++ statusText response))
      else ret tt) ;;
     React.await (json response))
    (fun error => emit (ConsoleError "Get tracking results error:") ;; throw error).

Definition resetTracking (o : JS.Outcome Response) : M unit :=
  try_catch
    (response <- apiRequest "POST" (BASE_URL ++ "/flask/reset_tracking") NoBody o ;;
     if negb (ok response) then
       emit (ConsoleError ("Failed to reset tracking: " ++ statusText response)) ;;
       throw (JS.Error "Error" ("Failed to reset tracking: " ++ statusText response))
     else ret tt)
    (fun error => emit (ConsoleError "Reset tracking error:") ;; throw error).

Definition checkFlaskServer (o : JS.Outcome Response) : M bool :=
  try_catch
    (response <- apiRequest "GET" (BASE_URL ++ "/flask/health") NoBody o ;;
     ret (ok response))
    (fun error => emit (ConsoleError "Flask server health check error:") ;; ret false).

End Api.

(* ===================================================================== *)
(** ** client/src/hooks/useAttentionTracking.tsx *)
(* ===================================================================== *)

Module useAttentionTracking.

Definition setIsTracking (b : bool) : M unit :=
  modifyHook (fun h =>
    Hook.mk b (Hook.metrics h) (Hook.error h) (Hook.flaskServerAvailable h)).

Definition setMetrics (m : option TrackingMetrics.t) : M unit :=
  modifyHook (fun h =>
    Hook.mk (Hook.isTracking h) m (Hook.error h) (Hook.flaskServerAvailable h)).

Definition setError (e : option string) : M unit :=
  modifyHook (fun h =>
    Hook.mk (Hook.isTracking h) (Hook.metrics h) e (Hook.flaskServerAvailable h)).

Definition setFlaskServerAvailable (b : bool) : M unit :=
  modifyHook (fun h =>
    Hook.mk (Hook.isTracking h) (Hook.metrics h) (Hook.error h) b).

Section Hook.

(** The arguments of the hook, and [process.env.NODE_ENV]. *)
Variables userId subjectId : Z.
Variable NODE_ENV : string.

Definition checkFlaskServer (health : JS.Outcome Api.Response) : M bool :=
  try_catch
    (isAvailable <- Api.checkFlaskServer health ;;
     setFlaskServerAvailable isAvailable ;;
     ret isAvailable)
    (fun err =>
       emit (ConsoleError "Flask server check failed:") ;;
       setFlaskServerAvailable false ;;
       ret false).

Definition startTracking (health reset : JS.Outcome Api.Response) : M bool :=
  try_catch
    ((* Check if Flask server is available before starting *)
     isServerAvailable <- checkFlaskServer health ;;
     (if negb isServerAvailable then
        throw (JS.Error "Error"
          "Attention tracking server is not available. Please try again later.")
      else ret tt) ;;
     (* Reset tracking before starting *)
     Api.resetTracking reset ;;
     setIsTracking true ;;
     setError None ;;
     setMetrics None ;;
     toast "Tracking Started" "Your attention metrics are now being monitored" false ;;
     ret true)
    (fun err =>
       let errorMessage := JS.messageOr err "Failed to start tracking" in
       setError (Some errorMessage) ;;
       toast "Tracking Error" errorMessage true ;;
       ret false).

Definition stopTracking (fetch save : JS.Outcome Api.Response) : M unit :=
  h <- getHook ;;
  if negb (Hook.isTracking h) then ret tt
  else
    try_catch
      (setIsTracking false ;;
       (* Get final tracking results *)
       results <- Api.getTrackingResults fetch ;;
       emit (ConsoleLog "Final tracking results:") ;;
       (* Save results to backend *)
       Api.saveTrackingResults userId subjectId results save ;;
       emit (DispatchLater "tracking-completed" userId subjectId 500) ;;
       toast "Tracking Stopped" "Your attention metrics have been saved" false)
      (fun err =>
         let errorMessage := JS.messageOr err "Failed to stop tracking" in
         setError (Some errorMessage) ;;
         toast "Tracking Error" errorMessage true).

(** [o1] and [o2] are how the two requests of the branch taken settle:
    health check and reset when starting, aggregate fetch and save when
    stopping. *)
Definition toggleTracking (o1 o2 : JS.Outcome Api.Response) : M bool :=
  h <- getHook ;;
  if Hook.isTracking h then stopTracking o1 o2 ;; ret false
  else startTracking o1 o2.

Definition field (k : string) (frameResults : JS.Value) : M JS.Value :=
  settle (JS.prop k frameResults).

Definition processVideoFrame (frameData : string) (frame : JS.Outcome Api.Response)
  : M unit :=
  h <- getHook ;;
  if negb (Hook.isTracking h) || String.eqb frameData "" then ret tt
  else
    try_catch
      (frameResults <- Api.processFrame frameData frame ;;
       (* Update metrics with the results from the frame processing *)
       eye_movement_count <- field "eye_movement_count" frameResults ;;
       blink_count <- field "blink_count" frameResults ;;
       posture_change_count <- field "posture_change_count" frameResults ;;
       attentiveness_score <- field "attentiveness_score" frameResults ;;
       facial_expression <- field "facial_expression" frameResults ;;
       setMetrics (Some (TrackingMetrics.mk
         (JS.or eye_movement_count (JS.Number 0))
         (JS.or blink_count (JS.Number 0))
         (JS.or posture_change_count (JS.Number 0))
         (JS.or attentiveness_score (JS.Number 85))
         (JS.or facial_expression (JS.String "neutral")))) ;;
       (* Log metrics for debugging *)
       if String.eqb NODE_ENV "development"
       then emit (ConsoleLog "Current tracking metrics:")
       else ret tt)
      (fun err => emit (ConsoleError "Frame processing error:")).

End Hook.

End useAttentionTracking.

(* ===================================================================== *)
(** ** The classroom page: the hook wired to the player *)
(* ===================================================================== *)

Module Classroom.

Section Page.

Variables userId subjectId : Z.
Variable NODE_ENV : string.

(** A click on the Start/Stop button: the handler runs, then React commits. *)
Definition clickToggle (o1 o2 : JS.Outcome Api.Response) : M bool :=
  r <- useAttentionTracking.toggleTracking userId subjectId o1 o2 ;;
  React.commit ;;
  ret r.

(** The suspended [startWebcam] call goes on to its end. *)
Definition webcamSettles (devices : JS.Outcome (list VideoPlayer.DeviceKind))
           (stream : JS.Outcome MediaStream) : M unit :=
  p <- getPlayer ;;
  if Player.startingWebcam p then VideoPlayer.startWebcam devices stream
  else ret tt.

(** The video element fires [loadedmetadata]. *)
Definition loadedMetadata (play : JS.Outcome unit) : M unit :=
  VideoPlayer.onloadedmetadata play ;; React.commit.

(** A camera frame handed to the hook. *)
Definition videoFrame (frameData : string) (frame : JS.Outcome Api.Response) : M unit :=
  useAttentionTracking.processVideoFrame NODE_ENV frameData frame ;; React.commit.

End Page.

(** The page as first rendered: not tracking, no camera, video element
    mounted, nothing done yet. *)
Definition mounted (videoSrc : string) : Env.t :=
  Env.mk (Hook.mk false None None false)
         (Player.mk false false None (Some (Video.mk None videoSrc false false))
                    videoSrc false false)
         [] [].

(** What a run leaves behind. *)
Definition after {A : Type} (m : M A) (env : Env.t) : Env.t := snd (m env).
Definition result {A : Type} (m : M A) (env : Env.t) : JS.Outcome A := fst (m env).

(** The events a run adds to the log. *)
Definition added {A : Type} (m : M A) (env : Env.t) : list Event :=
  skipn (List.length (Env.events env)) (Env.events (after m env)).

End Classroom.

(* ===================================================================== *)
(** ** client/src/pages/Results.tsx *)
(* ===================================================================== *)

(** The two histograms of [JSON.parse(latestResult.sessionData)]. *)
Module FacialExpressions.
Record t := mk { neutral : float; focused : float; confused : float; distracted : float }.
End FacialExpressions.

Module PostureStates.
Record t := mk { upright : float; leaning_forward : float; slouching : float; away : float }.
End PostureStates.

Module Results.

(** [trackingResults.length > 0 ? trackingResults[trackingResults.length - 1] : null] *)
Definition latestResult {A : Type} (trackingResults : list A) : option A :=
  if (0 <? Z.of_nat (List.length trackingResults))
  then nth_error trackingResults (List.length trackingResults - 1)
  else None.

Local Open Scope float_scope.
Import FacialExpressions PostureStates.

(** [Math.round(count / (a + b + c + d) * 100)], the number put before the
    percent sign. *)
Definition neutralPercent (fe : FacialExpressions.t) : float :=
  JS.Math_round (neutral fe /
    (neutral fe + focused fe + confused fe + distracted fe) * 100).

Definition focusedPercent (fe : FacialExpressions.t) : float :=
  JS.Math_round (focused fe /
    (neutral fe + focused fe + confused fe + distracted fe) * 100).

Definition confusedPercent (fe : FacialExpressions.t) : float :=
  JS.Math_round (confused fe /
    (neutral fe + focused fe + confused fe + distracted fe) * 100).

Definition distractedPercent (fe : FacialExpressions.t) : float :=
  JS.Math_round (distracted fe /
    (neutral fe + focused fe + confused fe + distracted fe) * 100).

Definition uprightPercent (ps : PostureStates.t) : float :=
  JS.Math_round (upright ps /
    (upright ps + leaning_forward ps + slouching ps + away ps) * 100).

Definition leaningForwardPercent (ps : PostureStates.t) : float :=
  JS.Math_round (leaning_forward ps /
    (upright ps + leaning_forward ps + slouching ps + away ps) * 100).

Definition slouchingPercent (ps : PostureStates.t) : float :=
  JS.Math_round (slouching ps /
    (upright ps + leaning_forward ps + slouching ps + away ps) * 100).

Definition awayPercent (ps : PostureStates.t) : float :=
  JS.Math_round (away ps /
    (upright ps + leaning_forward ps + slouching ps + away ps) * 100).

(** The four facial-expression rows and the four posture rows, top to
    bottom. *)
Definition facialRows (fe : FacialExpressions.t) : list float :=
  [neutralPercent fe; focusedPercent fe; confusedPercent fe; distractedPercent fe].

Definition postureRows (ps : PostureStates.t) : list float :=
  [uprightPercent ps; leaningForwardPercent ps; slouchingPercent ps; awayPercent ps].

End Results.

(* ===================================================================== *)
(** ** Vocabulary of the session properties *)
(* ===================================================================== *)

Module Session.

Definition okWith (v : JS.Value) : JS.Outcome Api.Response :=
  JS.Resolved (Api.mkResponse true "OK" (JS.Resolved v)).

Definition ok : JS.Outcome Api.Response := okWith (JS.Object []).

(** The health check reports unavailable: the request fails, or the reply
    is not [ok]. *)
Definition unavailable (health : JS.Outcome Api.Response) : bool :=
  match health with
  | JS.Resolved response => negb (Api.ok response)
  | JS.Rejected _ => true
  end.

(** What [getTrackingResults] throws, if it throws: the request's own
    rejection, the status error of a reply that is not [ok], or the
    rejection of [response.json()]. *)
Definition fetchError (fetch : JS.Outcome Api.Response) : option JS.Thrown :=
  match fetch with
  | JS.Rejected err => Some err
  | JS.Resolved response =>
      if negb (Api.ok response)
      then Some (JS.Error "Error"
                   ("Failed to get tracking results: " ++ Api.statusText response))
      else match Api.json response with
           | JS.Rejected err => Some err
           | JS.Resolved _ => None
           end
  end.

(** The message [startTracking] throws when the health check fails. *)
Definition serverUnavailable : string :=
  "Attention tracking server is not available. Please try again later.".

Definition isReset (e : Event) : bool :=
  match e with
  | Request _ url _ => String.eqb url "/api/flask/reset_tracking"
  | _ => false
  end.

Definition isSave (e : Event) : bool :=
  match e with
  | Request _ url _ => String.eqb url "/api/tracking/save"
  | _ => false
  end.

Definition opensCamera (e : Event) : bool :=
  match e with
  | EnumerateDevices | GetUserMedia => true
  | _ => false
  end.

Definition isTrackStop (e : Event) : bool :=
  match e with
  | TrackStop _ => true
  | _ => false
  end.

(** Nothing a failed start may do: no reset, no camera, no save. *)
Definition harmless (e : Event) : bool :=
  negb (isReset e) && negb (opensCamera e) && negb (isSave e).

Definition isTracking (env : Env.t) : bool := Hook.isTracking (Env.hook env).
Definition error (env : Env.t) : option string := Hook.error (Env.hook env).
Definition metrics (env : Env.t) : option TrackingMetrics.t := Hook.metrics (Env.hook env).

(** The tracks still capturing once every track of [stream] was stopped,
    one [track.stop()] after the other. *)
Definition stopAll (stream : MediaStream) (live : list Track) : list Track :=
  fold_left (fun l track => filter (fun t => negb (t =? track)) l) stream live.

(** The page once React has committed the pending render. *)
Definition committed (env : Env.t) : Env.t := snd (React.commit env).

(** The camera is released: no track of it is capturing. *)
Definition cameraReleased (env : Env.t) : Prop := Env.liveTracks env = [].

(** The page of user 1 in subject 1. *)
Definition clickToggle := Classroom.clickToggle 1 1.

(** A started session whose camera has been granted and is playing. *)
Definition playing : Env.t :=
  Classroom.after (Classroom.loadedMetadata (JS.Resolved tt))
    (Classroom.after (Classroom.webcamSettles
                        (JS.Resolved [VideoPlayer.videoinput]) (JS.Resolved [7]))
       (Classroom.after (clickToggle ok ok) (Classroom.mounted "lecture.mp4"))).

(** A started session whose camera has been granted, before the video
    element has loaded the stream's metadata. *)
Definition granted : Env.t :=
  Classroom.after (Classroom.webcamSettles
                     (JS.Resolved [VideoPlayer.videoinput]) (JS.Resolved [7]))
    (Classroom.after (clickToggle ok ok) (Classroom.mounted "lecture.mp4")).

(** A started session whose camera has been granted and whose video
    element refused to play the stream. *)
Definition playRefused : Env.t :=
  Classroom.after (Classroom.loadedMetadata
                     (JS.Rejected (JS.Error "NotAllowedError" "play() failed")))
    granted.

(** The score shown after a frame reply, on a page that is tracking. *)
Definition liveScore (frameResults : JS.Value) : option JS.Value :=
  option_map TrackingMetrics.attentivenessScore
    (metrics (Classroom.after
                (Classroom.videoFrame "production" "data:image/jpeg;base64,AAAA"
                                      (okWith frameResults))
                playing)).

(** That score as a rational, when it is a finite number. *)
Definition liveScoreQ (frameResults : JS.Value) : option Q :=
  match liveScore frameResults with
  | Some (JS.Number x) => JS.toQ x
  | _ => None
  end.

(** A frame reply with an expression label and raw counts, and no score. *)
Definition rawFrame (expression : string) (eye blink posture : float) : JS.Value :=
  JS.Object [("facial_expression", JS.String expression);
             ("eye_movement_count", JS.Number eye);
             ("blink_count", JS.Number blink);
             ("posture_change_count", JS.Number posture)].

(** The blend as the specification words it: facial expression 70%, eye
    movement 15%, blink rate 10%, posture 5%, over component scores the
    specification leaves open. *)
Definition weightedBlend (facialExpression eyeMovement blinkRate posture : Q) : Q :=
  ((70 # 100) * facialExpression + (15 # 100) * eyeMovement
   + (10 # 100) * blinkRate + (5 # 100) * posture)%Q.

(** The body of the save request a run makes, if it makes one. *)
Definition savedBody (evs : list Event) : option JS.Value :=
  match filter isSave evs with
  | Request _ _ (SaveBody _ _ trackingData) :: _ => Some trackingData
  | _ => None
  end.

End Session.

(* ===================================================================== *)
(** ** Vocabulary of the further repository properties *)
(* ===================================================================== *)

Module Store.
Import MemStorage.

(** The ids [1, 2, ..., next - 1]. *)
Definition upto (next : Z) : list Z :=
  map Z.of_nat (seq 1 (Z.to_nat (next - 1))).

(** A map holds exactly the keys below its counter, oldest first, and every
    record sits under its own id. *)
Definition dense {V : Type} (id : V -> Z) (m : JSMap.t V) (next : Z) : Prop :=
  1 <= next
  /\ JSMap.keys m = upto next
  /\ Forall (fun kv => id (snd kv) = fst kv) m.

Record Dense (this : t) : Prop := {
  dense_users : dense User.id (users this) (userId this);
  dense_subjects : dense Subject.id (subjects this) (subjectId this);
  dense_enrollments : dense Enrollment.id (enrollments this) (enrollmentId this);
  dense_results :
    dense TrackingResult.id (trackingResults this) (trackingResultId this) }.

(** The Enrollment records stored for a pair. *)
Definition enrollmentsOf (userId subjectId : Z) (this : t) : list Enrollment.t :=
  filter (fun e => (Enrollment.userId e =? userId)
                   && (Enrollment.subjectId e =? subjectId))
         (JSMap.values (enrollments this)).

End Store.

(* ===================================================================== *)
(** ** Dashboard page: the enrolled badge *)
(* ===================================================================== *)

Module Dashboard.

(** [enrolledSubjects.some(subject => subject.id === subjectId)] *)
Definition isSubjectEnrolled (enrolledSubjects : list Subject.t) (subjectId : Z)
  : bool :=
  existsb (fun subject => Subject.id subject =? subjectId) enrolledSubjects.

End Dashboard.

(* ===================================================================== *)
(** ** TrackingPanel: the webcam status light and the track button *)
(* ===================================================================== *)

Module TrackingPanel.

Inductive WebcamStatus := Ready | Active | Failed.

(** [if (error)]: a string is truthy unless it is empty. *)
Definition isSet (error : option string) : bool :=
  match error with
  | Some text => negb (String.eqb text "")
  | None => false
  end.

(** The effect [useEffect(() => { ... }, [isTracking, error])]:
    ['active'] or ['ready'] by [isTracking], then ['error'] if [error]. *)
Definition webcamStatus (isTracking : bool) (error : option string) : WebcamStatus :=
  let status := if isTracking then Active else Ready in
  if isSet error then Failed else status.

(** [disabled={!flaskServerAvailable || webcamStatus === 'error'}] of the
    "Track My Attention" button. *)
Definition trackDisabled (flaskServerAvailable : bool) (status : WebcamStatus) : bool :=
  negb flaskServerAvailable
  || match status with Failed => true | _ => false end.

(** The button as the classroom page renders it from the hook's state. *)
Definition disabledOn (env : Env.t) : bool :=
  trackDisabled (Hook.flaskServerAvailable (Env.hook env))
                (webcamStatus (Hook.isTracking (Env.hook env))
                              (Hook.error (Env.hook env))).

End TrackingPanel.

(* ===================================================================== *)
(** ** useAttentionTracking: the cleanup effect *)
(* ===================================================================== *)

Module Cleanup.

Section Hook.

Variables userId subjectId : Z.

(** [stopTracking] as a closure: [isTracking] is the value of the render
    the callback was made in, not the current state. *)
Definition stopTrackingOf (isTracking : bool) (fetch save : JS.Outcome Api.Response)
  : M unit :=
  if negb isTracking then ret tt
  else
    try_catch
      (useAttentionTracking.setIsTracking false ;;
       results <- Api.getTrackingResults fetch ;;
       emit (ConsoleLog "Final tracking results:") ;;
       Api.saveTrackingResults userId subjectId results save ;;
       emit (DispatchLater "tracking-completed" userId subjectId 500) ;;
       toast "Tracking Stopped" "Your attention metrics have been saved" false)
      (fun err =>
         let errorMessage := JS.messageOr err "Failed to stop tracking" in
         useAttentionTracking.setError (Some errorMessage) ;;
         toast "Tracking Error" errorMessage true).

(** The cleanup returned by
    [useEffect(() => { return () => { ... } }, [isTracking, stopTracking])].
    React runs it when the component unmounts and whenever [isTracking]
    changes, with [isTracking] and [stopTracking] of the render that
    registered it.  [serverCheckTimeoutRef] says whether the ref holds the
    health-poll timer; the result says whether [clearInterval] is called. *)
Definition cleanup (isTracking serverCheckTimeoutRef : bool)
           (fetch save : JS.Outcome Api.Response) : M bool :=
  (if isTracking then stopTrackingOf isTracking fetch save else ret tt) ;;
  ret serverCheckTimeoutRef.

End Hook.

End Cleanup.

(* ===================================================================== *)
(** ** VideoPlayer: the capture timer *)
(* ===================================================================== *)

Module Capture.

(** One tick of the [setInterval] callback of the capture effect.  The
    timer exists while the session is tracking and the video element is
    mounted.  [videoWidth] and [videoHeight] are the element's dimensions,
    [context] says whether [canvas.getContext('2d')] returned a context,
    [drawn] is how drawing the frame and [canvas.toDataURL] settle, and
    [frame] how the frame request settles. *)
Definition tick (NODE_ENV : string) (videoWidth videoHeight : Z) (context : bool)
           (drawn : JS.Outcome string) (frame : JS.Outcome Api.Response) : M unit :=
  h <- getHook ;;
  p <- getPlayer ;;
  if negb (Hook.isTracking h) then ret tt
  else
    match Player.videoRef p with
    | None => ret tt
    | Some _ =>
        if (videoWidth =? 0) || (videoHeight =? 0) then
          emit (ConsoleWarn "Video has no dimensions, skipping frame capture")
        else if negb context then
          emit (ConsoleError "Failed to get canvas context")
        else
          match drawn with
          | JS.Resolved frameData =>
              useAttentionTracking.processVideoFrame NODE_ENV frameData frame
          | JS.Rejected _ => emit (ConsoleError "Error during frame capture:")
          end
    end.

End Capture.

(* ===================================================================== *)
(** ** Vocabulary of the further session properties *)
(* ===================================================================== *)

Module Observe.

(** The reply arrived and is [ok]. *)
Definition replyOk (o : JS.Outcome Api.Response) : bool :=
  match o with
  | JS.Resolved response => Api.ok response
  | JS.Rejected _ => false
  end.

(** What [resetTracking] throws, if it throws. *)
Definition resetError (reset : JS.Outcome Api.Response) : option JS.Thrown :=
  match reset with
  | JS.Rejected err => Some err
  | JS.Resolved response =>
      if Api.ok response then None
      else Some (JS.Error "Error"
                   ("Failed to reset tracking: " ++ Api.statusText response))
  end.

(** What [processFrame] throws, if it throws. *)
Definition frameError (frame : JS.Outcome Api.Response) : option JS.Thrown :=
  match frame with
  | JS.Rejected err => Some err
  | JS.Resolved response =>
      if negb (Api.ok response)
      then Some (JS.Error "Error"
                   ("Failed to process frame: " ++ Api.statusText response))
      else match Api.json response with
           | JS.Rejected err => Some err
           | JS.Resolved _ => None
           end
  end.

(** The frame reply cannot be applied: the request failed, or the reply
    parsed to [null]. *)
Definition frameFails (frame : JS.Outcome Api.Response) : bool :=
  match frame with
  | JS.Resolved response =>
      negb (Api.ok response)
      || match Api.json response with
         | JS.Resolved JS.Null | JS.Resolved JS.Undefined | JS.Rejected _ => true
         | JS.Resolved _ => false
         end
  | JS.Rejected _ => true
  end.

(** What makes [startWebcam] fail, if it fails. *)
Definition webcamError (devices : JS.Outcome (list VideoPlayer.DeviceKind))
           (stream : JS.Outcome MediaStream) : option JS.Thrown :=
  match devices with
  | JS.Rejected err => Some err
  | JS.Resolved ds =>
      if negb (existsb VideoPlayer.isVideoInput ds)
      then Some (JS.Error "Error" "No video input devices found")
      else match stream with
           | JS.Rejected err => Some err
           | JS.Resolved _ => None
           end
  end.

Definition hasVideoInput (devices : JS.Outcome (list VideoPlayer.DeviceKind)) : bool :=
  match devices with
  | JS.Resolved ds => existsb VideoPlayer.isVideoInput ds
  | JS.Rejected _ => false
  end.

Definition isRequest (e : Event) : bool :=
  match e with Request _ _ _ => true | _ => false end.

Definition isToast (e : Event) : bool :=
  match e with Toast _ _ _ => true | _ => false end.

Definition isDispatch (e : Event) : bool :=
  match e with DispatchLater _ _ _ _ => true | _ => false end.

(** The toast that tells the user the metrics were saved. *)
Definition isSavedToast (e : Event) : bool :=
  match e with
  | Toast _ description destructive =>
      String.eqb description "Your attention metrics have been saved"
      && negb destructive
  | _ => false
  end.

Definition isErrorToast (e : Event) : bool :=
  match e with Toast _ _ destructive => destructive | _ => false end.

(** What the webcam effect may do: ask for the devices, stop tracks, drive
    the video element, and announce that the webcam is off. *)
Definition isPlayerEvent (e : Event) : bool :=
  match e with
  | EnumerateDevices | TrackStop _ | VideoPause | VideoLoad | VideoPlay => true
  | Toast _ description destructive =>
      String.eqb description "Your webcam has been turned off" && negb destructive
  | _ => false
  end.

(** The page has no render pending: the webcam effect has run for the
    current value of [isTracking]. *)
Definition settled (env : Env.t) : Prop :=
  Player.effectDep (Env.player env) = Hook.isTracking (Env.hook env).

End Observe.

(* ===================================================================== *)
(** ** The classroom page: the health polls *)
(* ===================================================================== *)

Module Wiring.

Section Page.

Variables userId subjectId : Z.

(** One health poll of the interval timer. *)
Definition poll (health : JS.Outcome Api.Response) : M bool :=
  r <- useAttentionTracking.checkFlaskServer health ;;
  React.commit ;;
  ret r.

Fixpoint polls (healths : list (JS.Outcome Api.Response)) : M unit :=
  match healths with
  | [] => ret tt
  | health :: rest => poll health ;; polls rest
  end.

End Page.

End Wiring.

(* ===================================================================== *)
(** ** The classroom page: the hook's own effect, and a stop followed to
       the end of every call it sets off *)
(* ===================================================================== *)

Module Page.

Section Page.

Variables userId subjectId : Z.

(** [stopTracking] of a render in which [isTracking] had the given value,
    from the call to its first await: past the guard the state is set and
    [getTrackingResults] sends its request, and there the call is
    suspended.  The result says whether a call is left suspended. *)
Definition stopTrackingCalled (isTracking : bool) : M bool :=
  if negb isTracking then ret false
  else
    useAttentionTracking.setIsTracking false ;;
    emit (Request "GET" (Api.BASE_URL ++ "/flask/get_tracking_results") NoBody) ;;
    ret true.

(** The same call from that await to its end: first the rest of
    [getTrackingResults], then the rest of [stopTracking], each inside its
    own [try]; [fetch] and [save] are how the two requests settle. *)
Definition stopTrackingResumes (fetch save : JS.Outcome Api.Response) : M unit :=
  try_catch
    (results <-
       try_catch
         (response <- settle fetch ;;
          (if negb (Api.ok response) then
             emit (ConsoleError ("Failed to get tracking results: "
                                 ++ Api.statusText response)) ;;
             throw (JS.Error "Error"
                      ("Failed to get tracking results: " ++ Api.statusText response))
           else ret tt) ;;
          React.await (Api.json response))
         (fun error => emit (ConsoleError "Get tracking results error:") ;; throw error) ;;
     emit (ConsoleLog "Final tracking results:") ;;
     (* Save results to backend *)
     Api.saveTrackingResults userId subjectId results save ;;
     emit (DispatchLater "tracking-completed" userId subjectId 500) ;;
     toast "Tracking Stopped" "Your attention metrics have been saved" false)
    (fun err =>
       let errorMessage := JS.messageOr err "Failed to stop tracking" in
       useAttentionTracking.setError (Some errorMessage) ;;
       toast "Tracking Error" errorMessage true).

(** The cleanup returned by the hook's effect
    [useEffect(() => { return () => { ... } }, [isTracking, stopTracking])],
    as React runs it when [isTracking] has changed: [isTracking] and
    [stopTracking] are those of the render that registered it, and the call
    it makes is not awaited.  The [clearInterval] that follows stops the
    health polls; the timer is not part of the state. *)
Definition hookCleanup (isTracking : bool) : M bool :=
  if isTracking then stopTrackingCalled isTracking else ret false.

(** A commit of the page.  Both effects depend on [isTracking]: when it
    differs from the value they last ran with, React first runs the cleanup
    the hook's effect registered with the old value, then the webcam effect
    of the player.  The result says whether the cleanup has left a
    [stopTracking] call suspended. *)
Definition commit : M bool :=
  h <- getHook ;;
  p <- getPlayer ;;
  if Bool.eqb (Hook.isTracking h) (Player.effectDep p) then ret false
  else
    VideoPlayer.setEffectDep (Hook.isTracking h) ;;
    suspended <- hookCleanup (Player.effectDep p) ;;
    VideoPlayer.webcamEffect ;;
    ret suspended.

(** A click on the Start/Stop button, followed until every call it sets off
    has ended.  When the session is tracking, [toggleTracking] calls
    [stopTracking], which is suspended at its first await; React commits,
    and the cleanup calls [stopTracking] a second time; then the handler's
    call goes on to its end, and after it the cleanup's.  [o1] and [o2] are
    how the two requests of the handler settle, [o3] and [o4] how the
    aggregate fetch and the save of the cleanup's call do.  After the first
    commit nothing changes [isTracking] any more, so the commits at the
    later awaits run no effect. *)
Definition clickToggle (o1 o2 o3 o4 : JS.Outcome Api.Response) : M bool :=
  h <- getHook ;;
  if Hook.isTracking h then
    stopTrackingCalled (Hook.isTracking h) ;;
    suspended <- commit ;;
    stopTrackingResumes o1 o2 ;;
    (if suspended then stopTrackingResumes o3 o4 else ret tt) ;;
    commit ;;
    ret false
  else
    r <- useAttentionTracking.startTracking o1 o2 ;;
    commit ;;
    ret r.

(** The suspended [startWebcam] call goes on to its end; the page passes
    [toggleTracking] as [onToggleTracking], so when [startWebcam] fails the
    toggle runs, with [o1] to [o4] for the requests it sets off. *)
Definition cameraSettles (devices : JS.Outcome (list VideoPlayer.DeviceKind))
           (stream : JS.Outcome MediaStream)
           (o1 o2 o3 o4 : JS.Outcome Api.Response) : M unit :=
  p <- getPlayer ;;
  if Player.startingWebcam p then
    VideoPlayer.startWebcam devices stream ;;
    match Observe.webcamError devices stream with
    | Some _ => clickToggle o1 o2 o3 o4 ;; ret tt
    | None => ret tt
    end
  else ret tt.

End Page.

End Page.

(* ===================================================================== *)
(** * Properties of the repository *)
(* ===================================================================== *)

Module MemStorageFacts.
Import MemStorage.

(** ** The [Map] used as a store *)

Lemma set_fresh {V : Type} (k : Z) (v : V) (m : JSMap.t V) :
  ~ In k (JSMap.keys m) -> JSMap.set k v m = m ++ [(k, v)].
Proof.
  induction m as [|[k' v'] m IH]; simpl; intros Hk; [reflexivity|].
  destruct (Z.eqb_spec k' k) as [->|_]; [tauto|].
  now rewrite IH by tauto.
Qed.

Lemma below_fresh (k : Z) (ks : list Z) :
  Forall (fun k' => k' < k) ks -> ~ In k ks.
Proof.
  intros H Hin. rewrite Forall_forall in H. specialize (H _ Hin). lia.
Qed.

Lemma below_step (k : Z) (ks : list Z) :
  Forall (fun k' => k' < k) ks -> Forall (fun k' => k' < k + 1) (ks ++ [k]).
Proof.
  intros H. apply Forall_app. split.
  - eapply Forall_impl; [|exact H]. simpl. intros; lia.
  - repeat constructor. lia.
Qed.

(** ** The invariant of every store built by the constructor and calls *)


Lemma WF_blank : WF blank [].
Proof. split; simpl; try constructor. Qed.

Lemma savedResults_app (rs1 rs2 : list Created) :
  savedResults (rs1 ++ rs2) = savedResults rs1 ++ savedResults rs2.
Proof. unfold savedResults. apply flat_map_app. Qed.

Lemma issued_mono (this this' : t) (issued : list Created) :
  (forall e, nextId e this <= nextId e this') ->
  Forall (fun r => id_of r < nextId (entity_of r) this) issued ->
  Forall (fun r => id_of r < nextId (entity_of r) this') issued.
Proof.
  intros Hle H. eapply Forall_impl; [|exact H].
  simpl. intros r Hr. specialize (Hle (entity_of r)). lia.
Qed.

Lemma WF_call (c : Call) (this : t) (issued : list Created) :
  WF this issued ->
  WF (fst (call c this)) (issued ++ [snd (call c this)]).
Proof.
  intros [Hu Hs He Hr Hi Hl].
  destruct c; simpl; split; simpl; auto;
    try (rewrite set_fresh by (apply below_fresh; assumption);
         unfold JSMap.keys; rewrite map_app; simpl; apply below_step; assumption);
    try (apply Forall_app; split;
         [ eapply issued_mono; [|exact Hi]; intros []; simpl; lia
         | repeat constructor; simpl; lia ]);
    try (rewrite savedResults_app; simpl; rewrite app_nil_r; exact Hl).
  rewrite set_fresh by (apply below_fresh; assumption).
  rewrite savedResults_app, map_app, Hl. reflexivity.
Qed.

Lemma run_cons (c : Call) (cs : list Call) (this : t) :
  run (c :: cs) this
  = (fst (run cs (fst (call c this))),
     snd (call c this) :: snd (run cs (fst (call c this)))).
Proof.
  simpl. destruct (call c this) as [st r]. simpl.
  destruct (run cs st) as [st' rs]. reflexivity.
Qed.

Lemma run_app (cs1 cs2 : list Call) (this : t) :
  run (cs1 ++ cs2) this
  = (fst (run cs2 (fst (run cs1 this))),
     snd (run cs1 this) ++ snd (run cs2 (fst (run cs1 this)))).
Proof.
  revert this. induction cs1 as [|c cs1 IH]; intros this.
  - simpl. now destruct (run cs2 this).
  - rewrite <- app_comm_cons, !run_cons, IH. reflexivity.
Qed.

Lemma WF_run (cs : list Call) (this : t) (issued : list Created) :
  WF this issued ->
  WF (fst (run cs this)) (issued ++ snd (run cs this)).
Proof.
  revert this issued. induction cs as [|c cs IH]; intros this issued H.
  - simpl. now rewrite app_nil_r.
  - rewrite run_cons. simpl.
    replace (issued ++ snd (call c this) :: snd (run cs (fst (call c this))))
      with ((issued ++ [snd (call c this)]) ++ snd (run cs (fst (call c this))))
      by (now rewrite <- app_assoc).
    apply IH, WF_call, H.
Qed.

Lemma WF_reachable (cs : list Call) :
  WF (fst (run cs blank)) (snd (run cs blank)).
Proof. exact (WF_run cs WF_blank). Qed.

(** [new MemStorage()] is the blank store after the seed calls. *)
Lemma constructor_run : constructor = fst (run seedCalls blank).
Proof. vm_compute. reflexivity. Qed.

(** ** Selecting the latest result *)

Lemma latestResult_snoc {A : Type} (l : list A) (x : A) :
  Results.latestResult (l ++ [x]) = Some x.
Proof.
  unfold Results.latestResult. rewrite length_app. simpl.
  destruct (Z.ltb_spec 0 (Z.of_nat (List.length l + 1))) as [_|H]; [|lia].
  replace (List.length l + 1 - 1)%nat with (List.length l) by lia.
  rewrite nth_error_app2 by lia. now rewrite Nat.sub_diag.
Qed.

Lemma latestResult_nil {A : Type} : Results.latestResult (@nil A) = None.
Proof. reflexivity. Qed.

Lemma latest_of_filter {A : Type} (f : A -> bool) (l : list A) :
  Results.latestResult (filter f l) = find f (rev l).
Proof.
  induction l as [|x l IH] using rev_ind; [reflexivity|].
  rewrite filter_app, rev_app_distr. simpl.
  destruct (f x).
  - apply latestResult_snoc.
  - now rewrite app_nil_r.
Qed.

(** ** Membership test *)


(** C1.  [isUserEnrolledInSubject userId subjectId] answers [true] for every
    pair for which the store holds an Enrollment record, and [false] for
    every pair for which it holds none. *)
Theorem isUserEnrolledInSubject_spec (this : t) (userId subjectId : Z) :
  (enrolled userId subjectId this ->
   isUserEnrolledInSubject userId subjectId this = true)
  /\ (~ enrolled userId subjectId this ->
      isUserEnrolledInSubject userId subjectId this = false).
Proof.
  unfold isUserEnrolledInSubject, enrolled. split.
  - intros (e & Hin & Hu & Hs). apply existsb_exists. exists e.
    split; [exact Hin|]. now rewrite Hu, Hs, !Z.eqb_refl.
  - intros Hno. apply not_true_is_false. intros H.
    apply existsb_exists in H. destruct H as (e & Hin & He).
    apply andb_prop in He. destruct He as [Hu Hs].
    apply Z.eqb_eq in Hu, Hs. apply Hno. now exists e.
Qed.

(** On the seeded store: john_doe (1) is enrolled in AI (1); emma_smith (2)
    is not enrolled in OS (3). *)
Lemma isUserEnrolledInSubject_spec_witness :
  isUserEnrolledInSubject 1 1 constructor = true
  /\ isUserEnrolledInSubject 2 3 constructor = false.
Proof.
  split.
  - apply (proj1 (isUserEnrolledInSubject_spec constructor 1 1)).
    exists (Enrollment.mk 1 1 1). vm_compute. auto.
  - apply (proj2 (isUserEnrolledInSubject_spec constructor 2 3)).
    intros (e & Hin & Hu & Hs). vm_compute in Hin.
    repeat (destruct Hin as [<-|Hin]; [vm_compute in Hu, Hs; lia|]).
    exact Hin.
Defined.

(** Enrolling makes the test succeed, whatever the store was. *)
Lemma enrollUserInSubject_then_enrolled (x : InsertEnrollment.t) (this : t) :
  isUserEnrolledInSubject (InsertEnrollment.userId x) (InsertEnrollment.subjectId x)
    (fst (enrollUserInSubject x this)) = true.
Proof.
  unfold isUserEnrolledInSubject, enrollUserInSubject. simpl.
  apply existsb_exists.
  exists (Enrollment.mk (enrollmentId this) (InsertEnrollment.userId x)
                        (InsertEnrollment.subjectId x)).
  split; [|simpl; now rewrite !Z.eqb_refl].
  unfold JSMap.values. apply in_map_iff.
  exists (enrollmentId this,
          Enrollment.mk (enrollmentId this) (InsertEnrollment.userId x)
                        (InsertEnrollment.subjectId x)).
  split; [reflexivity|].
  induction (enrollments this) as [|[k v] m IH]; simpl; [now left|].
  destruct (k =? enrollmentId this); simpl; auto.
Qed.

(** ** Tracking history *)

Lemma history_of_results (cs : list Call) (userId subjectId : Z) :
  getTrackingResultByUserAndSubject userId subjectId (fst (run cs blank))
  = filter (forPair userId subjectId) (savedResults (snd (run cs blank))).
Proof.
  unfold getTrackingResultByUserAndSubject, JSMap.values.
  rewrite (wf_log (WF_reachable cs)), map_map.
  apply f_equal. apply map_id.
Qed.

(** C7.  After the constructor and any further calls,
    [getTrackingResultByUserAndSubject userId subjectId] is the list of all
    results saved for that pair, in the order they were saved, and the
    last-element selection of the results page picks the pair's most
    recently saved record (the first match when the history is scanned from
    newest to oldest). *)
Theorem getTrackingResultByUserAndSubject_history
        (cs : list Call) (userId subjectId : Z) :
  let this := fst (run (seedCalls ++ cs) blank) in
  let saved := savedResults (snd (run (seedCalls ++ cs) blank)) in
  getTrackingResultByUserAndSubject userId subjectId this
  = filter (forPair userId subjectId) saved
  /\ Results.latestResult (getTrackingResultByUserAndSubject userId subjectId this)
     = find (forPair userId subjectId) (rev saved).
Proof.
  intros this saved. subst this saved.
  generalize (seedCalls ++ cs). intros history.
  split.
  - apply history_of_results.
  - rewrite history_of_results. apply latest_of_filter.
Qed.

(** Two sessions in a row for user 2 and subject 3, with another user's
    session in between: both come back, first then second, and the second
    is the latest. *)
Example two_sessions_in_creation_order :
  let this :=
    fst (run (seedCalls ++ [SaveTrackingResult (session 2 3 70);
                            SaveTrackingResult (session 1 1 90);
                            SaveTrackingResult (session 2 3 80)]) blank) in
  map TrackingResult.attentivenessScore (getTrackingResultByUserAndSubject 2 3 this)
  = [70; 80]
  /\ map TrackingResult.id (getTrackingResultByUserAndSubject 2 3 this) = [1; 3]
  /\ option_map TrackingResult.attentivenessScore
       (Results.latestResult (getTrackingResultByUserAndSubject 2 3 this)) = Some 80.
Proof. vm_compute. auto. Qed.

(** ** Identifiers *)

Lemma fresh_id_above (cs : list Call) (c : Call) :
  Forall (fun old => entity_of old = entity_of (snd (call c (fst (run cs blank)))) ->
                     id_of old < id_of (snd (call c (fst (run cs blank)))))
         (snd (run cs blank)).
Proof.
  pose proof (wf_issued (WF_reachable cs)) as H.
  revert H. generalize (fst (run cs blank)) (snd (run cs blank)).
  intros this issued H.
  eapply Forall_impl; [|exact H]. cbv beta. intros old Hlt Heq.
  rewrite Heq in Hlt. destruct c; exact Hlt.
Qed.

(** C8.  After the constructor and any sequence of create calls, the record
    made by one more create call receives an id strictly greater than every
    id handed out before for the same entity type (the seed records
    included); so ids of one type increase and none is handed out twice. *)
Theorem ids_strictly_increasing (cs : list Call) (c : Call) :
  let this := fst (run (seedCalls ++ cs) blank) in
  let issued := snd (run (seedCalls ++ cs) blank) in
  let new := snd (call c this) in
  Forall (fun old => entity_of old = entity_of new -> id_of old < id_of new) issued.
Proof.
  intros this issued new. subst this issued new.
  apply fresh_id_above.
Qed.

Lemma idsOf_bound (e : Entity) (this : t) (issued : list Created) :
  Forall (fun r => id_of r < nextId (entity_of r) this) issued ->
  Forall (fun i => i < nextId e this) (idsOf e issued).
Proof.
  induction 1 as [|r rs Hr _ IH]; simpl; [constructor|].
  apply Forall_app. split; [|exact IH].
  destruct e, r; simpl in *; repeat constructor; exact Hr.
Qed.

Lemma idsOf_sorted_from (cs : list Call) (this : t) (issued : list Created) (e : Entity) :
  WF this issued ->
  StronglySorted Z.lt (idsOf e issued) ->
  StronglySorted Z.lt (idsOf e (issued ++ snd (run cs this))).
Proof.
  revert this issued. induction cs as [|c cs IH]; intros this issued Hwf Hs.
  - simpl. now rewrite app_nil_r.
  - rewrite run_cons. simpl.
    replace (issued ++ snd (call c this) :: snd (run cs (fst (call c this))))
      with ((issued ++ [snd (call c this)]) ++ snd (run cs (fst (call c this))))
      by (now rewrite <- app_assoc).
    apply IH; [apply WF_call, Hwf|].
    unfold idsOf. rewrite flat_map_app. fold (idsOf e issued).
    pose proof (@idsOf_bound e _ _ (wf_issued Hwf)) as Hb.
    assert (Happ : forall x, x = nextId e this ->
                             StronglySorted Z.lt (idsOf e issued ++ [x])).
    { intros x ->. clear - Hs Hb. induction Hs as [|i l Hl IHl Hi]; simpl.
      - repeat constructor.
      - inversion Hb; subst. constructor; [now apply IHl|].
        apply Forall_app. split; [exact Hi|]. repeat constructor. assumption. }
    destruct e, c; simpl; rewrite ?app_nil_r; try exact Hs;
      apply Happ; reflexivity.
Qed.

(** The same fact as a list property: the ids of one entity type, in the
    order they were handed out, are strictly increasing, hence distinct. *)
Corollary ids_sorted (cs : list Call) (e : Entity) :
  StronglySorted Z.lt (idsOf e (snd (run cs blank))).
Proof.
  change (snd (run cs blank)) with ([] ++ snd (run cs blank)).
  apply idsOf_sorted_from; [exact WF_blank|constructor].
Qed.

Example seeded_ids :
  idsOf EUser (snd (run seedCalls blank)) = [1; 2; 3; 4; 5]
  /\ idsOf ESubject (snd (run seedCalls blank)) = [1; 2; 3; 4]
  /\ idsOf EEnrollment (snd (run seedCalls blank)) = [1; 2; 3; 4; 5; 6; 7]
  /\ nextId ETrackingResult constructor = 1.
Proof. vm_compute. auto. Qed.

(** ** Usernames and emails *)


(** C9, evaluated.  [createUser] stores whatever it is given: after it is
    called with the username and email of the seeded user 1, the store
    holds two User records, ids 1 and 6, with that username and email. *)
Theorem createUser_duplicate_username_email :
  let this := fst (createUser john_again constructor) in
  usernames this
  = ["john_doe"; "emma_smith"; "mike_jones"; "sara_wilson"; "alex_brown"; "john_doe"]
  /\ ~ NoDup (usernames this)
  /\ ~ NoDup (emails this)
  /\ getUser 1 this = Some (User.mk 1 "john_doe" "john@vle.edu" "student123")
  /\ getUser 6 this = Some (User.mk 6 "john_doe" "john@vle.edu" "student123").
Proof.
  vm_compute. repeat split; try reflexivity;
    intros H; inversion H as [|x l Hnin _]; subst; apply Hnin;
    do 4 right; now left.
Qed.

Lemma find_none_not_in (f : User.t -> string) (name : string) (l : list User.t) :
  find (fun user => String.eqb (f user) name) l = None -> ~ In name (map f l).
Proof.
  induction l as [|u l IH]; simpl; [tauto|].
  destruct (String.eqb_spec (f u) name) as [|Hne]; [discriminate|].
  intros H [Heq|Hin]; [contradiction|]. now apply IH.
Qed.

Lemma NoDup_snoc {A : Type} (l : list A) (x : A) :
  NoDup l -> ~ In x l -> NoDup (l ++ [x]).
Proof.
  induction 1 as [|y l Hy Hl IH]; simpl; intros Hx.
  - repeat constructor. tauto.
  - constructor.
    + rewrite in_app_iff. simpl. intros [H|[H|[]]]; [tauto|subst; tauto].
    + apply IH. tauto.
Qed.

(** What the store does keep: when the caller has looked the username and
    the email up and found neither, creating the user keeps both unique. *)
Lemma createUser_unique_when_checked (x : InsertUser.t) (this : t) :
  Forall (fun k => k < userId this) (JSMap.keys (users this)) ->
  getUserByUsername (InsertUser.username x) this = None ->
  getUserByEmail (InsertUser.email x) this = None ->
  NoDup (usernames this) -> NoDup (emails this) ->
  NoDup (usernames (fst (createUser x this)))
  /\ NoDup (emails (fst (createUser x this))).
Proof.
  intros Hk Hu He Hnu Hne.
  unfold usernames, emails, createUser, JSMap.values in *. cbn [fst users].
  rewrite set_fresh by (apply below_fresh; exact Hk).
  rewrite !map_app. cbn [map snd User.username User.email].
  split; apply NoDup_snoc; auto.
  - exact (find_none_not_in User.username _ _ Hu).
  - exact (find_none_not_in User.email _ _ He).
Qed.

End MemStorageFacts.

(* ===================================================================== *)
(** * Properties of the session *)
(* ===================================================================== *)

Module SessionFacts.
Import Session.
Local Open Scope page_scope.

(** ** Stopping tracks *)

Lemma forEach_stopTrack (stream : MediaStream) (env : Env.t) :
  forEach VideoPlayer.stopTrack stream env
  = (JS.Resolved tt,
     Env.mk (Env.hook env) (Env.player env)
            (stopAll stream (Env.liveTracks env))
            (Env.events env ++ map TrackStop stream)).
Proof.
  revert env. induction stream as [|t stream IH]; intros [h p live evs].
  - simpl. now rewrite app_nil_r.
  - simpl. unfold bind at 1. unfold VideoPlayer.stopTrack, bind, emit, modifyTracks.
    simpl. rewrite IH. simpl. now rewrite <- app_assoc.
Qed.

Lemma stopAll_incl (stream : MediaStream) (live : list Track) :
  incl (stopAll stream live) live.
Proof.
  revert live. induction stream as [|t stream IH]; intros live; simpl.
  - apply incl_refl.
  - eapply incl_tran; [apply IH|]. intros x Hx.
    apply filter_In in Hx. tauto.
Qed.

Lemma stopAll_not_in (stream : MediaStream) (live : list Track) (t : Track) :
  In t stream -> ~ In t (stopAll stream live).
Proof.
  revert live. induction stream as [|t' stream IH]; intros live; simpl; [tauto|].
  intros [->|Hin].
  - intros H. apply stopAll_incl in H. apply filter_In in H.
    destruct H as [_ H]. now rewrite Z.eqb_refl in H.
  - now apply IH.
Qed.

(** Once every track of the stream is stopped, no track of the stream is
    capturing. *)
Lemma stopAll_releases (stream : MediaStream) (live : list Track) :
  incl live stream -> stopAll stream live = [].
Proof.
  intros Hincl. destruct (stopAll stream live) as [|t l] eqn:E; [reflexivity|].
  exfalso. apply (@stopAll_not_in stream live t).
  - apply Hincl. apply (@stopAll_incl stream live). rewrite E. now left.
  - rewrite E. now left.
Qed.

(** ** Committing a render *)

(** A commit never throws, never touches the hook's state, and makes no
    gateway request; while the session is not tracking it neither starts the
    camera nor lets a stopped track capture again. *)
Lemma commit_spec (env : Env.t) :
  React.commit env = (JS.Resolved tt, committed env)
  /\ Env.hook (committed env) = Env.hook env
  /\ exists evs,
       Env.events (committed env) = Env.events env ++ evs
       /\ forallb (fun e => negb (isReset e) && negb (isSave e)) evs = true
       /\ (isTracking env = false ->
           forallb harmless evs = true
           /\ incl (Env.liveTracks (committed env)) (Env.liveTracks env)
           /\ (Player.usingWebcam (Env.player env) = true ->
               Player.effectDep (Env.player env) = true ->
               forall stream,
                 Player.mediaStreamRef (Env.player env) = Some stream ->
                 Env.liveTracks (committed env)
                 = stopAll stream (Env.liveTracks env))).
Proof.
  unfold committed, isTracking.
  destruct env as [[it m er fl] [uw ip ms vr vs ed sw] live evs].
  unfold React.commit, bind, getHook, getPlayer.
  cbn [Env.hook Env.player Env.liveTracks Env.events Hook.isTracking
       Player.effectDep Player.usingWebcam Player.mediaStreamRef].
  destruct it, ed; cbn [Bool.eqb].
  - (* tracking, effect up to date *)
    cbn. split; [reflexivity|]. split; [reflexivity|].
    exists []. rewrite app_nil_r. split; [reflexivity|]. split; [reflexivity|].
    discriminate.
  - (* tracking has just started *)
    destruct uw; cbn;
      (split; [reflexivity|]; split; [reflexivity|]).
    + exists []. rewrite app_nil_r. split; [reflexivity|]. split; [reflexivity|].
      discriminate.
    + exists [EnumerateDevices]. split; [reflexivity|]. split; [reflexivity|].
      discriminate.
  - (* tracking has just stopped *)
    assert (Hstops : forall stream : MediaStream,
               forallb harmless (map TrackStop stream) = true
               /\ forallb (fun e => negb (isReset e) && negb (isSave e))
                          (map TrackStop stream) = true).
    { intros stream. split; apply forallb_forall; intros e He;
        apply in_map_iff in He; destruct He as (t & <- & _); reflexivity. }
    unfold VideoPlayer.setEffectDep, modifyPlayer, VideoPlayer.webcamEffect,
      bind, getHook, getPlayer.
    cbn [Env.hook Env.player Env.liveTracks Env.events Hook.isTracking
         Player.effectDep Player.usingWebcam Player.mediaStreamRef
         Player.isPlaying Player.videoRef Player.videoSrc Player.startingWebcam
         negb andb].
    destruct uw.
    + unfold VideoPlayer.stopWebcam, bind, getPlayer.
      cbn [Env.hook Env.player Env.liveTracks Env.events
           Player.effectDep Player.usingWebcam Player.mediaStreamRef
           Player.isPlaying Player.videoRef Player.videoSrc
           Player.startingWebcam].
      destruct ms as [stream|].
      * rewrite forEach_stopTrack.
        destruct (Hstops stream) as [Hh Hr].
        destruct vr as [v|]; destruct ip; cbn;
          (split; [reflexivity|]; split; [reflexivity|];
           eexists; split; [rewrite <- !app_assoc; reflexivity|];
           split; [rewrite forallb_app, Hr; reflexivity|];
           intros _; split; [rewrite forallb_app, Hh; reflexivity|];
           split; [apply stopAll_incl|];
           intros _ _ stream' Hs; injection Hs as <-; reflexivity).
      * destruct vr as [v|]; destruct ip; cbn;
          (split; [reflexivity|]; split; [reflexivity|];
           eexists; split; [rewrite <- ?app_assoc; reflexivity|];
           split; [reflexivity|];
           intros _; split; [reflexivity|];
           split; [apply incl_refl|]; discriminate).
    + cbn. split; [reflexivity|]. split; [reflexivity|].
      exists []. rewrite app_nil_r. split; [reflexivity|]. split; [reflexivity|].
      intros _. split; [reflexivity|]. split; [apply incl_refl|]. discriminate.
  - (* idle, effect up to date *)
    cbn. split; [reflexivity|]. split; [reflexivity|].
    exists []. rewrite app_nil_r. split; [reflexivity|]. split; [reflexivity|].
    intros _. split; [reflexivity|]. split; [apply incl_refl|]. discriminate.
Qed.




Lemma commit_eq (env : Env.t) : React.commit env = (JS.Resolved tt, committed env).
Proof. apply commit_spec. Qed.

Lemma committed_hook (env : Env.t) : Env.hook (committed env) = Env.hook env.
Proof. apply commit_spec. Qed.

(** Replaces the innermost committed page by a page of which only what
    [commit_spec] says is known. *)
Ltac commit_step :=
  match goal with
  | |- context [committed ?X] =>
      lazymatch X with
      | context [committed _] => fail
      | _ =>
          let Hh := fresh "Hhook" in
          let evs := fresh "evs" in
          let Hev := fresh "Hevents" in
          let Hq := fresh "Hquiet" in
          let Hidle := fresh "Hidle" in
          destruct (commit_spec X) as (_ & Hh & evs & Hev & Hq & Hidle);
          let e := fresh "env" in
          remember (committed X) as e eqn:Heqe in *; clear Heqe;
          destruct e as [? ? ? ?];
          cbn [Env.hook Env.player Env.liveTracks Env.events isTracking
               Hook.isTracking Player.usingWebcam Player.effectDep
               Player.mediaStreamRef] in Hh, Hev, Hidle;
          subst
      end
  end.

(** Unfolds the page computations down to the commits. *)
Ltac page_unfold :=
  cbv beta iota zeta delta
    [bind try_catch ret throw settle emit toast getHook getPlayer
     modifyHook modifyPlayer modifyTracks forEach
     useAttentionTracking.setIsTracking useAttentionTracking.setMetrics
     useAttentionTracking.setError useAttentionTracking.setFlaskServerAvailable
     useAttentionTracking.checkFlaskServer useAttentionTracking.startTracking
     useAttentionTracking.stopTracking useAttentionTracking.toggleTracking
     useAttentionTracking.processVideoFrame useAttentionTracking.field
     Api.apiRequest Api.saveTrackingResults Api.processFrame
     Api.getTrackingResults Api.resetTracking Api.checkFlaskServer
     React.await Classroom.clickToggle Classroom.videoFrame
     Classroom.after Classroom.result
     isTracking error metrics];
  cbn [Env.hook Env.player Env.liveTracks Env.events
       Hook.isTracking Hook.metrics Hook.error Hook.flaskServerAvailable
       Api.ok Api.statusText Api.json JS.prop fst snd negb andb orb].

(** Lets every commit in sight resolve. *)
Ltac page_step := page_unfold; rewrite ?commit_eq; page_unfold.

Lemma skipn_exact {A : Type} (l r : list A) : skipn (List.length l) (l ++ r) = r.
Proof. now rewrite skipn_app, Nat.sub_diag, skipn_all. Qed.

Lemma quiet_no_save (evs : list Event) :
  forallb (fun e => negb (isReset e) && negb (isSave e)) evs = true ->
  existsb isSave evs = false.
Proof.
  induction evs as [|e evs IH]; simpl; [reflexivity|].
  intros H. apply andb_prop in H. destruct H as [He Hevs].
  apply andb_prop in He. destruct He as [_ He].
  apply negb_true_iff in He. now rewrite He, IH.
Qed.

Lemma harmless_spec (evs : list Event) :
  forallb harmless evs = true ->
  existsb isReset evs = false /\ existsb opensCamera evs = false
  /\ existsb isSave evs = false.
Proof.
  induction evs as [|e evs IH]; simpl; [auto|].
  intros H. apply andb_prop in H. destruct H as [He Hevs].
  unfold harmless in He.
  apply andb_prop in He. destruct He as [He Hs].
  apply andb_prop in He. destruct He as [Hr Hc].
  apply negb_true_iff in Hr, Hc, Hs. rewrite Hr, Hc, Hs.
  exact (IH Hevs).
Qed.

(** Runs a page computation and exposes the events it added. *)
Ltac page_run :=
  unfold Classroom.added; repeat page_step; repeat commit_step;
  page_unfold; rewrite <- ?app_assoc; cbn [app]; rewrite ?skipn_exact.

(** Closes goals saying that a run made no save request, or that it made
    some event. *)
Ltac no_save :=
  repeat first [ rewrite existsb_app
               | rewrite quiet_no_save by assumption
               | progress cbn [existsb isSave orb] ];
  reflexivity.

Ltac find_event :=
  repeat first [ rewrite in_app_iff | progress cbn [In] ];
  repeat first [ left; reflexivity | right ].

(** ** Starting while the gateway is unavailable *)

(** Collects what the commits of an idle page are known to have done. *)
Ltac idle_facts :=
  repeat match goal with
         | H : false = false -> _ |- _ =>
             specialize (H eq_refl); destruct H as (? & ? & _)
         end;
  repeat match goal with
         | H : forallb harmless ?evs = true |- _ =>
             destruct (harmless_spec evs H) as (? & ? & ?); clear H
         end.

Ltac no_event :=
  repeat first [ rewrite existsb_app
               | match goal with
                 | H : existsb ?f ?evs = false |- context [existsb ?f ?evs] =>
                     rewrite H
                 end
               | progress cbn [existsb orb] ];
  cbn; reflexivity.

(** C2.  When a start is attempted on an Idle session while the health
    check reports unavailable, [toggleTracking] resolves to [false], the
    session is still not tracking, no reset request is made, the camera is
    not asked for and no track starts capturing, no save request is made,
    and the failure is reported: the hook's error is set and a destructive
    "Tracking Error" toast is shown. *)
Theorem start_while_unavailable (userId subjectId : Z) (env : Env.t)
        (health reset : JS.Outcome Api.Response) :
  isTracking env = false ->
  unavailable health = true ->
  let m := Classroom.clickToggle userId subjectId health reset in
  Classroom.result m env = JS.Resolved false
  /\ isTracking (Classroom.after m env) = false
  /\ existsb isReset (Classroom.added m env) = false
  /\ existsb opensCamera (Classroom.added m env) = false
  /\ incl (Env.liveTracks (Classroom.after m env)) (Env.liveTracks env)
  /\ existsb isSave (Classroom.added m env) = false
  /\ error (Classroom.after m env) = Some serverUnavailable
  /\ In (Toast "Tracking Error" serverUnavailable true) (Classroom.added m env).
Proof.
  intros Hidle Hdown m. subst m.
  destruct env as [[it mt er fl] p live evs0]. cbn in Hidle. subst it.
  destruct health as [[[] st js]|e]; cbn in Hdown; try discriminate;
    page_run; idle_facts;
    (split; [reflexivity|]); (split; [reflexivity|]);
    (split; [no_event|]); (split; [no_event|]);
    (split; [eauto using incl_tran|]);
    (split; [no_event|]); (split; [reflexivity|find_event]).
Qed.

(** A start attempted on the freshly mounted page while the health request
    is refused by the network. *)
Lemma start_while_unavailable_witness :
  isTracking (Classroom.mounted "lecture.mp4") = false
  /\ unavailable (JS.Rejected (JS.Error "TypeError" "Failed to fetch")) = true
  /\ Classroom.result
       (Classroom.clickToggle 1 1
          (JS.Rejected (JS.Error "TypeError" "Failed to fetch")) ok)
       (Classroom.mounted "lecture.mp4") = JS.Resolved false
  /\ isTracking
       (Classroom.after
          (Classroom.clickToggle 1 1
             (JS.Rejected (JS.Error "TypeError" "Failed to fetch")) ok)
          (Classroom.mounted "lecture.mp4")) = false.
Proof.
  split; [reflexivity|]. split; [reflexivity|].
  destruct (@start_while_unavailable 1 1 (Classroom.mounted "lecture.mp4")
              (JS.Rejected (JS.Error "TypeError" "Failed to fetch")) ok)
    as (H1 & H2 & _); [reflexivity|reflexivity|].
  split; [exact H1|exact H2].
Defined.

Example unavailable_start_events :
  Classroom.added
    (Classroom.clickToggle 1 1
       (JS.Resolved (Api.mkResponse false "Service Unavailable" (JS.Resolved JS.Null)))
       ok)
    (Classroom.mounted "lecture.mp4")
  = [Request "GET" "/api/flask/health" NoBody;
     Toast "Tracking Error" serverUnavailable true].
Proof. vm_compute. reflexivity. Qed.

(** ** Releasing the camera *)

(** X26.  Stopping while the player is using the webcam releases the camera,
    however the aggregate fetch and the save settle: the webcam effect runs
    when the fetch is awaited, before its outcome is known. *)
Lemma stop_while_playing_releases (userId subjectId : Z) (env : Env.t)
      (fetch save : JS.Outcome Api.Response) (stream : MediaStream) :
  isTracking env = true ->
  Player.usingWebcam (Env.player env) = true ->
  Player.effectDep (Env.player env) = true ->
  Player.mediaStreamRef (Env.player env) = Some stream ->
  incl (Env.liveTracks env) stream ->
  cameraReleased
    (Classroom.after (Classroom.clickToggle userId subjectId fetch save) env).
Proof.
  intros Htr Hw Hd Hs Hincl. unfold cameraReleased.
  destruct env as [[it mt er fl] p live evs0]. cbn in Htr, Hw, Hd, Hs, Hincl.
  subst it.
  assert (Hnil : forall l : list Track, incl l (stopAll stream live) -> l = []).
  { intros l Hl. rewrite (stopAll_releases Hincl) in Hl.
    destruct l as [|t l]; [reflexivity|]. destruct (Hl t). now left. }
  destruct fetch as [[[] st [v|e]]|e]; try destruct save as [r|e'];
    repeat page_step;
    (match goal with
     | |- context [committed ?X] =>
         lazymatch X with
         | context [committed _] => fail
         | _ => destruct (commit_spec X) as (_ & _ & ? & _ & _ & H0);
                destruct (H0 eq_refl) as (_ & _ & H1);
                pose proof (H1 Hw Hd stream Hs) as Hfirst; clear H0 H1
         end
     end);
    repeat commit_step; page_unfold; idle_facts;
    cbn [Env.liveTracks] in Hfirst; subst;
    apply Hnil; eauto using incl_tran, incl_refl.
Qed.

Example stop_while_playing_trace :
  Classroom.added (clickToggle (JS.Rejected (JS.Error "TypeError" "Failed to fetch")) ok)
                  playing
  = [Request "GET" "/api/flask/get_tracking_results" NoBody;
     TrackStop 7; VideoPause; VideoLoad; VideoPlay;
     Toast "Tracking Stopped" "Your webcam has been turned off" false;
     ConsoleError "Get tracking results error:";
     Toast "Tracking Error" "Failed to fetch" true]
  /\ cameraReleased
       (Classroom.after
          (clickToggle (JS.Rejected (JS.Error "TypeError" "Failed to fetch")) ok)
          playing).
Proof. vm_compute. auto. Qed.

(** X27.  The unmount cleanup stops the tracks of whatever stream the ref holds;
    it does not look at [usingWebcam]. *)
Lemma unmount_releases (env : Env.t) (stream : MediaStream) :
  Player.mediaStreamRef (Env.player env) = Some stream ->
  incl (Env.liveTracks env) stream ->
  cameraReleased (Classroom.after VideoPlayer.unmount env).
Proof.
  intros Hs Hincl. unfold cameraReleased, Classroom.after, VideoPlayer.unmount.
  destruct env as [h [uw ip ms vr vs ed sw] live evs0]. cbn in Hs, Hincl. subst ms.
  unfold bind at 1. unfold getPlayer at 1. cbn [Env.player Player.mediaStreamRef].
  unfold bind at 1. unfold bind at 1. rewrite forEach_stopTrack.
  unfold VideoPlayer.setMediaStreamRef, VideoPlayer.setVideo, modifyPlayer,
    bind, getPlayer, ret.
  rewrite <- (stopAll_releases Hincl).
  destruct vr; reflexivity.
Qed.

(** Stopping while the stream is held but [usingWebcam] is still [false]
    stops no track: the webcam effect takes neither branch. *)
Lemma stop_before_playing_keeps_tracks (userId subjectId : Z) (env : Env.t)
      (fetch save : JS.Outcome Api.Response) :
  isTracking env = true ->
  Player.usingWebcam (Env.player env) = false ->
  Player.effectDep (Env.player env) = true ->
  let m := Classroom.clickToggle userId subjectId fetch save in
  isTracking (Classroom.after m env) = false
  /\ Env.liveTracks (Classroom.after m env) = Env.liveTracks env
  /\ Player.mediaStreamRef (Env.player (Classroom.after m env))
     = Player.mediaStreamRef (Env.player env).
Proof.
  intros Htr Hw Hd m. subst m.
  destruct env as [[it mt er fl] [uw ip ms vr vs ed sw] live evs0].
  cbn in Htr, Hw, Hd. subst it uw ed.
  destruct fetch as [[[] st [v|e]]|e]; try destruct save as [r|e'];
    repeat page_step; vm_compute; auto.
Qed.

(** C3, evaluated.  A session is started and the camera is granted (track
    7 is capturing), and the session is stopped before the video element
    has played the stream, or after it refused to: the session leaves the
    Active state, [stopWebcam] is not called, no track is stopped, and the
    camera is still capturing afterwards.  The unmount cleanup, run on the
    same page, does release it. *)
Theorem stop_before_playback_keeps_camera :
  isTracking granted = true
  /\ Env.liveTracks granted = [7]
  /\ Player.usingWebcam (Env.player granted) = false
  /\ isTracking (Classroom.after (clickToggle ok ok) granted) = false
  /\ Env.liveTracks (Classroom.after (clickToggle ok ok) granted) = [7]
  /\ existsb isTrackStop (Classroom.added (clickToggle ok ok) granted) = false
  /\ ~ cameraReleased (Classroom.after (clickToggle ok ok) granted)
  /\ ~ cameraReleased
        (Classroom.after
           (clickToggle (JS.Rejected (JS.Error "TypeError" "Failed to fetch")) ok)
           granted)
  /\ isTracking playRefused = true
  /\ ~ cameraReleased (Classroom.after (clickToggle ok ok) playRefused)
  /\ cameraReleased (Classroom.after VideoPlayer.unmount granted).
Proof.
  unfold cameraReleased. vm_compute.
  repeat split; try reflexivity; discriminate.
Qed.

(** ** Frame replies *)

Lemma nonempty_eqb (s : string) : s <> "" -> String.eqb s "" = false.
Proof. intros H. now apply String.eqb_neq. Qed.

(** What [processVideoFrame] leaves in [metrics] after a reply that parsed
    to an object. *)
Lemma processVideoFrame_metrics (NODE_ENV frameData statusText : string)
      (fields : list (string * JS.Value)) (env : Env.t) :
  isTracking env = true ->
  frameData <> "" ->
  metrics (Classroom.after
             (Classroom.videoFrame NODE_ENV frameData
                (JS.Resolved (Api.mkResponse true statusText
                                (JS.Resolved (JS.Object fields)))))
             env)
  = Some (TrackingMetrics.mk
            (JS.or (JS.lookup "eye_movement_count" fields) (JS.Number 0))
            (JS.or (JS.lookup "blink_count" fields) (JS.Number 0))
            (JS.or (JS.lookup "posture_change_count" fields) (JS.Number 0))
            (JS.or (JS.lookup "attentiveness_score" fields) (JS.Number 85))
            (JS.or (JS.lookup "facial_expression" fields) (JS.String "neutral"))).
Proof.
  intros Htr Hdata.
  destruct env as [[it mt er fl] p live evs0]. cbn in Htr. subst it.
  page_unfold. rewrite (nonempty_eqb Hdata).
  repeat page_step.
  destruct (String.eqb NODE_ENV "development");
    repeat page_step; rewrite !committed_hook; reflexivity.
Qed.

(** C10.  A frame reply applied while the session is Active replaces the
    live metrics by the reply's fields with every falsy field defaulted: a
    missing count becomes 0, a missing or zero score becomes 85, a missing
    expression becomes 'neutral'; a score of exactly 0 is shown as 85. *)
Theorem processVideoFrame_defaults (NODE_ENV frameData statusText : string)
        (fields : list (string * JS.Value)) (env : Env.t) :
  isTracking env = true ->
  frameData <> "" ->
  let env' :=
    Classroom.after
      (Classroom.videoFrame NODE_ENV frameData
         (JS.Resolved (Api.mkResponse true statusText
                         (JS.Resolved (JS.Object fields)))))
      env in
  exists shown : TrackingMetrics.t,
    metrics env' = Some shown
    /\ (JS.lookup "eye_movement_count" fields = JS.Undefined ->
        TrackingMetrics.eyeMovements shown = JS.Number 0)
    /\ (JS.lookup "blink_count" fields = JS.Undefined ->
        TrackingMetrics.eyeBlinks shown = JS.Number 0)
    /\ (JS.lookup "posture_change_count" fields = JS.Undefined ->
        TrackingMetrics.postureChanges shown = JS.Number 0)
    /\ (JS.lookup "attentiveness_score" fields = JS.Undefined ->
        TrackingMetrics.attentivenessScore shown = JS.Number 85)
    /\ (JS.lookup "attentiveness_score" fields = JS.Number 0 ->
        TrackingMetrics.attentivenessScore shown = JS.Number 85)
    /\ (JS.lookup "facial_expression" fields = JS.Undefined ->
        TrackingMetrics.facialExpression shown = JS.String "neutral")
    /\ (forall k v, In (k, v)
          [("eye_movement_count", TrackingMetrics.eyeMovements shown);
           ("blink_count", TrackingMetrics.eyeBlinks shown);
           ("posture_change_count", TrackingMetrics.postureChanges shown);
           ("attentiveness_score", TrackingMetrics.attentivenessScore shown);
           ("facial_expression", TrackingMetrics.facialExpression shown)] ->
        JS.truthy (JS.lookup k fields) = true -> v = JS.lookup k fields).
Proof.
  intros Htr Hdata env'. subst env'.
  eexists. split; [apply processVideoFrame_metrics; assumption|].
  cbn [TrackingMetrics.eyeMovements TrackingMetrics.eyeBlinks
       TrackingMetrics.postureChanges TrackingMetrics.attentivenessScore
       TrackingMetrics.facialExpression].
  repeat split; try (intros ->; reflexivity).
  intros k v Hin Ht. cbn [In] in Hin.
  repeat (destruct Hin as [Hin|Hin];
          [injection Hin as <- <-; unfold JS.or; now rewrite Ht|]).
  destruct Hin.
Qed.

(** A reply that reports a score of 0 and nothing else. *)
Lemma processVideoFrame_defaults_witness :
  isTracking playing = true
  /\ "data:image/jpeg;base64,AAAA" <> ""
  /\ metrics
       (Classroom.after
          (Classroom.videoFrame "production" "data:image/jpeg;base64,AAAA"
             (JS.Resolved (Api.mkResponse true "OK"
                (JS.Resolved (JS.Object [("attentiveness_score", JS.Number 0)])))))
          playing)
     = Some (TrackingMetrics.mk (JS.Number 0) (JS.Number 0) (JS.Number 0)
                                (JS.Number 85) (JS.String "neutral")).
Proof.
  assert (Htr : isTracking playing = true) by (vm_compute; reflexivity).
  assert (Hdata : "data:image/jpeg;base64,AAAA" <> "") by discriminate.
  split; [exact Htr|]. split; [exact Hdata|].
  destruct (@processVideoFrame_defaults "production" "data:image/jpeg;base64,AAAA"
              "OK" [("attentiveness_score", JS.Number 0)] playing Htr Hdata)
    as (shown & Hshown & He & Hb & Hp & _ & Hs & Hf & _).
  rewrite Hshown. destruct shown as [a b c d e].
  cbn in He, Hb, Hp, Hs, Hf.
  rewrite (He eq_refl), (Hb eq_refl), (Hp eq_refl), (Hs eq_refl), (Hf eq_refl).
  reflexivity.
Defined.

(** ** The attentiveness score *)

Lemma quiet_filter_save (evs : list Event) :
  forallb (fun e => negb (isReset e) && negb (isSave e)) evs = true ->
  filter isSave evs = [].
Proof.
  induction evs as [|e evs IH]; simpl; [reflexivity|].
  intros H. apply andb_prop in H. destruct H as [He Hevs].
  apply andb_prop in He. destruct He as [_ He].
  apply negb_true_iff in He. now rewrite He, IH.
Qed.

(** Two replies without a score, the same counts, opposite expressions:
    both leave 85 on display. *)
Example raw_frames_show_85 :
  liveScore (rawFrame "focused" 12 4 1) = Some (JS.Number 85)
  /\ liveScore (rawFrame "distracted" 12 4 1) = Some (JS.Number 85)
  /\ liveScore (rawFrame "distracted" 300 90 40) = Some (JS.Number 85).
Proof. vm_compute. auto. Qed.

(** C6 as stated fails.  No weighted blend whose facial-expression
    component (the 70% one) tells a focused face from a distracted one
    agrees with the score the hook shows for the two score-less replies
    [rawFrame "focused" 12 4 1] and [rawFrame "distracted" 12 4 1]: the hook
    shows 85 for both. *)
Lemma live_score_is_not_a_weighted_blend :
  ~ exists (expression : string -> Q) (eye blink posture : float -> Q),
      ~ (expression "focused" == expression "distracted")%Q
      /\ forall label : string,
           In label ["focused"; "distracted"] ->
           exists q : Q,
             liveScoreQ (rawFrame label 12 4 1) = Some q
             /\ (q == weightedBlend (expression label) (eye 12%float)
                                    (blink 4%float) (posture 1%float))%Q.
Proof.
  intros (F & E & B & P & Hne & H).
  destruct (H "focused" (or_introl eq_refl)) as (q1 & Hq1 & Hb1).
  destruct (H "distracted" (or_intror (or_introl eq_refl))) as (q2 & Hq2 & Hb2).
  assert (Hs1 : liveScoreQ (rawFrame "focused" 12 4 1) = Some (85 # 1)%Q)
    by (vm_compute; reflexivity).
  assert (Hs2 : liveScoreQ (rawFrame "distracted" 12 4 1) = Some (85 # 1)%Q)
    by (vm_compute; reflexivity).
  rewrite Hs1 in Hq1. rewrite Hs2 in Hq2.
  injection Hq1 as <-. injection Hq2 as <-.
  unfold weightedBlend in Hb1, Hb2. apply Hne. lra.
Qed.

(** C6, amended.  For a frame reply applied while the session is Active,
    the score shown is the service's own score when that is truthy, and
    the constant 85 otherwise, whatever the reply's counts and expression
    are; and when the session is stopped and the aggregate is fetched, the
    save request carries the aggregate as the service returned it.  The
    hook computes no blend in either place. *)
Theorem live_score_is_service_score_or_85
        (userId subjectId : Z) (NODE_ENV frameData statusText : string)
        (fields : list (string * JS.Value)) (aggregate : JS.Value)
        (save : JS.Outcome Api.Response) (env : Env.t) :
  isTracking env = true ->
  frameData <> "" ->
  let score := JS.lookup "attentiveness_score" fields in
  option_map TrackingMetrics.attentivenessScore
    (metrics (Classroom.after
                (Classroom.videoFrame NODE_ENV frameData
                   (JS.Resolved (Api.mkResponse true statusText
                                   (JS.Resolved (JS.Object fields)))))
                env))
  = Some (if JS.truthy score then score else JS.Number 85)
  /\ savedBody
       (Classroom.added
          (Classroom.clickToggle userId subjectId
             (JS.Resolved (Api.mkResponse true statusText (JS.Resolved aggregate)))
             save)
          env)
     = Some aggregate.
Proof.
  intros Htr Hdata score. subst score. split.
  - rewrite processVideoFrame_metrics by assumption. reflexivity.
  - destruct env as [[it mt er fl] p live evs0]. cbn in Htr. subst it.
    destruct save as [r|e]; page_run; unfold savedBody;
      cbn [filter isSave]; rewrite !filter_app;
      repeat rewrite quiet_filter_save by assumption;
      cbn; reflexivity.
Qed.

(** A reply with counts and no score, then a stop whose aggregate reports
    a score of 72. *)
Lemma live_score_is_service_score_or_85_witness :
  isTracking playing = true
  /\ "data:image/jpeg;base64,AAAA" <> ""
  /\ liveScore (rawFrame "distracted" 300 90 40) = Some (JS.Number 85)
  /\ savedBody
       (Classroom.added
          (clickToggle (okWith (JS.Object [("attentivenessScore", JS.Number 72)])) ok)
          playing)
     = Some (JS.Object [("attentivenessScore", JS.Number 72)]).
Proof.
  assert (Htr : isTracking playing = true) by (vm_compute; reflexivity).
  assert (Hdata : "data:image/jpeg;base64,AAAA" <> "") by discriminate.
  split; [exact Htr|]. split; [exact Hdata|].
  exact (@live_score_is_service_score_or_85 1 1 "production"
           "data:image/jpeg;base64,AAAA" "OK"
           [("facial_expression", JS.String "distracted");
            ("eye_movement_count", JS.Number 300);
            ("blink_count", JS.Number 90);
            ("posture_change_count", JS.Number 40)]
           (JS.Object [("attentivenessScore", JS.Number 72)]) ok playing
           Htr Hdata).
Defined.

End SessionFacts.

(* ===================================================================== *)
(** * Properties of the results page *)
(* ===================================================================== *)

Module ResultsFacts.

Local Open Scope float_scope.

(** C5, evaluated.  For a histogram whose four counts are all zero, each
    of the eight percentage expressions of the results page evaluates
    [0 / 0 * 100], which is NaN, and [Math.round] returns it unchanged: the
    page shows NaN, not 0, in every row. *)
Theorem all_zero_histogram_shows_NaN :
  forallb PrimFloat.is_nan (Results.facialRows (FacialExpressions.mk 0 0 0 0)) = true
  /\ forallb PrimFloat.is_nan (Results.postureRows (PostureStates.mk 0 0 0 0)) = true.
Proof. vm_compute. auto. Qed.

(** With a positive total the rows are the rounded shares. *)
Example histogram_rows :
  Results.facialRows (FacialExpressions.mk 30 50 15 5) = [30; 50; 15; 5]
  /\ Results.facialRows (FacialExpressions.mk 1 2 0 0) = [33; 67; 0; 0]
  /\ Results.postureRows (PostureStates.mk 7 0 1 0) = [88; 0; 13; 0].
Proof. vm_compute. auto. Qed.

End ResultsFacts.

(* ===================================================================== *)
(** * Further properties of the repository *)
(* ===================================================================== *)

Module StoreFacts.
Import MemStorage Store MemStorageFacts.

(** ** Lookup after insertion *)

Lemma get_set_same {V : Type} (k : Z) (v : V) (m : JSMap.t V) :
  JSMap.get k (JSMap.set k v m) = Some v.
Proof.
  induction m as [|[k' v'] m IH]; simpl.
  - now rewrite Z.eqb_refl.
  - destruct (Z.eqb_spec k' k) as [->|Hne]; simpl.
    + now rewrite Z.eqb_refl.
    + destruct (Z.eqb_spec k' k); [contradiction|exact IH].
Qed.

Lemma get_set_other {V : Type} (k j : Z) (v : V) (m : JSMap.t V) :
  j <> k -> JSMap.get j (JSMap.set k v m) = JSMap.get j m.
Proof.
  intros Hne. induction m as [|[k' v'] m IH]; simpl.
  - destruct (Z.eqb_spec k j); [congruence|reflexivity].
  - destruct (Z.eqb_spec k' k) as [->|Hk]; simpl.
    + destruct (Z.eqb_spec k j); [congruence|reflexivity].
    + destruct (Z.eqb_spec k' j); [reflexivity|exact IH].
Qed.

(** X1.  [createUser] followed by [getUser]: the new user is found under the id
    it was given, which is the counter and not an id the caller supplied;
    every other id answers as before. *)
Theorem createUser_then_getUser (insertUser : InsertUser.t) (this : t) :
  let this' := fst (createUser insertUser this) in
  let user := snd (createUser insertUser this) in
  User.id user = userId this
  /\ getUser (User.id user) this' = Some user
  /\ (forall id, id <> User.id user -> getUser id this' = getUser id this)
  /\ User.username user = InsertUser.username insertUser
  /\ User.email user = InsertUser.email insertUser
  /\ User.password user = InsertUser.password insertUser.
Proof.
  unfold getUser, createUser. cbn [fst snd users User.id User.username
                                   User.email User.password].
  repeat split.
  - apply get_set_same.
  - intros id Hne. now apply get_set_other.
Qed.

(** ** Dense ids *)

Lemma upto_succ (next : Z) : 1 <= next -> upto (next + 1) = upto next ++ [next].
Proof.
  intros H. unfold upto.
  replace (Z.to_nat (next + 1 - 1)) with (S (Z.to_nat (next - 1))) by lia.
  rewrite seq_S, map_app. cbn [map]. do 2 f_equal. lia.
Qed.

Lemma in_upto (next k : Z) : In k (upto next) <-> 1 <= k < next.
Proof.
  unfold upto. rewrite in_map_iff. split.
  - intros (n & <- & Hn). apply in_seq in Hn. lia.
  - intros H. exists (Z.to_nat k). split; [lia|]. apply in_seq. lia.
Qed.

Lemma dense_set {V : Type} (id : V -> Z) (m : JSMap.t V) (next : Z) (v : V) :
  id v = next -> dense id m next -> dense id (JSMap.set next v m) (next + 1).
Proof.
  intros Hid (Hle & Hkeys & Hids).
  assert (Hfresh : ~ In next (JSMap.keys m)).
  { rewrite Hkeys, in_upto. lia. }
  rewrite (set_fresh _ _ _ Hfresh). repeat split.
  - lia.
  - unfold JSMap.keys in *. rewrite map_app, Hkeys, upto_succ by exact Hle.
    reflexivity.
  - apply Forall_app. split; [exact Hids|]. repeat constructor. exact Hid.
Qed.

Lemma Dense_blank : Dense blank.
Proof. split; (split; [cbn; lia|split; [reflexivity|constructor]]). Qed.

Lemma Dense_call (c : Call) (this : t) : Dense this -> Dense (fst (call c this)).
Proof.
  intros [Hu Hs He Hr].
  destruct c; split; cbn; try assumption; now apply dense_set.
Qed.

Lemma Dense_run (cs : list Call) (this : t) : Dense this -> Dense (fst (run cs this)).
Proof.
  revert this. induction cs as [|c cs IH]; intros this H; [exact H|].
  rewrite run_cons. cbn [fst]. apply IH, Dense_call, H.
Qed.

Lemma Dense_reachable (cs : list Call) : Dense (fst (run cs blank)).
Proof. apply Dense_run, Dense_blank. Qed.

Lemma get_in_keys {V : Type} (k : Z) (m : JSMap.t V) :
  JSMap.get k m <> None <-> In k (JSMap.keys m).
Proof.
  induction m as [|[k' v'] m IH]; simpl; [tauto|].
  destruct (Z.eqb_spec k' k) as [->|Hne].
  - split; [now left|discriminate].
  - rewrite IH. split; [now right|]. intros [H|H]; [contradiction|exact H].
Qed.

Lemma get_keyed {V : Type} (id : V -> Z) (k : Z) (v : V) (m : JSMap.t V) :
  Forall (fun kv => id (snd kv) = fst kv) m ->
  JSMap.get k m = Some v -> id v = k.
Proof.
  induction 1 as [|[k' v'] m Hkv _ IH]; simpl; [discriminate|].
  destruct (Z.eqb_spec k' k) as [->|Hne].
  - intros H. injection H as <-. exact Hkv.
  - exact IH.
Qed.

(** X2.  After the constructor and any further calls, [getUser] and
    [getSubject] find a record exactly for the ids from 1 up to the last id
    handed out, with no gap, and the record found under an id carries that
    id: nothing is ever removed or stored under another key. *)
Theorem lookups_are_dense (cs : list Call) (id : Z) :
  let this := fst (run (seedCalls ++ cs) blank) in
  (getUser id this <> None <-> 1 <= id < userId this)
  /\ (getSubject id this <> None <-> 1 <= id < subjectId this)
  /\ (forall user, getUser id this = Some user -> User.id user = id)
  /\ (forall subject, getSubject id this = Some subject -> Subject.id subject = id).
Proof.
  cbv zeta. generalize (seedCalls ++ cs). intros history.
  destruct (Dense_reachable history) as [(_ & Hku & Hiu) (_ & Hks & His) _ _].
  unfold getUser, getSubject.
  split; [|split; [|split]].
  - rewrite get_in_keys, Hku. apply in_upto.
  - rewrite get_in_keys, Hks. apply in_upto.
  - intros user. apply (get_keyed User.id). exact Hiu.
  - intros subject. apply (get_keyed Subject.id). exact His.
Qed.

(** ** Secondary keys *)

Lemma find_snoc {A : Type} (f : A -> bool) (l : list A) (x : A) :
  find f (l ++ [x])
  = match find f l with
    | Some y => Some y
    | None => if f x then Some x else None
    end.
Proof.
  induction l as [|y l IH]; simpl; [reflexivity|].
  destruct (f y); [reflexivity|exact IH].
Qed.

Lemma values_set_fresh {V : Type} (id : V -> Z) (m : JSMap.t V) (next : Z) (v : V) :
  dense id m next ->
  JSMap.values (JSMap.set next v m) = JSMap.values m ++ [v].
Proof.
  intros (Hle & Hkeys & _).
  rewrite set_fresh.
  - unfold JSMap.values. now rewrite map_app.
  - rewrite Hkeys, in_upto. lia.
Qed.

(** X3.  [createUser] followed by [getUserByUsername], after the constructor
    and any calls: when the username was free the new user is found; when
    it was taken the older user is still the answer and the new record is
    never returned by this lookup; other usernames answer as before. *)
Theorem createUser_then_getUserByUsername
        (cs : list Call) (insertUser : InsertUser.t) (name : string) :
  let this := fst (run (seedCalls ++ cs) blank) in
  let this' := fst (createUser insertUser this) in
  let user := snd (createUser insertUser this) in
  getUserByUsername name this'
  = match getUserByUsername name this with
    | Some older => Some older
    | None => if String.eqb (InsertUser.username insertUser) name
              then Some user else None
    end.
Proof.
  cbv zeta. generalize (seedCalls ++ cs). intros history.
  pose proof (dense_users (Dense_reachable history)) as Hd.
  unfold getUserByUsername, createUser. cbn [fst snd users].
  rewrite (values_set_fresh _ Hd), find_snoc. reflexivity.
Qed.

(** ** The enrollment join *)

Lemma includes_spec (l : list Z) (x : Z) : includes l x = true <-> In x l.
Proof.
  unfold includes. rewrite existsb_exists. split.
  - intros (y & Hy & Heq). apply Z.eqb_eq in Heq. now subst.
  - intros H. exists x. split; [exact H|apply Z.eqb_refl].
Qed.

Lemma enrolled_subject_ids (userId subjectId : Z) (this : t) :
  includes (map Enrollment.subjectId (getEnrollmentsByUserId userId this)) subjectId
  = isUserEnrolledInSubject userId subjectId this.
Proof.
  unfold includes, getEnrollmentsByUserId, isUserEnrolledInSubject.
  induction (JSMap.values (enrollments this)) as [|e l IH]; [reflexivity|].
  cbn [filter existsb map].
  destruct (Z.eqb_spec (Enrollment.userId e) userId); cbn [map existsb andb].
  - rewrite IH. now rewrite (Z.eqb_sym subjectId).
  - exact IH.
Qed.

(** X4.  [getEnrolledSubjectsByUserId] is the join it is meant to be, on every
    store: a subject is listed exactly when it is stored and the user is
    enrolled in its id. *)
Theorem getEnrolledSubjectsByUserId_join (userId : Z) (subject : Subject.t) (this : t) :
  In subject (getEnrolledSubjectsByUserId userId this)
  <-> In subject (getAllSubjects this)
      /\ isUserEnrolledInSubject userId (Subject.id subject) this = true.
Proof.
  unfold getEnrolledSubjectsByUserId, getAllSubjects.
  rewrite filter_In, enrolled_subject_ids. reflexivity.
Qed.

Lemma sorted_upto (next : Z) : StronglySorted Z.lt (upto next).
Proof.
  unfold upto. generalize (Z.to_nat (next - 1)) as n. generalize 1%nat as a.
  intros a n. revert a. induction n as [|n IH]; intros a; cbn [seq map].
  - constructor.
  - constructor; [apply IH|].
    apply Forall_forall. intros k Hk. apply in_map_iff in Hk.
    destruct Hk as (j & <- & Hj). apply in_seq in Hj. lia.
Qed.

Lemma sorted_filter {A : Type} (g : A -> Z) (f : A -> bool) (l : list A) :
  StronglySorted Z.lt (map g l) -> StronglySorted Z.lt (map g (filter f l)).
Proof.
  induction l as [|x l IH]; cbn [map filter]; intros H; [constructor|].
  inversion H as [|y ys Hs Hall]; subst.
  destruct (f x); cbn [map]; [|now apply IH].
  constructor; [now apply IH|].
  rewrite Forall_forall in *. intros k Hk. apply Hall.
  apply in_map_iff in Hk. destruct Hk as (z & <- & Hz).
  apply filter_In in Hz. apply in_map. tauto.
Qed.

Lemma keyed_ids {V : Type} (id : V -> Z) (m : JSMap.t V) :
  Forall (fun kv => id (snd kv) = fst kv) m ->
  map id (JSMap.values m) = JSMap.keys m.
Proof.
  unfold JSMap.values, JSMap.keys. induction 1 as [|kv m H _ IH]; cbn [map].
  - reflexivity.
  - now rewrite H, IH.
Qed.

(** X5.  After the constructor and any calls, the subjects a user is enrolled
    in are listed in creation order and each one once, however many
    Enrollment records the user has for it. *)
Theorem getEnrolledSubjectsByUserId_sorted (cs : list Call) (userId : Z) :
  let this := fst (run (seedCalls ++ cs) blank) in
  StronglySorted Z.lt (map Subject.id (getEnrolledSubjectsByUserId userId this)).
Proof.
  cbv zeta. generalize (seedCalls ++ cs). intros history.
  destruct (dense_subjects (Dense_reachable history)) as (_ & Hkeys & Hids).
  unfold getEnrolledSubjectsByUserId. apply sorted_filter.
  rewrite (keyed_ids _ Hids), Hkeys. apply sorted_upto.
Qed.

(** X6.  The badge of the dashboard, computed from the list that
    [getEnrolledSubjectsByUserId] returns, agrees with the server's own
    membership test for every id of a stored subject, and is off for ids no
    subject has. *)
Theorem isSubjectEnrolled_agrees (cs : list Call) (userId subjectId : Z) :
  let this := fst (run (seedCalls ++ cs) blank) in
  Dashboard.isSubjectEnrolled (getEnrolledSubjectsByUserId userId this) subjectId
  = match getSubject subjectId this with
    | Some _ => isUserEnrolledInSubject userId subjectId this
    | None => false
    end.
Proof.
  cbv zeta. generalize (seedCalls ++ cs). intros history.
  destruct (dense_subjects (Dense_reachable history)) as (_ & _ & Hids).
  set (this := fst (run history blank)) in *.
  unfold Dashboard.isSubjectEnrolled, getSubject.
  destruct (existsb _ _) eqn:E.
  - apply existsb_exists in E. destruct E as (s & Hin & Hid).
    apply Z.eqb_eq in Hid. unfold getEnrolledSubjectsByUserId in Hin.
    rewrite filter_In, enrolled_subject_ids in Hin. destruct Hin as [Hin Hen]. rewrite Hid in Hen.
    destruct (JSMap.get subjectId (subjects this)) eqn:G; [now rewrite Hen|].
    exfalso. assert (Hk : In subjectId (JSMap.keys (subjects this))).
    { rewrite <- (keyed_ids _ Hids), <- Hid. now apply in_map. }
    apply get_in_keys in Hk. contradiction.
  - destruct (JSMap.get subjectId (subjects this)) as [s|] eqn:G; [|reflexivity].
    destruct (isUserEnrolledInSubject userId subjectId this) eqn:Hen; [|reflexivity].
    exfalso. assert (Hs : In s (getAllSubjects this) /\ Subject.id s = subjectId).
    { split; [|exact (@get_keyed _ Subject.id _ _ _ Hids G)].
      unfold getAllSubjects, JSMap.values. clear - G.
      induction (subjects this) as [|[k v] m IH]; simpl in *; [discriminate|].
      destruct (k =? subjectId); [injection G as ->; now left|right; auto]. }
    destruct Hs as [Hin Hid].
    assert (Hx : existsb (fun subject => Subject.id subject =? subjectId)
                         (getEnrolledSubjectsByUserId userId this) = true).
    { apply existsb_exists. exists s. split; [|now apply Z.eqb_eq].
      unfold getEnrolledSubjectsByUserId. rewrite filter_In, enrolled_subject_ids.
      split; [exact Hin|now rewrite Hid]. }
    congruence.
Qed.

(** ** Nothing is refused, nothing is lost *)

(** X7.  After the constructor and any calls, [enrollUserInSubject] adds one
    more Enrollment record for its pair, also when the user is already
    enrolled in the subject: the store does not prevent duplicates. *)
Theorem enrollUserInSubject_adds_a_record (cs : list Call) (x : InsertEnrollment.t) :
  let this := fst (run (seedCalls ++ cs) blank) in
  let this' := fst (enrollUserInSubject x this) in
  enrollmentsOf (InsertEnrollment.userId x) (InsertEnrollment.subjectId x) this'
  = enrollmentsOf (InsertEnrollment.userId x) (InsertEnrollment.subjectId x) this
    ++ [snd (enrollUserInSubject x this)].
Proof.
  cbv zeta. generalize (seedCalls ++ cs). intros history.
  pose proof (dense_enrollments (Dense_reachable history)) as Hd.
  unfold enrollmentsOf, enrollUserInSubject. cbn [fst snd enrollments].
  rewrite (values_set_fresh _ Hd), filter_app. cbn [filter Enrollment.userId
                                                    Enrollment.subjectId].
  now rewrite !Z.eqb_refl.
Qed.

Lemma values_grow (cs : list Call) (this : t) :
  Dense this ->
  (exists newer, JSMap.values (users (fst (run cs this)))
                 = JSMap.values (users this) ++ newer)
  /\ (exists newer, JSMap.values (subjects (fst (run cs this)))
                    = JSMap.values (subjects this) ++ newer)
  /\ (exists newer, JSMap.values (enrollments (fst (run cs this)))
                    = JSMap.values (enrollments this) ++ newer)
  /\ (exists newer, JSMap.values (trackingResults (fst (run cs this)))
                    = JSMap.values (trackingResults this) ++ newer).
Proof.
  revert this. induction cs as [|c cs IH]; intros this Hd.
  - cbn [run fst]. repeat split; exists []; now rewrite app_nil_r.
  - rewrite run_cons. cbn [fst].
    destruct (IH _ (Dense_call c Hd)) as ((nu & Hu) & (ns & Hs) & (ne & He) & (nr & Hr)).
    rewrite Hu, Hs, He, Hr. destruct Hd as [Du Ds De Dr].
    destruct c; cbn [call createUser createSubject enrollUserInSubject
                      saveTrackingResult fst users subjects enrollments
                      trackingResults];
      rewrite ?(values_set_fresh _ Du), ?(values_set_fresh _ Ds),
        ?(values_set_fresh _ De), ?(values_set_fresh _ Dr), <- ?app_assoc;
      repeat split; eexists; reflexivity.
Qed.

(** X8.  Records are never removed or changed: whatever calls follow, the
    results of a pair, the enrollments of a user and the list of subjects
    each keep what they held, in the same order, and only grow at the end;
    and an enrolled user stays enrolled. *)
Theorem stored_records_are_kept (cs later : list Call) (userId subjectId : Z) :
  let this := fst (run (seedCalls ++ cs) blank) in
  let this' := fst (run later this) in
  (exists newer, getTrackingResultByUserAndSubject userId subjectId this'
                 = getTrackingResultByUserAndSubject userId subjectId this ++ newer)
  /\ (exists newer, getEnrollmentsByUserId userId this'
                    = getEnrollmentsByUserId userId this ++ newer)
  /\ (exists newer, getAllSubjects this' = getAllSubjects this ++ newer)
  /\ implb (isUserEnrolledInSubject userId subjectId this)
           (isUserEnrolledInSubject userId subjectId this') = true.
Proof.
  cbv zeta. generalize (seedCalls ++ cs). intros history.
  destruct (values_grow later (Dense_reachable history))
    as (_ & (ns & Hs) & (ne & He) & (nr & Hr)).
  unfold getTrackingResultByUserAndSubject, getEnrollmentsByUserId,
    getAllSubjects, isUserEnrolledInSubject.
  rewrite Hs, He, Hr, !filter_app, existsb_app.
  split; [eexists; reflexivity|]. split; [eexists; reflexivity|].
  split; [eexists; reflexivity|].
  destruct (existsb _ (JSMap.values (enrollments (fst (run history blank)))));
    reflexivity.
Qed.

(** ** Tracking queries *)

(** X9.  On every store, the results of a user in a subject are the user's
    results filtered by subject, in the same order. *)
Theorem getTrackingResultByUserAndSubject_refines (userId subjectId : Z) (this : t) :
  getTrackingResultByUserAndSubject userId subjectId this
  = filter (fun result => TrackingResult.subjectId result =? subjectId)
           (getTrackingResultsByUserId userId this).
Proof.
  unfold getTrackingResultByUserAndSubject, getTrackingResultsByUserId.
  induction (JSMap.values (trackingResults this)) as [|r l IH]; [reflexivity|].
  cbn [filter].
  destruct (TrackingResult.userId r =? userId); cbn [andb filter];
    [destruct (TrackingResult.subjectId r =? subjectId)|]; now rewrite IH.
Qed.


End StoreFacts.

(* ===================================================================== *)
(** * Further properties of the session *)
(* ===================================================================== *)

Module PageFacts.
Import Session Observe SessionFacts.
Local Open Scope page_scope.

(** ** What a commit may add to the log *)

Lemma commit_player (env : Env.t) :
  exists evs,
    Env.events (committed env) = Env.events env ++ evs
    /\ forallb isPlayerEvent evs = true.
Proof.
  unfold committed.
  destruct env as [[it m er fl] [uw ip ms vr vs ed sw] live evs].
  unfold React.commit, bind, getHook, getPlayer.
  cbn [Env.hook Env.player Env.liveTracks Env.events Hook.isTracking
       Player.effectDep Player.usingWebcam Player.mediaStreamRef].
  destruct it, ed; cbn [Bool.eqb].
  - exists []. cbn. now rewrite app_nil_r.
  - destruct uw; cbn.
    + exists []. now rewrite app_nil_r.
    + exists [EnumerateDevices]. split; reflexivity.
  - unfold VideoPlayer.setEffectDep, modifyPlayer, VideoPlayer.webcamEffect,
      bind, getHook, getPlayer.
    cbn [Env.hook Env.player Env.liveTracks Env.events Hook.isTracking
         Player.effectDep Player.usingWebcam Player.mediaStreamRef
         Player.isPlaying Player.videoRef Player.videoSrc Player.startingWebcam
         negb andb].
    destruct uw.
    + unfold VideoPlayer.stopWebcam, bind, getPlayer.
      cbn [Env.hook Env.player Env.liveTracks Env.events
           Player.effectDep Player.usingWebcam Player.mediaStreamRef
           Player.isPlaying Player.videoRef Player.videoSrc
           Player.startingWebcam].
      assert (Hstops : forall stream : MediaStream,
                 forallb isPlayerEvent (map TrackStop stream) = true).
      { intros stream. apply forallb_forall. intros e He.
        apply in_map_iff in He. destruct He as (t & <- & _). reflexivity. }
      destruct ms as [stream|].
      * rewrite forEach_stopTrack.
        destruct vr as [v|]; destruct ip; cbn;
          (eexists; split; [rewrite <- !app_assoc; reflexivity|];
           rewrite forallb_app, Hstops; reflexivity).
      * destruct vr as [v|]; destruct ip; cbn;
          (eexists; split; [rewrite <- ?app_assoc; reflexivity|reflexivity]).
    + cbn. exists []. now rewrite app_nil_r.
  - exists []. cbn. now rewrite app_nil_r.
Qed.

Lemma player_event_spec (evs : list Event) :
  forallb isPlayerEvent evs = true ->
  filter isRequest evs = []
  /\ existsb isDispatch evs = false
  /\ filter isSave evs = []
  /\ existsb isErrorToast evs = false
  /\ existsb isSavedToast evs = false.
Proof.
  induction evs as [|e evs IH]; cbn [forallb filter existsb]; [auto 6|].
  intros H. apply andb_prop in H. destruct H as [He Hevs].
  destruct (IH Hevs) as (H1 & H2 & H3 & H4 & H5). rewrite H1, H2, H3, H4, H5.
  destruct e; try discriminate He; cbn; auto 6.
  cbn in He. apply andb_prop in He. destruct He as [Hd He].
  apply String.eqb_eq in Hd. subst description.
  destruct destructive; [discriminate|auto 6].
Qed.

Lemma existsb_filter_nil {A : Type} (f : A -> bool) (l : list A) :
  existsb f l = false <-> filter f l = [].
Proof.
  induction l as [|x l IH]; cbn [existsb filter]; [tauto|].
  destruct (f x); cbn [orb]; [split; discriminate|exact IH].
Qed.

(** Replaces the innermost committed page by a page of which only the
    hook's state and the kind of the added events are known. *)
Ltac commit_open :=
  match goal with
  | |- context [committed ?X] =>
      lazymatch X with
      | context [committed _] => fail
      | _ =>
          let Hh := fresh "Hhook" in
          let evs := fresh "evs" in
          let Hev := fresh "Hevents" in
          let Hp := fresh "Hplayer" in
          pose proof (committed_hook X) as Hh;
          destruct (commit_player X) as (evs & Hev & Hp);
          let e := fresh "env" in
          remember (committed X) as e eqn:Heqe in *; clear Heqe;
          destruct e as [? ? ? ?];
          cbn [Env.hook Env.player Env.liveTracks Env.events] in Hh, Hev;
          subst
      end
  end.

Ltac player_facts :=
  repeat match goal with
         | H : forallb isPlayerEvent ?evs = true |- _ =>
             destruct (player_event_spec evs H) as (? & ? & ? & ? & ?); clear H
         end.

(** Runs a page computation, keeping of each commit only what the hook
    can observe. *)
Ltac page_open :=
  unfold Classroom.added; repeat page_step; repeat commit_open;
  page_unfold; rewrite <- ?app_assoc; cbn [app]; rewrite ?skipn_exact;
  player_facts.

(** Closes goals about the filtered or searched log. *)
Ltac log_facts :=
  repeat first [ rewrite filter_app
               | rewrite existsb_app
               | match goal with
                 | H : filter ?f ?evs = [] |- context [filter ?f ?evs] => rewrite H
                 | H : existsb ?f ?evs = false |- context [existsb ?f ?evs] =>
                     rewrite H
                 end
               | progress cbn [filter existsb app orb] ];
  cbn; rewrite ?andb_false_r; try reflexivity.

(** ** The gateway calls *)

(** X11.  [getTrackingResults] makes one GET request and settles as [fetchError]
    says: it rejects with the request's rejection, with an [Error] carrying
    the status text when the reply is not [ok], or with the rejection of
    [response.json()]; otherwise it resolves to the parsed body. *)
Theorem getTrackingResults_settles (fetch : JS.Outcome Api.Response) (env : Env.t) :
  Classroom.result (Api.getTrackingResults fetch) env
  = match fetchError fetch with
    | Some err => JS.Rejected err
    | None => match fetch with
              | JS.Resolved response => Api.json response
              | JS.Rejected err => JS.Rejected err
              end
    end
  /\ filter isRequest (Classroom.added (Api.getTrackingResults fetch) env)
     = [Request "GET" "/api/flask/get_tracking_results" NoBody].
Proof.
  destruct env as [h p live evs0].
  destruct fetch as [[[] st [v|e]]|e]; page_open;
    (split; [reflexivity|log_facts]).
Qed.

(** X12.  The hook's [checkFlaskServer] never rejects: it resolves to whether the
    reply arrived and is [ok], records that in [flaskServerAvailable], and
    leaves [isTracking], [metrics] and [error] alone. *)
Theorem checkFlaskServer_swallows (health : JS.Outcome Api.Response) (env : Env.t) :
  let m := useAttentionTracking.checkFlaskServer health in
  Classroom.result m env = JS.Resolved (replyOk health)
  /\ Hook.flaskServerAvailable (Env.hook (Classroom.after m env)) = replyOk health
  /\ isTracking (Classroom.after m env) = isTracking env
  /\ metrics (Classroom.after m env) = metrics env
  /\ error (Classroom.after m env) = error env
  /\ filter isRequest (Classroom.added m env)
     = [Request "GET" "/api/flask/health" NoBody].
Proof.
  cbv zeta. destruct env as [[it mt er fl] p live evs0].
  destruct health as [[ok st js]|e]; page_open;
    repeat (split; [reflexivity|]); log_facts.
Qed.

(** Runs a page computation on a page whose deciding flags are known,
    commits included. *)
Ltac page_compute :=
  unfold Classroom.added; repeat page_step;
  cbv -[app skipn List.length String.append];
  rewrite <- ?app_assoc; cbn [app]; rewrite ?skipn_exact.

(** ** Starting a session *)

(** X13.  On a page at rest that is not tracking, when the health check and the
    reset both succeed the session becomes Active: [toggleTracking]
    resolves to [true], error and metrics are cleared, and what is done is,
    in this order, the health request, one reset request, the "Tracking
    Started" toast, and the webcam effect asking for the devices. *)
Theorem start_when_available (userId subjectId : Z) (env : Env.t)
        (health reset : JS.Outcome Api.Response) :
  isTracking env = false ->
  settled env ->
  Player.usingWebcam (Env.player env) = false ->
  replyOk health = true ->
  replyOk reset = true ->
  let m := Classroom.clickToggle userId subjectId health reset in
  Classroom.result m env = JS.Resolved true
  /\ isTracking (Classroom.after m env) = true
  /\ error (Classroom.after m env) = None
  /\ metrics (Classroom.after m env) = None
  /\ Hook.flaskServerAvailable (Env.hook (Classroom.after m env)) = true
  /\ Classroom.added m env
     = [Request "GET" "/api/flask/health" NoBody;
        Request "POST" "/api/flask/reset_tracking" NoBody;
        Toast "Tracking Started" "Your attention metrics are now being monitored" false;
        EnumerateDevices]
  /\ Player.startingWebcam (Env.player (Classroom.after m env)) = true
  /\ Env.liveTracks (Classroom.after m env) = Env.liveTracks env.
Proof.
  intros Hidle Hset Hw Hh Hr m. subst m. unfold settled in Hset.
  destruct env as [[it mt er fl] [uw ip ms vr vs ed sw] live evs0].
  cbn in Hidle, Hset, Hw. subst it ed uw.
  destruct health as [[[] st js]|e]; try discriminate Hh.
  destruct reset as [[[] st' js']|e]; try discriminate Hr.
  page_compute. repeat split.
Qed.

Lemma start_when_available_witness :
  isTracking (Classroom.mounted "lecture.mp4") = false
  /\ settled (Classroom.mounted "lecture.mp4")
  /\ Classroom.result (clickToggle ok ok) (Classroom.mounted "lecture.mp4")
     = JS.Resolved true
  /\ isTracking (Classroom.after (clickToggle ok ok) (Classroom.mounted "lecture.mp4"))
     = true.
Proof.
  split; [reflexivity|]. split; [reflexivity|].
  destruct (@start_when_available 1 1 (Classroom.mounted "lecture.mp4") ok ok)
    as (H1 & H2 & _); [reflexivity|reflexivity|reflexivity|reflexivity|reflexivity|].
  split; [exact H1|exact H2].
Defined.

(** X14.  On a page that is not tracking, when the health check succeeds and
    the reset fails, the session stays Idle: the reset was requested, the
    camera is not asked for, no track starts capturing, the hook's error
    is the failure's message and a destructive toast shows it; the server
    is still recorded as available. *)
Theorem start_when_reset_fails (userId subjectId : Z) (env : Env.t)
        (health reset : JS.Outcome Api.Response) (err : JS.Thrown) :
  isTracking env = false ->
  replyOk health = true ->
  resetError reset = Some err ->
  let m := Classroom.clickToggle userId subjectId health reset in
  let message := JS.messageOr err "Failed to start tracking" in
  Classroom.result m env = JS.Resolved false
  /\ isTracking (Classroom.after m env) = false
  /\ error (Classroom.after m env) = Some message
  /\ Hook.flaskServerAvailable (Env.hook (Classroom.after m env)) = true
  /\ In (Request "POST" "/api/flask/reset_tracking" NoBody) (Classroom.added m env)
  /\ existsb opensCamera (Classroom.added m env) = false
  /\ incl (Env.liveTracks (Classroom.after m env)) (Env.liveTracks env)
  /\ In (Toast "Tracking Error" message true) (Classroom.added m env).
Proof.
  intros Hidle Hh Hr m message. subst m message.
  destruct env as [[it mt er fl] p live evs0]. cbn in Hidle. subst it.
  destruct health as [[[] st js]|e]; try discriminate Hh.
  destruct reset as [[[] st' js']|e]; cbn in Hr; try discriminate Hr;
    injection Hr as <-;
    page_run; idle_facts;
    (split; [reflexivity|]); (split; [reflexivity|]); (split; [reflexivity|]);
    (split; [reflexivity|]); (split; [find_event|]); (split; [no_event|]);
    (split; [eauto using incl_tran|find_event]).
Qed.

Lemma start_when_reset_fails_witness :
  isTracking (Classroom.mounted "lecture.mp4") = false
  /\ replyOk ok = true
  /\ resetError (JS.Rejected (JS.Error "TypeError" "Failed to fetch"))
     = Some (JS.Error "TypeError" "Failed to fetch")
  /\ error (Classroom.after
              (clickToggle ok (JS.Rejected (JS.Error "TypeError" "Failed to fetch")))
              (Classroom.mounted "lecture.mp4"))
     = Some "Failed to fetch".
Proof.
  split; [reflexivity|]. split; [reflexivity|]. split; [reflexivity|].
  destruct (@start_when_reset_fails 1 1 (Classroom.mounted "lecture.mp4") ok
              (JS.Rejected (JS.Error "TypeError" "Failed to fetch"))
              (JS.Error "TypeError" "Failed to fetch"))
    as (_ & _ & H3 & _); [reflexivity|reflexivity|reflexivity|].
  exact H3.
Defined.

(** ** Frames *)

(** X17.  Whatever a frame request does, and whether or not it is sent,
    [processVideoFrame] leaves [isTracking], [error] and
    [flaskServerAvailable] as they were, shows no error toast, and makes
    no reset and no save request: a frame cannot end or fail a session. *)
Theorem processVideoFrame_never_ends_session
        (NODE_ENV frameData : string) (frame : JS.Outcome Api.Response) (env : Env.t) :
  let m := Classroom.videoFrame NODE_ENV frameData frame in
  isTracking (Classroom.after m env) = isTracking env
  /\ error (Classroom.after m env) = error env
  /\ Hook.flaskServerAvailable (Env.hook (Classroom.after m env))
     = Hook.flaskServerAvailable (Env.hook env)
  /\ existsb isErrorToast (Classroom.added m env) = false
  /\ existsb isSave (Classroom.added m env) = false
  /\ existsb isReset (Classroom.added m env) = false.
Proof.
  cbv zeta. destruct env as [[it mt er fl] p live evs0].
  assert (Hreq : forall evs, filter isRequest evs = [] ->
                   existsb isSave evs = false /\ existsb isReset evs = false).
  { induction evs as [|e evs IH]; cbn [filter existsb]; [auto|].
    destruct e; cbn; auto; discriminate. }
  destruct it; [destruct (String.eqb frameData "") eqn:Edata|];
    [| destruct (String.eqb NODE_ENV "development") eqn:Eenv;
       destruct frame as [[[] st [[| | | | | |]|e]]|e] |];
    page_unfold; rewrite ?Edata; page_open; rewrite ?Eenv; page_open;
    repeat match goal with
           | H : filter isRequest ?evs = [] |- _ =>
               destruct (Hreq evs H) as [? ?]; clear H
           end;
    repeat (split; [first [reflexivity|log_facts]|]); log_facts.
Qed.

(** X18.  When the frame request fails in any way (rejected, reply not [ok],
    body not JSON, or a [null] body), or when the session is not tracking
    or the frame is empty, the hook's whole state is left as it was: the
    last metrics stay on display. *)
Theorem failed_frame_keeps_metrics
        (NODE_ENV frameData : string) (frame : JS.Outcome Api.Response) (env : Env.t) :
  frameFails frame = true \/ isTracking env = false \/ frameData = "" ->
  Env.hook (Classroom.after (Classroom.videoFrame NODE_ENV frameData frame) env)
  = Env.hook env.
Proof.
  destruct env as [[it mt er fl] p live evs0]. cbn [isTracking Env.hook Hook.isTracking].
  intros H.
  destruct it; [destruct (String.eqb_spec frameData "") as [->|Hne]|].
  - page_unfold. cbn [String.eqb]. repeat page_step. now rewrite committed_hook.
  - destruct H as [H|[H|H]]; [|discriminate|contradiction].
    apply nonempty_eqb in Hne.
    destruct frame as [[[] st [[| | | | | |]|e]]|e]; cbn in H; try discriminate H;
      page_unfold; rewrite Hne; repeat page_step; now rewrite !committed_hook.
  - page_unfold. repeat page_step. now rewrite committed_hook.
Qed.

Lemma failed_frame_keeps_metrics_witness :
  frameFails (JS.Rejected (JS.Error "TypeError" "Failed to fetch")) = true
  /\ Env.hook
       (Classroom.after
          (Classroom.videoFrame "production" "data:image/jpeg;base64,AAAA"
             (JS.Rejected (JS.Error "TypeError" "Failed to fetch")))
          playing)
     = Env.hook playing.
Proof.
  split; [reflexivity|].
  apply (@failed_frame_keeps_metrics "production" "data:image/jpeg;base64,AAAA"
           (JS.Rejected (JS.Error "TypeError" "Failed to fetch")) playing).
  left. reflexivity.
Defined.

(** ** The cleanup effect *)

(** [stopTracking] of the current render is the closure for the current
    state. *)
Lemma stopTracking_is_closure (userId subjectId : Z)
      (fetch save : JS.Outcome Api.Response) (env : Env.t) :
  useAttentionTracking.stopTracking userId subjectId fetch save env
  = Cleanup.stopTrackingOf userId subjectId (isTracking env) fetch save env.
Proof.
  destruct env as [[[] mt er fl] p live evs0]; reflexivity.
Qed.

(** X19.  The hook's cleanup, registered by a render in which the session was
    tracking, runs the whole stop sequence even when the session has
    already been stopped: its guard reads the [isTracking] of that render.
    On a page that is no longer tracking, where [stopTracking] itself
    would do nothing, it fetches the aggregate again, makes a save request
    with it and schedules [tracking-completed]. *)
Theorem cleanup_repeats_stop (userId subjectId : Z) (env : Env.t)
        (statusText : string) (aggregate : JS.Value) (saved : Api.Response)
        (serverCheckTimeoutRef : bool) :
  isTracking env = false ->
  let fetch := JS.Resolved (Api.mkResponse true statusText (JS.Resolved aggregate)) in
  let m := Cleanup.cleanup userId subjectId true serverCheckTimeoutRef
             fetch (JS.Resolved saved) in
  Classroom.after
    (useAttentionTracking.stopTracking userId subjectId fetch (JS.Resolved saved)) env
  = env
  /\ Classroom.result m env = JS.Resolved serverCheckTimeoutRef
  /\ filter isRequest (Classroom.added m env)
     = [Request "GET" "/api/flask/get_tracking_results" NoBody;
        Request "POST" "/api/tracking/save" (SaveBody userId subjectId aggregate)]
  /\ filter isDispatch (Classroom.added m env)
     = [DispatchLater "tracking-completed" userId subjectId 500].
Proof.
  intros Hidle fetch m. subst fetch m.
  destruct env as [[it mt er fl] p live evs0]. cbn in Hidle. subst it.
  split; [reflexivity|].
  unfold Cleanup.cleanup, Cleanup.stopTrackingOf. cbn [negb].
  page_open.
  split; [reflexivity|]. split; [log_facts|].
  repeat match goal with
         | H : existsb isDispatch ?evs = false |- _ =>
             apply (proj1 (existsb_filter_nil isDispatch evs)) in H
         end.
  log_facts.
Qed.

Lemma cleanup_repeats_stop_witness :
  isTracking (Classroom.after (clickToggle ok ok) playing) = false
  /\ filter isDispatch
       (Classroom.added
          (Cleanup.cleanup 1 1 true true
             (JS.Resolved (Api.mkResponse true "OK" (JS.Resolved (JS.Object []))))
             (JS.Resolved (Api.mkResponse true "OK" (JS.Resolved JS.Null))))
          (Classroom.after (clickToggle ok ok) playing))
     = [DispatchLater "tracking-completed" 1 1 500].
Proof.
  assert (Hidle : isTracking (Classroom.after (clickToggle ok ok) playing) = false)
    by (vm_compute; reflexivity).
  split; [exact Hidle|].
  destruct (@cleanup_repeats_stop 1 1 (Classroom.after (clickToggle ok ok) playing)
              "OK" (JS.Object []) (Api.mkResponse true "OK" (JS.Resolved JS.Null))
              true Hidle)
    as (_ & _ & _ & H).
  exact H.
Defined.

(** ** The track button after a failed start *)

Lemma poll_keeps (health : JS.Outcome Api.Response) (env : Env.t) :
  exists r,
    Wiring.poll health env = (JS.Resolved r, Classroom.after (Wiring.poll health) env)
    /\ error (Classroom.after (Wiring.poll health) env) = error env
    /\ isTracking (Classroom.after (Wiring.poll health) env) = isTracking env.
Proof.
  destruct env as [[it mt er fl] p live evs0].
  destruct health as [[ok st js]|e];
    unfold Wiring.poll; repeat page_step; eexists;
    rewrite ?committed_hook; cbn; rewrite ?committed_hook; repeat split.
Qed.

Lemma polls_keep (healths : list (JS.Outcome Api.Response)) (env : Env.t) :
  error (Classroom.after (Wiring.polls healths) env) = error env
  /\ isTracking (Classroom.after (Wiring.polls healths) env) = isTracking env.
Proof.
  revert env. induction healths as [|health rest IH]; intros env; [auto|].
  destruct (poll_keeps health env) as (r & Hrun & He & Ht).
  unfold Classroom.after in *. cbn [Wiring.polls]. unfold bind.
  rewrite Hrun. cbv beta iota.
  destruct (IH (snd (Wiring.poll health env))) as [IHe IHt].
  rewrite IHe, IHt. auto.
Qed.

(** X20.  After a start that failed because the health check reported
    unavailable, the "Track My Attention" button of the panel is disabled
    and stays disabled through any number of later health polls, also
    polls that find the service available: the polls do not clear the
    hook's error, and the panel disables the button while an error is
    set. *)
Theorem failed_start_disables_track_button
        (userId subjectId : Z) (env : Env.t) (health reset : JS.Outcome Api.Response)
        (healths : list (JS.Outcome Api.Response)) :
  isTracking env = false ->
  unavailable health = true ->
  TrackingPanel.disabledOn
    (Classroom.after (Wiring.polls healths)
       (Classroom.after (Classroom.clickToggle userId subjectId health reset) env))
  = true.
Proof.
  intros Hidle Hdown.
  assert (Herr : error (Classroom.after
                          (Classroom.clickToggle userId subjectId health reset) env)
                 = Some serverUnavailable).
  { destruct env as [[it mt er fl] p live evs0]. cbn in Hidle. subst it.
    destruct health as [[[] st js]|e]; cbn in Hdown; try discriminate;
      repeat page_step; now rewrite ?committed_hook. }
  destruct (polls_keep healths
              (Classroom.after (Classroom.clickToggle userId subjectId health reset) env))
    as [He _].
  unfold TrackingPanel.disabledOn, TrackingPanel.webcamStatus.
  unfold error in He, Herr. rewrite He, Herr. cbn.
  apply orb_true_r.
Qed.

Lemma failed_start_disables_track_button_witness :
  isTracking (Classroom.mounted "lecture.mp4") = false
  /\ unavailable (JS.Rejected (JS.Error "TypeError" "Failed to fetch")) = true
  /\ TrackingPanel.disabledOn
       (Classroom.after (Wiring.polls [ok; ok])
          (Classroom.after
             (Classroom.clickToggle 1 1
                (JS.Rejected (JS.Error "TypeError" "Failed to fetch")) ok)
             (Classroom.mounted "lecture.mp4")))
     = true.
Proof.
  split; [reflexivity|]. split; [reflexivity|].
  apply (@failed_start_disables_track_button 1 1 (Classroom.mounted "lecture.mp4")
           (JS.Rejected (JS.Error "TypeError" "Failed to fetch")) ok [ok; ok]);
    reflexivity.
Defined.

(** ** The webcam *)

Ltac player_unfold :=
  unfold Classroom.added, Classroom.after, Classroom.result,
    VideoPlayer.startWebcam, VideoPlayer.stopWebcam, VideoPlayer.unmount,
    VideoPlayer.setStartingWebcam, VideoPlayer.setMediaStreamRef,
    VideoPlayer.setVideo, VideoPlayer.setUsingWebcam, VideoPlayer.setIsPlaying,
    Capture.tick;
  page_unfold;
  cbn [Player.usingWebcam Player.isPlaying Player.mediaStreamRef Player.videoRef
       Player.videoSrc Player.effectDep Player.startingWebcam].

Ltac player_compute :=
  unfold Classroom.added;
  cbv -[app skipn List.length String.append existsb filter forEach
        VideoPlayer.stopTrack stopAll VideoPlayer.cameraErrorMessage
        VideoPlayer.isVideoInput Z.eqb].

(** X21.  When [startWebcam] fails, whether the devices cannot be listed, none
    of them is a camera, or the stream is refused or times out, no track
    starts capturing and the player's stream and webcam flag are as they
    were; the user sees one destructive "Camera Access Failed" toast with
    the message for the error, and [onToggleTracking] is called once.  The
    camera is asked for only when a video input device was listed. *)
Theorem startWebcam_failure (devices : JS.Outcome (list VideoPlayer.DeviceKind))
        (stream : JS.Outcome MediaStream) (err : JS.Thrown) (env : Env.t) :
  webcamError devices stream = Some err ->
  let m := VideoPlayer.startWebcam devices stream in
  Classroom.added m env
  = (if hasVideoInput devices then [GetUserMedia] else [])
    ++ [ConsoleError "Error accessing webcam:";
        Toast "Camera Access Failed" (VideoPlayer.cameraErrorMessage err) true;
        OnToggleTracking]
  /\ Env.liveTracks (Classroom.after m env) = Env.liveTracks env
  /\ Player.mediaStreamRef (Env.player (Classroom.after m env))
     = Player.mediaStreamRef (Env.player env)
  /\ Player.usingWebcam (Env.player (Classroom.after m env))
     = Player.usingWebcam (Env.player env)
  /\ Env.hook (Classroom.after m env) = Env.hook env.
Proof.
  intros Herr m. subst m.
  destruct env as [h [uw ip ms vr vs ed sw] live evs0].
  destruct devices as [ds|e]; cbn [webcamError hasVideoInput] in *.
  - destruct (existsb VideoPlayer.isVideoInput ds) eqn:E; cbn [negb] in Herr.
    + destruct stream as [s|e]; [discriminate|]. injection Herr as <-.
      player_unfold. rewrite E. player_unfold.
      rewrite <- ?app_assoc; cbn [app]; rewrite skipn_exact. repeat split.
    + injection Herr as <-.
      player_unfold. rewrite E. player_unfold.
      rewrite <- ?app_assoc; cbn [app]; rewrite skipn_exact. repeat split.
  - injection Herr as <-.
    player_unfold.
    rewrite <- ?app_assoc; cbn [app]; rewrite skipn_exact. repeat split.
Qed.

Lemma startWebcam_failure_witness :
  webcamError (JS.Resolved [VideoPlayer.audioinput])
              (JS.Resolved [7]) = Some (JS.Error "Error" "No video input devices found")
  /\ Classroom.added
       (VideoPlayer.startWebcam (JS.Resolved [VideoPlayer.audioinput]) (JS.Resolved [7]))
       (Classroom.after (clickToggle ok ok) (Classroom.mounted "lecture.mp4"))
     = [ConsoleError "Error accessing webcam:";
        Toast "Camera Access Failed" "No video input devices found" true;
        OnToggleTracking].
Proof.
  split; [reflexivity|].
  destruct (@startWebcam_failure (JS.Resolved [VideoPlayer.audioinput])
              (JS.Resolved [7]) (JS.Error "Error" "No video input devices found")
              (Classroom.after (clickToggle ok ok) (Classroom.mounted "lecture.mp4"))
              eq_refl)
    as (H & _).
  exact H.
Defined.

Lemma stopWebcam_without_stream (env : Env.t) :
  Player.mediaStreamRef (Env.player env) = None ->
  existsb isTrackStop (Classroom.added VideoPlayer.stopWebcam env) = false.
Proof.
  destruct env as [h [uw ip ms vr vs ed sw] live evs0].
  cbn [Env.player Player.mediaStreamRef]. intros ->.
  destruct vr as [v|]; destruct ip;
    player_compute; rewrite <- ?app_assoc; cbn [app]; rewrite ?skipn_exact;
    reflexivity.
Qed.

Lemma stopWebcam_state (env : Env.t) :
  let env' := Classroom.after VideoPlayer.stopWebcam env in
  Player.usingWebcam (Env.player env') = false
  /\ Player.mediaStreamRef (Env.player env') = None
  /\ Env.hook env' = Env.hook env
  /\ Env.liveTracks env'
     = match Player.mediaStreamRef (Env.player env) with
       | Some stream => stopAll stream (Env.liveTracks env)
       | None => Env.liveTracks env
       end
  /\ Player.videoRef (Env.player env')
     = option_map (fun _ => Video.mk None (Player.videoSrc (Env.player env)) false false)
                  (Player.videoRef (Env.player env)).
Proof.
  cbv zeta. destruct env as [h [uw ip ms vr vs ed sw] live evs0].
  destruct ms as [stream|]; destruct vr as [v|]; destruct ip;
    player_compute; rewrite ?forEach_stopTrack; player_compute;
    repeat split.
Qed.

(** X22.  [stopWebcam], on any page: every track of the stream the ref holds is
    stopped and none of them is capturing afterwards, the ref is cleared,
    [usingWebcam] is off, the video element is back on the lecture source
    with the webcam handlers removed, and the hook's state is untouched.
    A second call finds nothing to stop. *)
Theorem stopWebcam_releases (env : Env.t) :
  let env' := Classroom.after VideoPlayer.stopWebcam env in
  Player.usingWebcam (Env.player env') = false
  /\ Player.mediaStreamRef (Env.player env') = None
  /\ Env.hook env' = Env.hook env
  /\ Env.liveTracks env'
     = match Player.mediaStreamRef (Env.player env) with
       | Some stream => stopAll stream (Env.liveTracks env)
       | None => Env.liveTracks env
       end
  /\ (forall stream track,
        Player.mediaStreamRef (Env.player env) = Some stream ->
        In track stream -> ~ In track (Env.liveTracks env'))
  /\ Player.videoRef (Env.player env')
     = option_map (fun _ => Video.mk None (Player.videoSrc (Env.player env)) false false)
                  (Player.videoRef (Env.player env))
  /\ existsb isTrackStop (Classroom.added VideoPlayer.stopWebcam env') = false.
Proof.
  cbv zeta. destruct (stopWebcam_state env) as (Hw & Hs & Hh & Hl & Hv).
  split; [exact Hw|]. split; [exact Hs|]. split; [exact Hh|]. split; [exact Hl|].
  split; [|split; [exact Hv|exact (stopWebcam_without_stream _ Hs)]].
  intros stream track Hstream Hin. rewrite Hl, Hstream. now apply stopAll_not_in.
Qed.

(** ** The page with the hook's cleanup wired in *)

(** The webcam effect never throws. *)
Lemma webcamEffect_resolves (env : Env.t) :
  VideoPlayer.webcamEffect env = (JS.Resolved tt, snd (VideoPlayer.webcamEffect env)).
Proof.
  destruct env as [[it m er fl] [uw ip ms vr vs ed sw] live evs].
  unfold VideoPlayer.webcamEffect, bind, getHook, getPlayer.
  cbn [Env.hook Env.player Hook.isTracking Player.usingWebcam].
  destruct it, uw; cbn [negb andb]; try reflexivity.
  unfold VideoPlayer.stopWebcam, bind, getPlayer.
  cbn [Env.player Player.mediaStreamRef Player.videoRef Player.isPlaying
       Player.videoSrc].
  destruct ms as [stream|]; [rewrite forEach_stopTrack|];
    destruct vr as [v|]; destruct ip; reflexivity.
Qed.

(** What a commit of the page is, in terms of the player's part of it: when
    [isTracking] has gone from true to false the cleanup's call sends its
    request first, and is left suspended. *)
Lemma commit_launch (env : Env.t) :
  Page.commit env
  = (JS.Resolved (negb (isTracking env) && Player.effectDep (Env.player env)),
     committed
       (if negb (isTracking env) && Player.effectDep (Env.player env)
        then snd (emit (Request "GET" "/api/flask/get_tracking_results" NoBody) env)
        else env)).
Proof.
  destruct env as [[it m er fl] [uw ip ms vr vs ed sw] live evs].
  unfold isTracking, committed.
  cbn [Env.hook Env.player Hook.isTracking Player.effectDep].
  destruct it, ed; cbn [negb andb]; try reflexivity;
    unfold Page.commit, React.commit, bind, getHook, getPlayer;
    cbn [Env.hook Env.player Hook.isTracking Player.effectDep Bool.eqb emit snd];
    unfold VideoPlayer.setEffectDep, modifyPlayer, Page.hookCleanup,
      Page.stopTrackingCalled, useAttentionTracking.setIsTracking, modifyHook,
      bind, emit, ret;
    cbn [Env.hook Env.player Env.liveTracks Env.events Hook.isTracking
         Hook.metrics Hook.error Hook.flaskServerAvailable
         Player.usingWebcam Player.isPlaying Player.mediaStreamRef
         Player.videoRef Player.videoSrc Player.effectDep Player.startingWebcam
         negb];
    rewrite webcamEffect_resolves; reflexivity.
Qed.

(** The two halves of [stopTracking] make up the whole: the call to its
    first await, the commit that the await lets happen, and the rest. *)
Lemma stopTrackingOf_split (userId subjectId : Z) (isTracking : bool)
      (fetch save : JS.Outcome Api.Response) (env : Env.t) :
  Cleanup.stopTrackingOf userId subjectId isTracking fetch save env
  = (suspended <- Page.stopTrackingCalled isTracking ;;
     if (suspended : bool)
     then React.commit ;; Page.stopTrackingResumes userId subjectId fetch save
     else ret tt) env.
Proof.
  destruct env as [[it mt er fl] p live evs0].
  destruct isTracking; [|reflexivity].
  unfold Cleanup.stopTrackingOf, Page.stopTrackingCalled,
    Page.stopTrackingResumes. cbn [negb].
  page_step.
  destruct fetch as [[[] st [v|e]]|e]; repeat page_step; reflexivity.
Qed.

Lemma stopTracking_split (userId subjectId : Z)
      (fetch save : JS.Outcome Api.Response) (env : Env.t) :
  useAttentionTracking.stopTracking userId subjectId fetch save env
  = (suspended <- Page.stopTrackingCalled (isTracking env) ;;
     if (suspended : bool)
     then React.commit ;; Page.stopTrackingResumes userId subjectId fetch save
     else ret tt) env.
Proof.
  rewrite stopTracking_is_closure. apply stopTrackingOf_split.
Qed.

(** Once committed, the page has no render pending, and committing again
    changes nothing. *)
Lemma committed_settled (env : Env.t) : settled (committed env).
Proof.
  unfold settled, committed.
  destruct env as [[it m er fl] [uw ip ms vr vs ed sw] live evs].
  unfold React.commit, bind, getHook, getPlayer.
  cbn [Env.hook Env.player Hook.isTracking Player.effectDep].
  destruct it, ed; cbn [Bool.eqb]; try reflexivity;
    unfold VideoPlayer.setEffectDep, modifyPlayer, VideoPlayer.webcamEffect,
      bind, getHook, getPlayer;
    cbn [Env.hook Env.player Env.liveTracks Env.events Hook.isTracking
         Player.usingWebcam Player.isPlaying Player.mediaStreamRef
         Player.videoRef Player.videoSrc Player.effectDep Player.startingWebcam
         negb andb];
    destruct uw; cbn [negb andb]; try reflexivity.
  unfold VideoPlayer.stopWebcam, bind, getPlayer.
  cbn [Env.player Player.mediaStreamRef Player.videoRef Player.isPlaying
       Player.videoSrc].
  destruct ms as [stream|]; [rewrite forEach_stopTrack|];
    destruct vr as [v|]; destruct ip; reflexivity.
Qed.

Lemma commit_settled (env : Env.t) : settled env -> committed env = env.
Proof.
  unfold settled, committed.
  destruct env as [[it m er fl] [uw ip ms vr vs ed sw] live evs].
  cbn [Env.hook Env.player Hook.isTracking Player.effectDep]. intros ->.
  unfold React.commit, bind, getHook, getPlayer.
  cbn [Env.hook Env.player Hook.isTracking Player.effectDep].
  now rewrite Bool.eqb_reflx.
Qed.

(** Replaces the innermost committed page by a page of which the hook's
    state, the kind of the added events, and that it is settled are known. *)
Ltac commit_settle :=
  match goal with
  | |- context [committed ?X] =>
      lazymatch X with
      | context [committed _] => fail
      | _ =>
          let Hh := fresh "Hhook" in
          let evs := fresh "evs" in
          let Hev := fresh "Hevents" in
          let Hp := fresh "Hplayer" in
          let Hs := fresh "Hsettled" in
          pose proof (committed_hook X) as Hh;
          pose proof (committed_settled X) as Hs;
          destruct (commit_player X) as (evs & Hev & Hp);
          let e := fresh "env" in
          remember (committed X) as e eqn:Heqe in *; clear Heqe;
          destruct e as [? ? ? ?];
          unfold settled in Hs;
          cbn [Env.hook Env.player Env.liveTracks Env.events Hook.isTracking]
            in Hh, Hev, Hs;
          subst;
          cbn [Hook.isTracking] in Hs
      end
  end.

(** Lets the commits that follow on a settled page resolve. *)
Ltac settle_inner :=
  match goal with
  | |- context [committed ?X] =>
      lazymatch X with
      | context [committed _] => fail
      | _ =>
          rewrite (@commit_settled X)
            by (unfold settled;
                cbn [Env.hook Env.player Hook.isTracking]; assumption)
      end
  end.

Ltac settled_step :=
  first [ progress (repeat (settle_inner; page_unfold))
        | progress page_step
        | progress (rewrite ?commit_launch; page_unfold;
                    repeat match goal with
                           | H : Player.effectDep ?p = _
                             |- context [Player.effectDep ?p] => rewrite H
                           end;
                    cbn [negb andb fst snd]) ].



(** What a commit does to the player and the camera does not depend on the
    log. *)
Lemma commit_log_blind (h : Hook.t) (p : Player.t) (live : list Track)
      (evs1 evs2 : list Event) :
  exists p' live' evs,
    committed (Env.mk h p live evs1) = Env.mk h p' live' (evs1 ++ evs)
    /\ committed (Env.mk h p live evs2) = Env.mk h p' live' (evs2 ++ evs).
Proof.
  destruct h as [it m er fl], p as [uw ip ms vr vs ed sw].
  unfold committed, React.commit, bind, getHook, getPlayer.
  cbn [Env.hook Env.player Hook.isTracking Player.effectDep].
  destruct it, ed; cbn [Bool.eqb];
    try (exists (Player.mk uw ip ms vr vs true sw), live, [];
         now rewrite !app_nil_r);
    try (exists (Player.mk uw ip ms vr vs false sw), live, [];
         now rewrite !app_nil_r);
    unfold VideoPlayer.setEffectDep, modifyPlayer, VideoPlayer.webcamEffect,
      bind, getHook, getPlayer;
    cbn [Env.hook Env.player Env.liveTracks Env.events Hook.isTracking
         Player.usingWebcam Player.isPlaying Player.mediaStreamRef
         Player.videoRef Player.videoSrc Player.effectDep Player.startingWebcam
         negb andb];
    destruct uw; cbn [negb andb].
  - do 3 eexists. split; cbn; [rewrite app_nil_r|rewrite app_nil_r]; reflexivity.
  - do 3 eexists. split; cbn; reflexivity.
  - unfold VideoPlayer.stopWebcam, bind, getPlayer.
    cbn [Env.player Player.mediaStreamRef Player.videoRef Player.isPlaying
         Player.videoSrc].
    destruct ms as [stream|]; [rewrite !forEach_stopTrack|];
      destruct vr as [v|]; destruct ip; cbn;
        do 3 eexists; split; rewrite <- ?app_assoc; cbn [app]; reflexivity.
  - do 3 eexists. split; cbn; [rewrite app_nil_r|rewrite app_nil_r]; reflexivity.
Qed.



(** When the page is tracking, or has no render pending, the cleanup makes
    no call and a commit of the page is the player's part of it. *)
Lemma commit_without_call (env : Env.t) :
  isTracking env = true \/ settled env ->
  Page.commit env = (JS.Resolved false, committed env).
Proof.
  intros H. rewrite commit_launch.
  assert (E : negb (isTracking env) && Player.effectDep (Env.player env) = false).
  { destruct H as [->|H]; [reflexivity|].
    unfold settled in H. unfold isTracking. rewrite H.
    now destruct (Hook.isTracking (Env.hook env)). }
  now rewrite E.
Qed.

(** On a settled page that is not tracking, the rest of a [stopTracking]
    call changes the hook's error and the log, and nothing else. *)
Lemma stopTrackingResumes_keeps (userId subjectId : Z)
      (fetch save : JS.Outcome Api.Response)
      (mt : option TrackingMetrics.t) (er : option string) (fl : bool)
      (p : Player.t) (live : list Track) (evs0 : list Event) :
  Player.effectDep p = false ->
  exists er' evs,
    Page.stopTrackingResumes userId subjectId fetch save
      (Env.mk (Hook.mk false mt er fl) p live evs0)
    = (JS.Resolved tt, Env.mk (Hook.mk false mt er' fl) p live (evs0 ++ evs)).
Proof.
  intros Hs. unfold Page.stopTrackingResumes.
  destruct fetch as [[[] st [v|e]]|e]; try destruct save as [r|e'];
    repeat settled_step; rewrite <- ?app_assoc; cbn [app];
    do 2 eexists; reflexivity.
Qed.

(** The rest of a [stopTracking] call whose aggregate has arrived. *)
Lemma stopTrackingResumes_fetched (userId subjectId : Z)
      (statusText : string) (aggregate : JS.Value) (save : JS.Outcome Api.Response)
      (mt : option TrackingMetrics.t) (er : option string) (fl : bool)
      (p : Player.t) (live : list Track) (evs0 : list Event) :
  Player.effectDep p = false ->
  Page.stopTrackingResumes userId subjectId
    (JS.Resolved (Api.mkResponse true statusText (JS.Resolved aggregate))) save
    (Env.mk (Hook.mk false mt er fl) p live evs0)
  = (JS.Resolved tt,
     match save with
     | JS.Resolved _ =>
         Env.mk (Hook.mk false mt er fl) p live
           (evs0 ++
            [ConsoleLog "Final tracking results:";
             Request "POST" "/api/tracking/save"
                     (SaveBody userId subjectId aggregate);
             DispatchLater "tracking-completed" userId subjectId 500;
             Toast "Tracking Stopped" "Your attention metrics have been saved"
                   false])
     | JS.Rejected err =>
         Env.mk (Hook.mk false mt
                   (Some (JS.messageOr err "Failed to stop tracking")) fl)
           p live
           (evs0 ++
            [ConsoleLog "Final tracking results:";
             Request "POST" "/api/tracking/save"
                     (SaveBody userId subjectId aggregate);
             Toast "Tracking Error" (JS.messageOr err "Failed to stop tracking")
                   true])
     end).
Proof.
  intros Hs. unfold Page.stopTrackingResumes.
  destruct save as [r|e'];
    repeat settled_step; rewrite <- ?app_assoc; reflexivity.
Qed.

(** The rest of a [stopTracking] call whose aggregate fetch fails: the
    failure is logged, stored in [error] and shown. *)
Lemma stopTrackingResumes_fetch_fails (userId subjectId : Z)
      (fetch save : JS.Outcome Api.Response) (err : JS.Thrown)
      (mt : option TrackingMetrics.t) (er : option string) (fl : bool)
      (p : Player.t) (live : list Track) (evs0 : list Event) :
  Player.effectDep p = false ->
  fetchError fetch = Some err ->
  exists evs,
    Page.stopTrackingResumes userId subjectId fetch save
      (Env.mk (Hook.mk false mt er fl) p live evs0)
    = (JS.Resolved tt,
       Env.mk (Hook.mk false mt
                 (Some (JS.messageOr err "Failed to stop tracking")) fl)
         p live
         (evs0 ++ evs ++
          [Toast "Tracking Error" (JS.messageOr err "Failed to stop tracking")
                 true]))
    /\ filter isRequest evs = []
    /\ existsb isDispatch evs = false
    /\ filter isSave evs = []
    /\ existsb isErrorToast evs = false
    /\ existsb isSavedToast evs = false.
Proof.
  intros Hs Hfail. unfold Page.stopTrackingResumes.
  destruct fetch as [[[] st [v|e]]|e]; cbn in Hfail;
    try discriminate; injection Hfail as <-;
    repeat settled_step; rewrite <- ?app_assoc; cbn [app];
    match goal with
    | |- exists _, (_, Env.mk _ _ _ (_ ++ ?l)) = _ /\ _ => exists (removelast l)
    end;
    (split; [reflexivity|]); repeat split.
Qed.

(** Unfolds a click on the page down to its first commit, and lets that
    commit resolve. *)
Ltac click_unfold :=
  unfold Classroom.added, Classroom.after, Classroom.result, Page.clickToggle,
    Page.stopTrackingCalled;
  cbv beta iota zeta delta
    [bind ret emit getHook modifyHook useAttentionTracking.setIsTracking negb];
  cbn [Env.hook Env.player Env.liveTracks Env.events Hook.isTracking
       Hook.metrics Hook.error Hook.flaskServerAvailable];
  rewrite commit_launch;
  cbn [isTracking Env.hook Env.player Env.liveTracks Env.events Hook.isTracking
       Player.effectDep negb andb emit snd];
  commit_settle.

(** The last commit of a click finds the page settled. *)
Ltac click_close :=
  rewrite commit_launch;
  cbn [isTracking Env.hook Env.player Hook.isTracking];
  repeat match goal with
         | H : Player.effectDep ?p = _ |- context [Player.effectDep ?p] =>
             rewrite H
         end;
  cbn [negb andb];
  rewrite commit_settled
    by (unfold settled; cbn [Env.hook Env.player Hook.isTracking]; assumption);
  cbn [fst snd Env.hook Env.player Env.liveTracks Env.events Hook.isTracking
       Hook.metrics Hook.error Hook.flaskServerAvailable isTracking error metrics];
  rewrite <- ?app_assoc; cbn [app]; rewrite ?skipn_exact.

Ltac to_filter f :=
  repeat match goal with
         | H : existsb f ?evs = false |- _ =>
             apply (proj1 (existsb_filter_nil f evs)) in H
         end.

(** ** A stop, with the cleanup's call *)

(** X15.  When an Active session is stopped on the page, both aggregate
    fetches return an aggregate and both save requests resolve, the stop
    sequence runs twice: two aggregate requests go out before anything
    else, then two save requests, each with the aggregate its own call
    fetched; [tracking-completed] is scheduled twice and the "saved" toast
    is shown twice.  No error toast is shown and the hook's error is as it
    was. *)
Theorem stop_saves_twice (userId subjectId : Z) (env : Env.t)
        (statusText1 statusText2 : string) (aggregate1 aggregate2 : JS.Value)
        (saved1 saved2 : Api.Response) :
  isTracking env = true ->
  settled env ->
  let m := Page.clickToggle userId subjectId
             (JS.Resolved (Api.mkResponse true statusText1 (JS.Resolved aggregate1)))
             (JS.Resolved saved1)
             (JS.Resolved (Api.mkResponse true statusText2 (JS.Resolved aggregate2)))
             (JS.Resolved saved2) in
  Classroom.result m env = JS.Resolved false
  /\ isTracking (Classroom.after m env) = false
  /\ error (Classroom.after m env) = error env
  /\ filter isRequest (Classroom.added m env)
     = [Request "GET" "/api/flask/get_tracking_results" NoBody;
        Request "GET" "/api/flask/get_tracking_results" NoBody;
        Request "POST" "/api/tracking/save" (SaveBody userId subjectId aggregate1);
        Request "POST" "/api/tracking/save" (SaveBody userId subjectId aggregate2)]
  /\ filter isDispatch (Classroom.added m env)
     = [DispatchLater "tracking-completed" userId subjectId 500;
        DispatchLater "tracking-completed" userId subjectId 500]
  /\ filter isSavedToast (Classroom.added m env)
     = [Toast "Tracking Stopped" "Your attention metrics have been saved" false;
        Toast "Tracking Stopped" "Your attention metrics have been saved" false]
  /\ existsb isErrorToast (Classroom.added m env) = false.
Proof.
  intros Htr Hset m. subst m. unfold settled in Hset.
  destruct env as [[it mt er fl] [uw ip ms vr vs ed sw] live evs0].
  cbn in Htr, Hset. subst it ed.
  click_unfold. player_facts.
  rewrite !stopTrackingResumes_fetched by assumption.
  click_close. to_filter isDispatch. to_filter isSavedToast.
  (split; [reflexivity|]); (split; [reflexivity|]); (split; [reflexivity|]).
  split; [log_facts|]. split; [log_facts|]. split; log_facts.
Qed.

(** X16.  When an Active session is stopped on the page, both aggregates
    arrive and both save requests are rejected, the session has left the
    Active state, a save was attempted by each of the two calls and by
    neither again, [tracking-completed] is not scheduled, the "saved" toast
    is not shown, each failure is shown in a destructive toast, and the
    hook's error is the message of the call that ended last. *)
Theorem stop_when_saves_fail (userId subjectId : Z) (env : Env.t)
        (statusText1 statusText2 : string) (aggregate1 aggregate2 : JS.Value)
        (err1 err2 : JS.Thrown) :
  isTracking env = true ->
  settled env ->
  let m := Page.clickToggle userId subjectId
             (JS.Resolved (Api.mkResponse true statusText1 (JS.Resolved aggregate1)))
             (JS.Rejected err1)
             (JS.Resolved (Api.mkResponse true statusText2 (JS.Resolved aggregate2)))
             (JS.Rejected err2) in
  isTracking (Classroom.after m env) = false
  /\ error (Classroom.after m env)
     = Some (JS.messageOr err2 "Failed to stop tracking")
  /\ filter isSave (Classroom.added m env)
     = [Request "POST" "/api/tracking/save" (SaveBody userId subjectId aggregate1);
        Request "POST" "/api/tracking/save" (SaveBody userId subjectId aggregate2)]
  /\ existsb isDispatch (Classroom.added m env) = false
  /\ filter isErrorToast (Classroom.added m env)
     = [Toast "Tracking Error" (JS.messageOr err1 "Failed to stop tracking") true;
        Toast "Tracking Error" (JS.messageOr err2 "Failed to stop tracking") true]
  /\ existsb isSavedToast (Classroom.added m env) = false.
Proof.
  intros Htr Hset m. subst m. unfold settled in Hset.
  destruct env as [[it mt er fl] [uw ip ms vr vs ed sw] live evs0].
  cbn in Htr, Hset. subst it ed.
  click_unfold. player_facts.
  rewrite !stopTrackingResumes_fetched by assumption.
  click_close. to_filter isErrorToast.
  (split; [reflexivity|]); (split; [reflexivity|]).
  split; [log_facts|]. split; [log_facts|]. split; log_facts.
Qed.

(** X28.  When an Active session is stopped on the page and the aggregate
    fetch of the handler's call and that of the cleanup's call both fail,
    in whatever way, the session has left the Active state, the two
    aggregate requests are the only requests made, so nothing is saved,
    [tracking-completed] is not scheduled, the "saved" toast is not shown,
    each failure is shown in a destructive toast and the hook's error is
    the message of the call that ended last. *)
Theorem stop_when_every_fetch_fails (userId subjectId : Z) (env : Env.t)
        (fetch1 save1 fetch2 save2 : JS.Outcome Api.Response)
        (err1 err2 : JS.Thrown) :
  isTracking env = true ->
  settled env ->
  fetchError fetch1 = Some err1 ->
  fetchError fetch2 = Some err2 ->
  let m := Page.clickToggle userId subjectId fetch1 save1 fetch2 save2 in
  isTracking (Classroom.after m env) = false
  /\ filter isRequest (Classroom.added m env)
     = [Request "GET" "/api/flask/get_tracking_results" NoBody;
        Request "GET" "/api/flask/get_tracking_results" NoBody]
  /\ existsb isDispatch (Classroom.added m env) = false
  /\ existsb isSavedToast (Classroom.added m env) = false
  /\ error (Classroom.after m env)
     = Some (JS.messageOr err2 "Failed to stop tracking")
  /\ filter isErrorToast (Classroom.added m env)
     = [Toast "Tracking Error" (JS.messageOr err1 "Failed to stop tracking") true;
        Toast "Tracking Error" (JS.messageOr err2 "Failed to stop tracking") true].
Proof.
  intros Htr Hset Hf1 Hf2 m. subst m. unfold settled in Hset.
  destruct env as [[it mt er fl] [uw ip ms vr vs ed sw] live evs0].
  cbn in Htr, Hset. subst it ed.
  click_unfold. player_facts.
  match goal with
  | Hs : Player.effectDep ?p = false
    |- context [Page.stopTrackingResumes _ _ fetch1 save1
                  (Env.mk (Hook.mk false ?m ?e ?f) ?p ?l ?ev)] =>
      destruct (@stopTrackingResumes_fetch_fails userId subjectId fetch1 save1
                  err1 m e f p l ev Hs Hf1) as (evs1 & -> & ? & ? & ? & ? & ?)
  end.
  match goal with
  | Hs : Player.effectDep ?p = false
    |- context [Page.stopTrackingResumes _ _ fetch2 save2
                  (Env.mk (Hook.mk false ?m ?e ?f) ?p ?l ?ev)] =>
      destruct (@stopTrackingResumes_fetch_fails userId subjectId fetch2 save2
                  err2 m e f p l ev Hs Hf2) as (evs2 & -> & ? & ? & ? & ? & ?)
  end.
  click_close. to_filter isErrorToast.
  (split; [reflexivity|]); (split; [log_facts|]);
    (split; [log_facts|]); (split; [log_facts|]);
    (split; [reflexivity|log_facts]).
Qed.

(** C4, evaluated.  A session is playing the camera and Stop is clicked.
    The aggregate request of the handler's [stopTracking] is refused by the
    network; the request of the second [stopTracking] call, the one the
    hook's cleanup makes when [isTracking] turns false, is answered.  The
    session leaves the Active state and the failure is stored and shown,
    and yet a save request goes out with the aggregate of the second
    fetch, and the "saved" toast follows the error toast.  Had the second
    fetch been refused too, no save request would have been made. *)
Theorem stop_when_fetch_fails_still_saves :
  let refused : JS.Outcome Api.Response :=
    JS.Rejected (JS.Error "TypeError" "Failed to fetch") in
  let aggregate := JS.Object [("attentiveness_score", JS.Number 72)] in
  let m := Page.clickToggle 1 1 refused ok (okWith aggregate) ok in
  isTracking playing = true
  /\ settled playing
  /\ fetchError refused = Some (JS.Error "TypeError" "Failed to fetch")
  /\ isTracking (Classroom.after m playing) = false
  /\ error (Classroom.after m playing) = Some "Failed to fetch"
  /\ filter isRequest (Classroom.added m playing)
     = [Request "GET" "/api/flask/get_tracking_results" NoBody;
        Request "GET" "/api/flask/get_tracking_results" NoBody;
        Request "POST" "/api/tracking/save" (SaveBody 1 1 aggregate)]
  /\ filter isToast (Classroom.added m playing)
     = [Toast "Tracking Stopped" "Your webcam has been turned off" false;
        Toast "Tracking Error" "Failed to fetch" true;
        Toast "Tracking Stopped" "Your attention metrics have been saved" false]
  /\ existsb isSave
       (Classroom.added (Page.clickToggle 1 1 refused ok refused ok) playing)
     = false.
Proof.
  unfold settled. vm_compute. repeat split.
Qed.

(** Follows one resumed [stopTracking] call on a settled page. *)
Ltac resume_step userId subjectId :=
  match goal with
  | Hs : Player.effectDep ?p = false
    |- context [Page.stopTrackingResumes userId subjectId ?f ?s
                  (Env.mk (Hook.mk false ?m ?e ?fl) ?p ?l ?ev)] =>
      let er := fresh "er" in
      let evs := fresh "evs" in
      destruct (@stopTrackingResumes_keeps userId subjectId f s m e fl p l ev Hs)
        as (er & evs & ->)
  end.

(** X29.  The call the cleanup makes touches neither the player nor the
    camera: a stop followed with the cleanup's call leaves the player's
    state, the tracks that capture, [isTracking] and the metrics exactly as
    the handler's call and the webcam effect alone leave them, whatever
    the four requests do. *)
Theorem second_stop_leaves_player (userId subjectId : Z) (env : Env.t)
        (o1 o2 o3 o4 : JS.Outcome Api.Response) :
  isTracking env = true ->
  settled env ->
  let twice := Classroom.after (Page.clickToggle userId subjectId o1 o2 o3 o4) env in
  let once := Classroom.after (Classroom.clickToggle userId subjectId o1 o2) env in
  Env.player twice = Env.player once
  /\ Env.liveTracks twice = Env.liveTracks once
  /\ isTracking twice = false
  /\ isTracking once = false
  /\ metrics twice = metrics once.
Proof.
  intros Htr Hset twice once. subst twice once. unfold settled in Hset.
  destruct env as [[it mt er fl] [uw ip ms vr vs ed sw] live evs0].
  cbn in Htr, Hset. subst it ed.
  destruct (commit_log_blind (Hook.mk false mt er fl)
              (Player.mk uw ip ms vr vs true sw) live
              (evs0 ++ [Request "GET" "/api/flask/get_tracking_results" NoBody])
              ((evs0 ++ [Request "GET" "/api/flask/get_tracking_results" NoBody])
               ++ [Request "GET" "/api/flask/get_tracking_results" NoBody]))
    as (p' & live' & evs & Eonce & Etwice).
  assert (Hs : Player.effectDep p' = false).
  { pose proof (committed_settled
                  (Env.mk (Hook.mk false mt er fl)
                     (Player.mk uw ip ms vr vs true sw) live
                     (evs0 ++ [Request "GET" "/api/flask/get_tracking_results"
                                       NoBody]))) as H.
    rewrite Eonce in H. exact H. }
  unfold Classroom.after, Classroom.clickToggle, useAttentionTracking.toggleTracking,
    Page.clickToggle.
  cbv beta iota zeta delta [bind ret getHook].
  cbn [Env.hook Hook.isTracking].
  rewrite stopTracking_split.
  unfold Page.stopTrackingCalled.
  cbv beta iota zeta delta
    [bind ret emit getHook modifyHook useAttentionTracking.setIsTracking negb
     isTracking].
  cbn [Env.hook Env.player Env.liveTracks Env.events Hook.isTracking
       Hook.metrics Hook.error Hook.flaskServerAvailable].
  rewrite commit_eq, commit_launch.
  cbn [isTracking Env.hook Env.player Env.liveTracks Env.events Hook.isTracking
       Player.effectDep negb andb emit snd].
  change (Api.BASE_URL ++ "/flask/get_tracking_results")%string
    with "/api/flask/get_tracking_results".
  rewrite Eonce, Etwice.
  repeat resume_step userId subjectId.
  click_close.
  rewrite commit_eq, commit_settled
    by (unfold settled; cbn [Env.hook Env.player Hook.isTracking]; assumption).
  cbn. repeat split.
Qed.

(** X30.  A click that starts a session sets off no second call: when
    [isTracking] goes from false to true the cleanup that React runs was
    registered by a render that was not tracking, and its guard keeps it
    from calling [stopTracking].  On a page that is not tracking and has no
    render pending, the click followed on the page with the cleanup wired
    in does exactly what the handler and the webcam effect do. *)
Theorem start_makes_no_second_call (userId subjectId : Z) (env : Env.t)
        (o1 o2 o3 o4 : JS.Outcome Api.Response) :
  isTracking env = false ->
  settled env ->
  Page.clickToggle userId subjectId o1 o2 o3 o4 env
  = Classroom.clickToggle userId subjectId o1 o2 env.
Proof.
  intros Hidle _.
  destruct env as [[it mt er fl] p live evs0]. cbn in Hidle. subst it.
  unfold Page.clickToggle, Classroom.clickToggle, useAttentionTracking.toggleTracking.
  cbv beta iota zeta delta [bind ret getHook].
  cbn [Env.hook Hook.isTracking].
  destruct (useAttentionTracking.startTracking o1 o2 _) as [r env1] eqn:E.
  assert (H : isTracking env1 = true \/ settled env1).
  { replace env1 with (snd (useAttentionTracking.startTracking o1 o2
       {| Env.hook := {| Hook.isTracking := false; Hook.metrics := mt;
                         Hook.error := er; Hook.flaskServerAvailable := fl |};
          Env.player := p; Env.liveTracks := live; Env.events := evs0 |}))
      by now rewrite E.
    clear E.
    destruct o1 as [[[] st1 j1]|e1]; try destruct o2 as [[[] st2 j2]|e2];
      repeat page_step; repeat commit_settle; page_unfold;
      unfold settled;
      cbn [Env.hook Env.player Hook.isTracking isTracking];
      auto. }
  rewrite (@commit_without_call env1 H), commit_eq.
  destruct r; reflexivity.
Qed.

(** A commit on a page that is not tracking and not using the webcam runs
    no effect that can be seen. *)
Lemma commit_without_webcam (h : Hook.t) (ip : bool) (ms : option MediaStream)
      (vr : option Video.t) (vs : string) (ed sw : bool)
      (live : list Track) (evs : list Event) :
  Hook.isTracking h = false ->
  committed (Env.mk h (Player.mk false ip ms vr vs ed sw) live evs)
  = Env.mk h (Player.mk false ip ms vr vs false sw) live evs.
Proof.
  destruct h as [it m er fl]. cbn [Hook.isTracking]. intros ->.
  destruct ed; reflexivity.
Qed.

(** [startWebcam] when it fails: the call is no longer pending, and the
    failure is logged, shown, and handed to [onToggleTracking]. *)
Lemma startWebcam_fails (devices : JS.Outcome (list VideoPlayer.DeviceKind))
      (stream : JS.Outcome MediaStream) (err : JS.Thrown)
      (h : Hook.t) (uw ip : bool) (ms : option MediaStream)
      (vr : option Video.t) (vs : string) (ed sw : bool)
      (live : list Track) (evs : list Event) :
  webcamError devices stream = Some err ->
  VideoPlayer.startWebcam devices stream
    (Env.mk h (Player.mk uw ip ms vr vs ed sw) live evs)
  = (JS.Resolved tt,
     Env.mk h (Player.mk uw ip ms vr vs ed false) live
       (evs ++ (if hasVideoInput devices then [GetUserMedia] else [])
            ++ [ConsoleError "Error accessing webcam:";
                Toast "Camera Access Failed" (VideoPlayer.cameraErrorMessage err)
                      true;
                OnToggleTracking])).
Proof.
  intros Herr.
  destruct devices as [ds|e]; cbn [webcamError hasVideoInput] in *.
  - destruct (existsb VideoPlayer.isVideoInput ds) eqn:E; cbn [negb] in *.
    + destruct stream as [s|e]; [discriminate|]. injection Herr as <-.
      player_unfold. rewrite E. player_unfold.
      rewrite <- ?app_assoc. reflexivity.
    + injection Herr as <-.
      player_unfold. rewrite E. player_unfold.
      rewrite <- ?app_assoc. reflexivity.
  - injection Herr as <-. player_unfold. rewrite <- ?app_assoc. reflexivity.
Qed.

(** X23.  On the classroom page, where [onToggleTracking] is the hook's
    [toggleTracking]: when the camera of a session that has just become
    Active cannot be started, tracking is switched off again and no track
    captures, but the way back is the stop sequence, and it runs twice: the
    aggregate is fetched twice and, when it arrives, saved twice, for a
    session that never had a camera. *)
Theorem camera_failure_runs_stop_twice
        (userId subjectId : Z) (env : Env.t)
        (devices : JS.Outcome (list VideoPlayer.DeviceKind))
        (stream : JS.Outcome MediaStream) (err : JS.Thrown)
        (statusText1 statusText2 : string) (aggregate1 aggregate2 : JS.Value)
        (saved1 saved2 : Api.Response) :
  isTracking env = true ->
  settled env ->
  Player.startingWebcam (Env.player env) = true ->
  Player.usingWebcam (Env.player env) = false ->
  webcamError devices stream = Some err ->
  let m := Page.cameraSettles userId subjectId devices stream
             (JS.Resolved (Api.mkResponse true statusText1 (JS.Resolved aggregate1)))
             (JS.Resolved saved1)
             (JS.Resolved (Api.mkResponse true statusText2 (JS.Resolved aggregate2)))
             (JS.Resolved saved2) in
  isTracking (Classroom.after m env) = false
  /\ Env.liveTracks (Classroom.after m env) = Env.liveTracks env
  /\ filter isErrorToast (Classroom.added m env)
     = [Toast "Camera Access Failed" (VideoPlayer.cameraErrorMessage err) true]
  /\ filter isRequest (Classroom.added m env)
     = [Request "GET" "/api/flask/get_tracking_results" NoBody;
        Request "GET" "/api/flask/get_tracking_results" NoBody;
        Request "POST" "/api/tracking/save" (SaveBody userId subjectId aggregate1);
        Request "POST" "/api/tracking/save" (SaveBody userId subjectId aggregate2)].
Proof.
  intros Htr Hset Hsw Hw Herr m. subst m. unfold settled in Hset.
  destruct env as [[it mt er fl] [uw ip ms vr vs ed sw] live evs0].
  cbn in Htr, Hset, Hsw, Hw. subst it ed sw uw.
  unfold Classroom.added, Classroom.after, Page.cameraSettles.
  cbv beta iota zeta delta [bind ret getPlayer].
  cbn [Env.player Player.startingWebcam].
  rewrite (@startWebcam_fails devices stream err _ _ _ _ _ _ _ _ _ _ Herr), Herr.
  unfold Page.clickToggle, Page.stopTrackingCalled.
  cbv beta iota zeta delta
    [bind ret emit getHook modifyHook useAttentionTracking.setIsTracking negb].
  cbn [Env.hook Env.player Env.liveTracks Env.events Hook.isTracking
       Hook.metrics Hook.error Hook.flaskServerAvailable].
  rewrite commit_launch.
  cbn [isTracking Env.hook Env.player Env.liveTracks Env.events Hook.isTracking
       Player.effectDep negb andb emit snd].
  rewrite commit_without_webcam by reflexivity.
  rewrite !stopTrackingResumes_fetched by reflexivity.
  rewrite commit_launch.
  cbn [isTracking Env.hook Env.player Hook.isTracking Player.effectDep negb andb].
  rewrite commit_without_webcam by reflexivity.
  cbn [fst snd Env.hook Env.player Env.liveTracks Env.events Hook.isTracking
       isTracking].
  rewrite <- ?app_assoc; cbn [app]; rewrite ?skipn_exact.
  split; [reflexivity|]. split; [reflexivity|].
  destruct (hasVideoInput devices); split; reflexivity.
Qed.

(** ** Witnesses for the stop on the page *)

Lemma stop_saves_twice_witness :
  isTracking playing = true
  /\ settled playing
  /\ filter isRequest
       (Classroom.added
          (Page.clickToggle 1 1
             (JS.Resolved (Api.mkResponse true "OK" (JS.Resolved (JS.Object []))))
             (JS.Resolved (Api.mkResponse true "OK" (JS.Resolved JS.Null)))
             (JS.Resolved (Api.mkResponse true "OK" (JS.Resolved JS.Null)))
             (JS.Resolved (Api.mkResponse true "OK" (JS.Resolved JS.Null))))
          playing)
     = [Request "GET" "/api/flask/get_tracking_results" NoBody;
        Request "GET" "/api/flask/get_tracking_results" NoBody;
        Request "POST" "/api/tracking/save" (SaveBody 1 1 (JS.Object []));
        Request "POST" "/api/tracking/save" (SaveBody 1 1 JS.Null)].
Proof.
  assert (Htr : isTracking playing = true) by (vm_compute; reflexivity).
  assert (Hset : settled playing) by (unfold settled; vm_compute; reflexivity).
  split; [exact Htr|]. split; [exact Hset|].
  destruct (@stop_saves_twice 1 1 playing "OK" "OK" (JS.Object []) JS.Null
              (Api.mkResponse true "OK" (JS.Resolved JS.Null))
              (Api.mkResponse true "OK" (JS.Resolved JS.Null)) Htr Hset)
    as (_ & _ & _ & H & _).
  exact H.
Defined.

Lemma stop_when_saves_fail_witness :
  isTracking playing = true
  /\ settled playing
  /\ error
       (Classroom.after
          (Page.clickToggle 1 1
             (JS.Resolved (Api.mkResponse true "OK" (JS.Resolved (JS.Object []))))
             (JS.Rejected (JS.Error "Error" "500: Internal Server Error"))
             (JS.Resolved (Api.mkResponse true "OK" (JS.Resolved (JS.Object []))))
             (JS.Rejected (JS.Error "Error" "503: Service Unavailable")))
          playing)
     = Some "503: Service Unavailable".
Proof.
  assert (Htr : isTracking playing = true) by (vm_compute; reflexivity).
  assert (Hset : settled playing) by (unfold settled; vm_compute; reflexivity).
  split; [exact Htr|]. split; [exact Hset|].
  destruct (@stop_when_saves_fail 1 1 playing "OK" "OK" (JS.Object []) (JS.Object [])
              (JS.Error "Error" "500: Internal Server Error")
              (JS.Error "Error" "503: Service Unavailable") Htr Hset)
    as (_ & H & _).
  exact H.
Defined.

Lemma stop_when_every_fetch_fails_witness :
  isTracking playing = true
  /\ settled playing
  /\ filter isRequest
       (Classroom.added
          (Page.clickToggle 1 1
             (JS.Rejected (JS.Error "TypeError" "Failed to fetch")) ok
             (JS.Resolved (Api.mkResponse false "Bad Gateway" (JS.Resolved JS.Null)))
             ok)
          playing)
     = [Request "GET" "/api/flask/get_tracking_results" NoBody;
        Request "GET" "/api/flask/get_tracking_results" NoBody].
Proof.
  assert (Htr : isTracking playing = true) by (vm_compute; reflexivity).
  assert (Hset : settled playing) by (unfold settled; vm_compute; reflexivity).
  split; [exact Htr|]. split; [exact Hset|].
  destruct (@stop_when_every_fetch_fails 1 1 playing
              (JS.Rejected (JS.Error "TypeError" "Failed to fetch")) ok
              (JS.Resolved (Api.mkResponse false "Bad Gateway" (JS.Resolved JS.Null)))
              ok
              (JS.Error "TypeError" "Failed to fetch")
              (JS.Error "Error" "Failed to get tracking results: Bad Gateway")
              Htr Hset eq_refl eq_refl)
    as (_ & H & _).
  exact H.
Defined.

Lemma second_stop_leaves_player_witness :
  isTracking playing = true
  /\ settled playing
  /\ Env.liveTracks (Classroom.after (Page.clickToggle 1 1 ok ok ok ok) playing)
     = Env.liveTracks (Classroom.after (Classroom.clickToggle 1 1 ok ok) playing).
Proof.
  assert (Htr : isTracking playing = true) by (vm_compute; reflexivity).
  assert (Hset : settled playing) by (unfold settled; vm_compute; reflexivity).
  split; [exact Htr|]. split; [exact Hset|].
  destruct (@second_stop_leaves_player 1 1 playing ok ok ok ok Htr Hset)
    as (_ & H & _).
  exact H.
Defined.

Lemma camera_failure_runs_stop_twice_witness :
  isTracking (Classroom.after (clickToggle ok ok) (Classroom.mounted "lecture.mp4"))
  = true
  /\ webcamError (JS.Resolved [VideoPlayer.videoinput])
                 (JS.Rejected (JS.Error "NotAllowedError" "Permission denied"))
     = Some (JS.Error "NotAllowedError" "Permission denied")
  /\ filter isRequest
       (Classroom.added
          (Page.cameraSettles 1 1 (JS.Resolved [VideoPlayer.videoinput])
             (JS.Rejected (JS.Error "NotAllowedError" "Permission denied"))
             (JS.Resolved (Api.mkResponse true "OK" (JS.Resolved (JS.Object []))))
             (JS.Resolved (Api.mkResponse true "OK" (JS.Resolved JS.Null)))
             (JS.Resolved (Api.mkResponse true "OK" (JS.Resolved (JS.Object []))))
             (JS.Resolved (Api.mkResponse true "OK" (JS.Resolved JS.Null))))
          (Classroom.after (clickToggle ok ok) (Classroom.mounted "lecture.mp4")))
     = [Request "GET" "/api/flask/get_tracking_results" NoBody;
        Request "GET" "/api/flask/get_tracking_results" NoBody;
        Request "POST" "/api/tracking/save" (SaveBody 1 1 (JS.Object []));
        Request "POST" "/api/tracking/save" (SaveBody 1 1 (JS.Object []))].
Proof.
  split; [reflexivity|]. split; [reflexivity|].
  destruct (@camera_failure_runs_stop_twice 1 1
              (Classroom.after (clickToggle ok ok) (Classroom.mounted "lecture.mp4"))
              (JS.Resolved [VideoPlayer.videoinput])
              (JS.Rejected (JS.Error "NotAllowedError" "Permission denied"))
              (JS.Error "NotAllowedError" "Permission denied")
              "OK" "OK" (JS.Object []) (JS.Object [])
              (Api.mkResponse true "OK" (JS.Resolved JS.Null))
              (Api.mkResponse true "OK" (JS.Resolved JS.Null)))
    as (_ & _ & _ & H);
    [reflexivity|reflexivity|reflexivity|reflexivity|reflexivity|].
  exact H.
Defined.

Lemma start_makes_no_second_call_witness :
  isTracking (Classroom.mounted "lecture.mp4") = false
  /\ settled (Classroom.mounted "lecture.mp4")
  /\ Page.clickToggle 1 1 ok ok ok ok (Classroom.mounted "lecture.mp4")
     = Classroom.clickToggle 1 1 ok ok (Classroom.mounted "lecture.mp4").
Proof.
  split; [reflexivity|]. split; [reflexivity|].
  apply (@start_makes_no_second_call 1 1 (Classroom.mounted "lecture.mp4")
           ok ok ok ok); reflexivity.
Defined.

(** ** The capture timer *)

(** X24.  A capture tick sends nothing and leaves the hook's state alone when
    the session is not tracking, when the video has no width or no height
    yet, or when the canvas gives no 2d context. *)
Theorem tick_skips (NODE_ENV : string) (videoWidth videoHeight : Z) (context : bool)
        (drawn : JS.Outcome string) (frame : JS.Outcome Api.Response) (env : Env.t) :
  isTracking env = false \/ videoWidth = 0 \/ videoHeight = 0 \/ context = false ->
  let m := Capture.tick NODE_ENV videoWidth videoHeight context drawn frame in
  Env.hook (Classroom.after m env) = Env.hook env
  /\ filter isRequest (Classroom.added m env) = [].
Proof.
  intros H m. subst m.
  destruct env as [[it mt er fl] [uw ip ms vr vs ed sw] live evs0].
  cbn [isTracking Env.hook Hook.isTracking] in H.
  destruct it; [|player_compute; rewrite skipn_all; auto].
  destruct vr as [v|]; [|player_compute; rewrite skipn_all; auto].
  unfold Capture.tick, Classroom.added, Classroom.after. page_unfold.
  cbn [Player.videoRef].
  destruct (Z.eqb_spec videoWidth 0) as [Hw0|Hw0]; cbn [orb].
  { page_unfold. rewrite skipn_exact. auto. }
  destruct (Z.eqb_spec videoHeight 0) as [Hh0|Hh0].
  { page_unfold. rewrite skipn_exact. auto. }
  destruct context; cbn [negb].
  { destruct H as [H|[H|[H|H]]]; try discriminate; contradiction. }
  page_unfold. rewrite skipn_exact. auto.
Qed.

Lemma tick_skips_witness :
  (isTracking playing = false \/ 0 = 0 \/ 480 = 0 \/ true = false)
  /\ filter isRequest
       (Classroom.added
          (Capture.tick "production" 0 480 true
             (JS.Resolved "data:image/jpeg;base64,AAAA") ok)
          playing)
     = [].
Proof.
  split; [right; left; reflexivity|].
  destruct (@tick_skips "production" 0 480 true
              (JS.Resolved "data:image/jpeg;base64,AAAA") ok playing)
    as (_ & H); [right; left; reflexivity|].
  exact H.
Defined.

(** X25.  A capture tick on a tracking page whose video has dimensions and
    whose canvas has a context sends exactly one request: the frame just
    drawn, to the frame endpoint. *)
Theorem tick_sends_frame (NODE_ENV frameData : string)
        (videoWidth videoHeight : Z) (frame : JS.Outcome Api.Response) (env : Env.t) :
  isTracking env = true ->
  Player.videoRef (Env.player env) <> None ->
  videoWidth <> 0 -> videoHeight <> 0 -> frameData <> "" ->
  filter isRequest
    (Classroom.added
       (Capture.tick NODE_ENV videoWidth videoHeight true (JS.Resolved frameData) frame)
       env)
  = [Request "POST" "/api/flask/process_frame" (FrameBody frameData)].
Proof.
  intros Htr Hv Hw Hh Hdata.
  destruct env as [[it mt er fl] p live evs0].
  cbn in Htr, Hv. subst it.
  destruct (Player.videoRef p) as [v|] eqn:Ev; [|contradiction].
  apply Z.eqb_neq in Hw, Hh. apply nonempty_eqb in Hdata.
  unfold Classroom.added, Capture.tick. page_unfold. rewrite Ev, Hw, Hh.
  cbn [orb negb].
  page_unfold. rewrite Hdata.
  destruct (String.eqb NODE_ENV "development") eqn:Eenv;
    destruct frame as [[[] st [[| | | | | |]|e]]|e];
    page_open; rewrite ?Eenv; page_open; log_facts.
Qed.

Lemma tick_sends_frame_witness :
  isTracking playing = true
  /\ filter isRequest
       (Classroom.added
          (Capture.tick "production" 640 480 true
             (JS.Resolved "data:image/jpeg;base64,AAAA") ok)
          playing)
     = [Request "POST" "/api/flask/process_frame"
                (FrameBody "data:image/jpeg;base64,AAAA")].
Proof.
  assert (Htr : isTracking playing = true) by (vm_compute; reflexivity).
  split; [exact Htr|].
  apply (@tick_sends_frame "production" "data:image/jpeg;base64,AAAA" 640 480 ok
           playing Htr); [vm_compute|lia|lia|]; discriminate.
Defined.

(** ** Witnesses for the camera release *)

Lemma stop_while_playing_releases_witness :
  isTracking playing = true
  /\ Player.usingWebcam (Env.player playing) = true
  /\ cameraReleased
       (Classroom.after
          (Classroom.clickToggle 1 1
             (JS.Rejected (JS.Error "TypeError" "Failed to fetch")) ok)
          playing).
Proof.
  assert (Htr : isTracking playing = true) by (vm_compute; reflexivity).
  assert (Hw : Player.usingWebcam (Env.player playing) = true)
    by (vm_compute; reflexivity).
  split; [exact Htr|]. split; [exact Hw|].
  apply (@stop_while_playing_releases 1 1 playing
           (JS.Rejected (JS.Error "TypeError" "Failed to fetch")) ok [7] Htr Hw).
  - vm_compute. reflexivity.
  - vm_compute. reflexivity.
  - replace (Env.liveTracks playing) with [7] by (vm_compute; reflexivity).
    apply incl_refl.
Defined.

Lemma unmount_releases_witness :
  Player.mediaStreamRef (Env.player granted) = Some [7]
  /\ cameraReleased (Classroom.after VideoPlayer.unmount granted).
Proof.
  assert (Hs : Player.mediaStreamRef (Env.player granted) = Some [7])
    by (vm_compute; reflexivity).
  split; [exact Hs|].
  apply (@unmount_releases granted [7] Hs).
  replace (Env.liveTracks granted) with [7] by (vm_compute; reflexivity).
  apply incl_refl.
Defined.

End PageFacts.
